(** * Measurement normalisation and metadata join: a shallow embedding

    The development follows [pipeline/beam_tables.py],
    [pipeline/metadata/flatten.py] and [pipeline/metadata/maxmind.py].
    Python values are represented as follows:
    - [str] is [string] (one-byte characters), [int] is [Z];
    - [Optional[T]] is [option T];
    - a raised exception is the [Raise] branch of [result];
    - a Beam [PCollection] is a [list]; the element order a runner picks is
      not significant for any statement below;
    - logging, [uuid.uuid4] and the calls made to the metadata provider are
      threaded through the state of the monad [M]. *)

From Stdlib Require Import ZArith Ascii String List Lia Bool.
From stdpp Require Import base list strings gmap.

Open Scope string_scope.
Open Scope Z_scope.

#[global] Arguments String.append !_ _ / : simpl nomatch.

(** ** Exceptions and fallible results *)

Inductive exn : Type :=
| IndexError
| ValueError
| KeyError (msg : string)
| JSONDecodeError (msg : string)
| AddressNotFoundError
| ProviderUnavailable
| Exception (msg : string).

Inductive result (A : Type) : Type :=
| Ok (a : A)
| Raise (e : exn).
Arguments Ok {A} a.
Arguments Raise {A} e.

Definition result_bind {A B : Type} (r : result A) (k : A -> result B)
  : result B :=
  match r with
  | Ok a => k a
  | Raise e => Raise e
  end.

Declare Scope result_scope.
Delimit Scope result_scope with result.
Notation "x <- c1 ;; c2" := (result_bind c1 (fun x => c2))
  (at level 100, c1 at next level, right associativity) : result_scope.
Open Scope result_scope.

Definition is_ok {A : Type} (r : result A) : bool :=
  match r with Ok _ => true | Raise _ => false end.

(** ** Strings: the fragment of [str], [re] and [pathlib] the selector uses

    Object paths are taken to hold one-byte characters only, so that [\d]
    stands for the ten ASCII digits. *)

Module Str.

Definition char_eqb (a b : ascii) : bool := Ascii.eqb a b.

(** [\d] restricted to one-byte characters. *)
Definition is_digit (c : ascii) : bool :=
  let n := nat_of_ascii c in (48 <=? n)%nat && (n <=? 57)%nat.

Definition digit_val (c : ascii) : Z := Z.of_nat (nat_of_ascii c) - 48.

(** [s.startswith(p)] *)
Fixpoint startswith (p s : string) : bool :=
  match p, s with
  | EmptyString, _ => true
  | String a p', String b s' => char_eqb a b && startswith p' s'
  | String _ _, EmptyString => false
  end.

(** [needle in hay] *)
Fixpoint contains (needle hay : string) : bool :=
  startswith needle hay ||
  match hay with
  | EmptyString => false
  | String _ hay' => contains needle hay'
  end.

(** [s[n:]] *)
Fixpoint drop (n : nat) (s : string) : string :=
  match n, s with
  | O, _ => s
  | S n', String _ s' => drop n' s'
  | S _, EmptyString => EmptyString
  end.

(** [s[:n]] *)
Fixpoint take (n : nat) (s : string) : string :=
  match n, s with
  | O, _ => EmptyString
  | S n', String c s' => String c (take n' s')
  | S _, EmptyString => EmptyString
  end.

(** [s.endswith(p)] *)
Definition endswith (p s : string) : bool :=
  (String.length p <=? String.length s)%nat &&
  String.eqb (drop (String.length s - String.length p) s) p.

(** [s.split(sep)] for a one-character separator. *)
Fixpoint split (sep : ascii) (s : string) : list string :=
  match s with
  | EmptyString => [EmptyString]
  | String c s' =>
      if char_eqb c sep then EmptyString :: split sep s'
      else match split sep s' with
           | hd :: tl => String c hd :: tl
           | [] => [String c EmptyString]
           end
  end.

(** [s.lstrip(c)] for a one-character set. *)
Fixpoint lstrip (c : ascii) (s : string) : string :=
  match s with
  | EmptyString => EmptyString
  | String a s' => if char_eqb a c then lstrip c s' else s
  end.

(** [s.rfind(c)]; [None] stands for Python's [-1]. *)
Fixpoint rfind (c : ascii) (s : string) : option nat :=
  match s with
  | EmptyString => None
  | String a s' =>
      match rfind c s' with
      | Some i => Some (S i)
      | None => if char_eqb a c then Some O else None
      end
  end.

End Str.

(** *** [re.findall(r'\d\d\d\d-\d\d-\d\d', s)] *)

(** Does the date pattern match at the very start of [s]? *)
Definition date_pattern_at (s : string) : bool :=
  match s with
  | String y1 (String y2 (String y3 (String y4 (String h1
      (String m1 (String m2 (String h2 (String d1 (String d2 _))))))))) =>
      Str.is_digit y1 && Str.is_digit y2 && Str.is_digit y3 && Str.is_digit y4
      && Str.char_eqb h1 "-"
      && Str.is_digit m1 && Str.is_digit m2
      && Str.char_eqb h2 "-"
      && Str.is_digit d1 && Str.is_digit d2
  | _ => false
  end.

(** Leftmost, non-overlapping matches; [skip] counts the characters of the
    last match that are still to be stepped over. *)
Fixpoint findall_date_from (skip : nat) (s : string) : list string :=
  match s with
  | EmptyString => []
  | String _ s' =>
      match skip with
      | S k => findall_date_from k s'
      | O => if date_pattern_at s
             then Str.take 10 s :: findall_date_from 9 s'
             else findall_date_from 0 s'
      end
  end.

Definition findall_date (s : string) : list string := findall_date_from 0 s.

(** [l[0]] *)
Definition index0 {A : Type} (l : list A) : result A :=
  match l with
  | x :: _ => Ok x
  | [] => Raise IndexError
  end.

(** ** [datetime.date] *)

Record datetime_date : Type := mkDate { year : Z; month : Z; day : Z }.

Definition is_leap (y : Z) : bool :=
  (y mod 4 =? 0) && (negb (y mod 100 =? 0) || (y mod 400 =? 0)).

Definition days_in_month (y m : Z) : Z :=
  if m =? 2 then (if is_leap y then 29 else 28)
  else if (m =? 4) || (m =? 6) || (m =? 9) || (m =? 11) then 30
  else 31.

(** [datetime.date.fromisoformat] as Python up to 3.10 defines it, for the
    [YYYY-MM-DD] form only: a string of any other shape, or one that names
    no calendar day (years run from 1 to 9999), raises [ValueError]. *)
Definition fromisoformat (s : string) : result datetime_date :=
  match s with
  | String y1 (String y2 (String y3 (String y4 (String _
      (String m1 (String m2 (String _ (String d1 (String d2 EmptyString))))))))) =>
      if date_pattern_at s then
        let y := 1000 * Str.digit_val y1 + 100 * Str.digit_val y2
                 + 10 * Str.digit_val y3 + Str.digit_val y4 in
        let m := 10 * Str.digit_val m1 + Str.digit_val m2 in
        let d := 10 * Str.digit_val d1 + Str.digit_val d2 in
        if (1 <=? y) && (1 <=? m) && (m <=? 12)
           && (1 <=? d) && (d <=? days_in_month y m)
        then Ok (mkDate y m d)
        else Raise ValueError
      else Raise ValueError
  | _ => Raise ValueError
  end.

(** [a <= b] on dates: by year, then month, then day. *)
Definition date_leb (a b : datetime_date) : bool :=
  (year a <? year b)
  || ((year a =? year b)
      && ((month a <? month b)
          || ((month a =? month b) && (day a <=? day b)))).

(** ** The constants of [beam_tables] *)

Definition SCAN_TYPES_TO_ZONES : list (string * string) :=
  [("https", "us-east1"); ("http", "us-east4"); ("echo", "us-west1");
   ("discard", "us-west2"); ("satellite", "us-central1")].

Definition ALL_SCAN_TYPES : list string := List.map fst SCAN_TYPES_TO_ZONES.

Definition SCAN_FILES : list string := ["results.json"].

(** An empty json file is 0 bytes when unzipped, but 33 bytes when zipped. *)
Definition EMPTY_GZIPPED_FILE_SIZE : Z := 33.

(** ** The source selector *)

Definition _between_dates (filename : string)
    (start_date end_date : option datetime_date) : result bool :=
  stamp <- index0 (findall_date filename) ;;
  d <- fromisoformat stamp ;;
  match start_date, end_date with
  | Some s, Some e => Ok (date_leb s d && date_leb d e)
  | Some s, None => Ok (date_leb s d)
  | None, Some e => Ok (date_leb d e)
  | None, None => Ok true
  end.

Module PurePosixPath.

(** The path components [pathlib] keeps, the root apart: empty ones and
    ["."] are dropped. *)
Definition parts (path : string) : list string :=
  List.filter (fun x => negb (String.eqb x "") && negb (String.eqb x "."))
              (Str.split "/" path).

Definition name (path : string) : string := List.last (parts path) "".

Definition suffixes (path : string) : list string :=
  let n := name path in
  if Str.endswith "." n then []
  else List.map (fun suffix => "." ++ suffix)
                (List.tl (Str.split "." (Str.lstrip "." n))).

Definition stem (path : string) : string :=
  let n := name path in
  match Str.rfind "." n with
  | Some i => if (0 <? i)%nat && (i <? String.length n - 1)%nat
              then Str.take i n else n
  | None => n
  end.

End PurePosixPath.

(** [x in l] for a list of strings. *)
Definition str_in (x : string) (l : list string) : bool :=
  List.existsb (String.eqb x) l.

Definition _filename_matches (filepath : string)
    (allowed_filenames : list string) : bool :=
  let filename := PurePosixPath.name filepath in
  let filename :=
    if str_in ".gz" (PurePosixPath.suffixes filename)
    then PurePosixPath.stem filename
    else filename in
  str_in filename allowed_filenames.

(** [GCSFileSystem.match] reports a path and a size per object. *)
Record FileMetadata : Type := mkFileMetadata {
  path : string;
  size_in_bytes : Z
}.

(** A list comprehension whose condition may raise: the first exception
    ends the comprehension. *)
Fixpoint filter_raising {A : Type} (cond : A -> result bool) (l : list A)
  : result (list A) :=
  match l with
  | [] => Ok []
  | x :: l' =>
      b <- cond x ;;
      rest <- filter_raising cond l' ;;
      Ok (if b then x :: rest else rest)
  end.

Section Selector.

(** The runner's [project] and [bucket] attributes. *)
Variable project bucket : string.

(** Collaborators outside the selector: the object listing
    ([gcs.match] on one pattern gives one match result, whose
    [metadata_list] this is), the query for the sources already at the
    destination, [flatten_base]'s [source_from_filename], and the constants
    of the satellite family. *)
Variable gcs_match : string -> list FileMetadata.
Variable _get_existing_datasources : string -> string -> list string.
Variable source_from_filename : string -> string.
Variable SCAN_TYPE_SATELLITE : string.
Variable SATELLITE_FILES : list string.

Definition _get_full_table_name (table_name : string) : string :=
  project ++ ":" ++ table_name.

(** The [existing_sources] of [_data_to_load]. *)
Definition existing_sources_of (incremental_load : bool)
    (destination : string) : list string :=
  if incremental_load then
    let destination :=
      if negb (Str.startswith "gs://" destination)
      then _get_full_table_name destination
      else destination in
    _get_existing_datasources destination project
  else [].

(** The [files_to_load] of [_data_to_load]. *)
Definition files_to_load_of (scan_type : string) : list string :=
  if String.eqb scan_type SCAN_TYPE_SATELLITE
  then SATELLITE_FILES
  else SCAN_FILES.

Definition _data_to_load (scan_type : string) (incremental_load : bool)
    (destination : string) (start_date end_date : option datetime_date)
  : result (list string) :=
  let existing_sources := existing_sources_of incremental_load destination in
  let files_to_load := files_to_load_of scan_type in
  let files_regex := bucket ++ scan_type ++ "/**/*" in
  let file_metadata := gcs_match files_regex in
  let filepaths := List.map path file_metadata in
  let file_sizes := List.map size_in_bytes file_metadata in
  selected <- filter_raising
    (fun '(filepath, file_size) =>
       between <- _between_dates filepath start_date end_date ;;
       Ok (between
           && _filename_matches filepath files_to_load
           && negb (str_in (source_from_filename filepath) existing_sources)
           && (EMPTY_GZIPPED_FILE_SIZE <? file_size)))
    (List.combine filepaths file_sizes) ;;
  Ok (List.map fst selected).

End Selector.

(** ** Effects: log records, random identifiers, provider calls *)

Record LogRecord : Type := mkLogRecord {
  levelname : string;
  msg_format : string;
  msg_args : list string
}.

(** What the run did to the metadata provider: a factory call returning the
    provider instance [instance], or a lookup made on an instance. *)
Inductive ProviderCall : Type :=
| MakeChooser (d : datetime_date) (instance : nat)
| GetMetadata (instance : nat) (ip : string).

Record World : Type := mkWorld {
  log : list LogRecord;
  uuid_draws : nat;
  provider_calls : list ProviderCall
}.

Definition M (A : Type) : Type := World -> result A * World.

Definition M_ret {A : Type} (a : A) : M A := fun w => (Ok a, w).

Definition M_bind {A B : Type} (c : M A) (k : A -> M B) : M B :=
  fun w =>
    match c w with
    | (Ok a, w') => k a w'
    | (Raise e, w') => (Raise e, w')
    end.

Declare Scope M_scope.
Delimit Scope M_scope with M.
Notation "x <- c1 ;; c2" := (M_bind c1 (fun x => c2))
  (at level 100, c1 at next level, right associativity) : M_scope.
Notation "c1 ;; c2" := (M_bind c1 (fun _ => c2))
  (at level 100, right associativity) : M_scope.

Definition raise {A : Type} (e : exn) : M A := fun w => (Raise e, w).

Definition lift {A : Type} (r : result A) : M A := fun w => (r, w).

Definition emit (records : list LogRecord) : M unit :=
  fun w => (Ok tt, mkWorld (log w ++ records)%list (uuid_draws w) (provider_calls w)).

Definition logging_warning (fmt : string) (args : list string) : M unit :=
  emit [mkLogRecord "WARNING" fmt args].

Definition logging_info (fmt : string) (args : list string) : M unit :=
  emit [mkLogRecord "INFO" fmt args].

Definition record_call (c : ProviderCall) : M unit :=
  fun w => (Ok tt, mkWorld (log w) (uuid_draws w) (provider_calls w ++ [c])%list).

(** [for x in l: ...], collecting what each iteration yields; also a
    [ParDo] or [FlatMapTuple] of a function with effects over a collection. *)
Fixpoint for_each {A B : Type} (body : A -> M (list B)) (l : list A)
  : M (list B) :=
  match l with
  | [] => M_ret []
  | x :: l' =>
      (ys <- body x ;;
       rest <- for_each body l' ;;
       M_ret (ys ++ rest)%list)%M
  end.

Definition str_of_exn (e : exn) : string :=
  match e with
  | IndexError => "list index out of range"
  | ValueError => "ValueError"
  | KeyError msg => msg
  | JSONDecodeError msg => msg
  | AddressNotFoundError => "AddressNotFoundError"
  | ProviderUnavailable => "ProviderUnavailable"
  | Exception msg => msg
  end.

(** ** Rows, join keys and metadata records *)

(** Modelled from the spec: [schema] is not among the sources at hand.
    "MetadataRecord — optional netblock, optional asn, optional as_name,
    optional as_full_name, optional as_type, optional country." *)
Record IpMetadataWithKeys : Type := mkIpMetadata {
  netblock : option string;
  asn : option Z;
  as_name : option string;
  as_full_name : option string;
  as_type : option string;
  country : option string
}.

(** [IpMetadataWithKeys()]: every field unset. *)
Definition no_metadata : IpMetadataWithKeys :=
  mkIpMetadata None None None None None None.

(** Modelled from the spec: "Rows are a tagged variant: probe-style (one
    row per protocol attempt, carrying a success flag and response metadata)
    and resolution-style (one row per DNS answer, carrying resolved
    addresses and consistency flags)." *)
Inductive RowVariant : Type :=
| ProbeFields (success : bool) (received : option string)
| ResolutionFields (resolved : list string) (consistent : bool).

(** Modelled from the spec: "Row — common fields: date, source, domain, ip,
    measurement_id, plus scan-family-specific fields"; the metadata fields
    "start unset and are filled only by the join engine". *)
Record BigqueryRow : Type := mkRow {
  date : string;
  source : string;
  domain : string;
  ip : string;
  measurement_id : string;
  variant : RowVariant;
  ip_metadata : IpMetadataWithKeys
}.

(** Modelled from the spec: "JoinKey — (date, ip) pair". *)
Definition DateIpKey : Type := (string * string)%type.

(** ** The measurement flattener *)

(** What [json.loads] returns. *)
#[local] Unset Elimination Schemes.
Inductive Json : Type :=
| JNull
| JBool (b : bool)
| JNumber (n : Z)
| JString (s : string)
| JArray (items : list Json)
| JObject (fields : list (string * Json)).
#[local] Set Elimination Schemes.

(** [uuid.uuid4().hex]: the next draw of the random source. *)
Definition uuid4_hex (random_source : nat -> string) : M string :=
  fun w => (Ok (random_source (uuid_draws w)),
            mkWorld (log w) (S (uuid_draws w)) (provider_calls w)).

Section FlattenMeasurement.

(** The standard library's parser and the process's random source. *)
Variable json_loads : string -> result Json.
Variable random_source : nat -> string.

(** The path component that marks the resolution-style family, and the
    two extractors mixed into [FlattenMeasurement]; each returns the rows
    it yields. *)
Variable SATELLITE_PATH_COMPONENT : string.
Variable _process_satellite : string -> Json -> string -> result (list BigqueryRow).
Variable _process_hyperquack : string -> Json -> string -> result (list BigqueryRow).

Definition process (element : string * string) : M (list BigqueryRow) :=
  let '(filename, line) := element in
  match json_loads line with
  | Raise (JSONDecodeError e) =>
      (logging_warning "JSONDecodeError: %s\nFilename: %s\n%s\n"
                       [e; filename; line] ;;
       M_ret [])%M
  | Raise e => raise e
  | Ok scan =>
      (random_measurement_id <- uuid4_hex random_source ;;
       if Str.contains SATELLITE_PATH_COMPONENT filename
       then lift (_process_satellite filename scan random_measurement_id)
       else lift (_process_hyperquack filename scan random_measurement_id))%M
  end.

End FlattenMeasurement.

(** ** The Maxmind provider *)

(** A provider reads its snapshot and may log: a result and the records it
    logged on the way. *)
Definition Logged (A : Type) : Type := (result A * list LogRecord)%type.

Definition Logged_ret {A : Type} (a : A) : Logged A := (Ok a, []).

Definition Logged_bind {A B : Type} (c : Logged A) (k : A -> Logged B)
  : Logged B :=
  match c with
  | (Ok a, l1) => let (r, l2) := k a in (r, (l1 ++ l2)%list)
  | (Raise e, l1) => (Raise e, l1)
  end.

Declare Scope logged_scope.
Delimit Scope logged_scope with logged.
Notation "x <- c1 ;; c2" := (Logged_bind c1 (fun x => c2))
  (at level 100, c1 at next level, right associativity) : logged_scope.

(** Running a logging computation inside [M]. *)
Definition run_logged {A : Type} (c : Logged A) : M A :=
  (emit (snd c) ;; lift (fst c))%M.

(** The tuple [lookup] returns:
    [(netblock, asn, as_name, as_full_name, as_type, country)]. *)
Definition IpMetadata : Type :=
  (option string * Z * option string * option string * option string
   * option string)%type.

Module geoip2.

(** The fields read off [Reader.asn(ip)]; [network] holds
    [network.with_prefixlen]. *)
Record ASN : Type := mkASN {
  autonomous_system_number : option Z;
  autonomous_system_organization : option string;
  network : option string
}.

(** The field read off [Reader.city(ip)]: [country.iso_code]. *)
Record City : Type := mkCity {
  country_iso_code : option string
}.

End geoip2.

(** [not asn] for an [Optional[int]]. *)
Definition not_int (x : option Z) : bool :=
  match x with
  | None => true
  | Some n => n =? 0
  end.

Module MaxmindIpMetadata.
Section Readers.

(** The two [geoip2.database.Reader]s opened by [__init__]. *)
Variable maxmind_city : string -> result geoip2.City.
Variable maxmind_asn : string -> result geoip2.ASN.

Definition _get_country_code (vp_ip : string) : Logged (option string) :=
  match maxmind_city vp_ip with
  | Ok vp_info => (Ok (geoip2.country_iso_code vp_info), [])
  | Raise ValueError =>
      (Ok None, [mkLogRecord "WARNING" "Maxmind: %s\n" [str_of_exn ValueError]])
  | Raise AddressNotFoundError =>
      (Ok None, [mkLogRecord "WARNING" "Maxmind: %s\n"
                             [str_of_exn AddressNotFoundError]])
  | Raise e => (Raise e, [])
  end.

Definition _get_maxmind_asn (vp_ip : string)
  : Logged (option Z * option string * option string) :=
  match maxmind_asn vp_ip with
  | Ok vp_info =>
      let asn := geoip2.autonomous_system_number vp_info in
      let as_name := geoip2.autonomous_system_organization vp_info in
      let netblock := geoip2.network vp_info in
      (Ok (asn, as_name, netblock), [])
  | Raise ValueError =>
      (Ok (None, None, None),
       [mkLogRecord "WARNING" "Maxmind: %s\n" [str_of_exn ValueError]])
  | Raise AddressNotFoundError =>
      (Ok (None, None, None),
       [mkLogRecord "WARNING" "Maxmind: %s\n"
                    [str_of_exn AddressNotFoundError]])
  | Raise e => (Raise e, [])
  end.

Definition lookup (ip : string) : Logged IpMetadata :=
  (found <- _get_maxmind_asn ip ;;
   let '(asn, as_name, netblock) := found in
   country <- _get_country_code ip ;;
   if not_int asn
   then (Raise (KeyError ("No Maxmind entry for " ++ ip)), [])
   else Logged_ret (netblock, default 0 asn, as_name, None, None, country)
  )%logged.

End Readers.
End MaxmindIpMetadata.

(** [FakeMaxmindIpMetadata.lookup] *)
Definition FakeMaxmindIpMetadata_lookup (_ : string) : Logged IpMetadata :=
  Logged_ret (Some "101.103.0.0/16", 1221, Some "ASN-TELSTRA", None, None,
              Some "AU").

(** ** The metadata chooser *)

(** Modelled from the spec: [ip_metadata_chooser] is not among the sources
    at hand. A provider handle is the instance the factory returned for a
    date, with the lookup that instance answers. *)
Record IpMetadataChooser : Type := mkChooser {
  instance_id : nat;
  provider_lookup : string -> Logged IpMetadata
}.

(** Modelled from the spec: [get_metadata] of the absent chooser. "On a
    lookup failure for a specific IP (e.g. no matching record), record that
    as no metadata for that key rather than aborting the group." *)
Definition get_metadata (chooser : IpMetadataChooser) (ip : string)
  : M IpMetadataWithKeys :=
  (record_call (GetMetadata (instance_id chooser) ip) ;;
   let (answer, logged) := provider_lookup chooser ip in
   emit logged ;;
   match answer with
   | Ok (netblock, asn, as_name, as_full_name, as_type, country) =>
       M_ret (mkIpMetadata netblock (Some asn) as_name as_full_name as_type
                           country)
   | Raise e =>
       logging_warning "KeyError: %s\n" [str_of_exn e] ;;
       M_ret no_metadata
   end)%M.

(** Modelled from the spec: [make_chooser] of the absent factory.
    "forDate(date) -> ProviderHandle, fails with ProviderUnavailable if the
    date's snapshot cannot be opened." Each call builds a new instance. *)
Definition make_chooser
    (open_snapshot : datetime_date -> option (string -> Logged IpMetadata))
    (d : datetime_date) : M IpMetadataChooser :=
  fun w =>
    let fresh := length (provider_calls w) in
    let w' := mkWorld (log w) (uuid_draws w)
                      (provider_calls w ++ [MakeChooser d fresh])%list in
    match open_snapshot d with
    | Some answers => (Ok (mkChooser fresh answers), w')
    | None => (Raise ProviderUnavailable, w')
    end.

(** ** The Beam transforms the pipeline is built from *)

Module Beam.
Section Transforms.

Context {K : Type} `{EqDecision K}.

(** [beam.Keys()] *)
Definition Keys {V : Type} (pcoll : list (K * V)) : list K :=
  List.map fst pcoll.

(** [beam.Distinct()] *)
Definition Distinct (pcoll : list K) : list K := remove_dups pcoll.

(** The values a keyed collection holds under [k]. *)
Definition values_under {V : Type} (k : K) (pcoll : list (K * V)) : list V :=
  List.map snd (List.filter (fun kv => bool_decide (fst kv = k)) pcoll).

(** [beam.GroupByKey()]: one element per key, with all its values. *)
Definition GroupByKey {V : Type} (pcoll : list (K * V)) : list (K * list V) :=
  List.map (fun k => (k, values_under k pcoll)) (remove_dups (Keys pcoll)).

(** [beam.CoGroupByKey()] of two tagged inputs: one element per key of
    either input, with the values of each input under that key. *)
Definition CoGroupByKey {V1 V2 : Type}
    (pcoll1 : list (K * V1)) (pcoll2 : list (K * V2))
  : list (K * (list V1 * list V2)) :=
  List.map (fun k => (k, (values_under k pcoll1, values_under k pcoll2)))
           (remove_dups (Keys pcoll1 ++ Keys pcoll2)%list).

End Transforms.

(** [beam.FlatMapTuple(fn)] for a [fn] without effects. *)
Definition FlatMapTuple {A B C : Type} (fn : A -> B -> list C)
    (pcoll : list (A * B)) : list C :=
  List.concat (List.map (fun ab => fn (fst ab) (snd ab)) pcoll).

(** [beam.combiners.Count.Globally()]: a single count, also for an empty
    collection. *)
Definition Count_Globally {A : Type} (pcoll : list A) : list Z :=
  [Z.of_nat (length pcoll)].

End Beam.

(** ** The metadata join *)

(** Modelled from the spec: [beam_metadata] is not among the sources at
    hand. "JoinKey — (date, ip) pair", derived from the row. *)
Definition make_date_ip_key (row : BigqueryRow) : DateIpKey :=
  (date row, ip row).

(** Modelled from the spec: a row "augmented with a MetadataRecord"; the
    other fields stay as they are. *)
Definition with_ip_metadata (row : BigqueryRow) (m : IpMetadataWithKeys)
  : BigqueryRow :=
  mkRow (date row) (source row) (domain row) (ip row) (measurement_id row)
        (variant row) m.

(** Modelled from the spec: [merge_metadata_with_rows] of the absent
    [beam_metadata]. "Re-join — merge each MetadataRecord back onto every
    original row sharing its JoinKey. Rows whose key produced no metadata
    pass through with metadata fields left unset." The value is what
    [CoGroupByKey] hands over for one key: the metadata records and the rows
    under it. *)
Definition merge_metadata_with_rows (key : DateIpKey)
    (value : list IpMetadataWithKeys * list BigqueryRow) : list BigqueryRow :=
  match fst value with
  | ip_metadata :: _ =>
      List.map (fun row => with_ip_metadata row ip_metadata) (snd value)
  | [] => snd value
  end.

Section MetadataJoin.

(** What the factory can open: per date, the answers of that day's
    snapshot. *)
Variable open_snapshot : datetime_date -> option (string -> Logged IpMetadata).

Definition _add_ip_metadata (date : string) (ips : list string)
  : M (list (DateIpKey * IpMetadataWithKeys)) :=
  (d <- lift (fromisoformat date) ;;
   ip_metadata_chooser <- make_chooser open_snapshot d ;;
   for_each
     (fun ip =>
        let metadata_key := (date, ip) in
        metadata_values <- get_metadata ip_metadata_chooser ip ;;
        M_ret [(metadata_key, metadata_values)])
     ips)%M.

Definition _add_metadata (rows : list BigqueryRow) : M (list BigqueryRow) :=
  let rows_keyed_by_ip_and_date :=
    List.map (fun row => (make_date_ip_key row, row)) rows in
  let ips_and_dates := Beam.Keys rows_keyed_by_ip_and_date in
  let deduped_ips_and_dates := Beam.Distinct ips_and_dates in
  let grouped_ips_by_dates := Beam.GroupByKey deduped_ips_and_dates in
  (ips_with_metadata <-
     for_each (fun '(date, ips) => _add_ip_metadata date ips)
              grouped_ips_by_dates ;;
   let grouped_metadata_and_rows :=
     Beam.CoGroupByKey ips_with_metadata rows_keyed_by_ip_and_date in
   let rows_with_metadata :=
     Beam.FlatMapTuple merge_metadata_with_rows grouped_metadata_and_rows in
   M_ret rows_with_metadata)%M.

End MetadataJoin.

(** ** The run *)

Definition _raise_exception_if_zero (num : Z) : result unit :=
  if num =? 0
  then Raise (Exception "Zero rows were created even though there were new files.")
  else Ok tt.

Definition _raise_error_if_collection_empty (rows : list BigqueryRow)
  : result (list unit) :=
  match Beam.Count_Globally rows with
  | [num] => _ <- _raise_exception_if_zero num ;; Ok [tt]
  | _ => Ok []
  end.

(** Where the rows of a run went. *)
Inductive Outcome : Type :=
| NothingToLoad
| WrittenToGcs (gcs_folder : string) (rows : list BigqueryRow)
| WrittenToBigquery (table_name : string) (append : bool)
                    (rows : list BigqueryRow).

(** [d[key]] on a dict with string keys and values. *)
Fixpoint dict_getitem (d : list (string * string)) (key : string)
  : result string :=
  match d with
  | [] => Raise (KeyError key)
  | (k, v) :: d' => if String.eqb k key then Ok v else dict_getitem d' key
  end.

(** The options [_get_pipeline_options] sets that depend on its arguments
    or on the runner. *)
Record PipelineOptions : Type := mkPipelineOptions {
  options_runner : string;
  options_project : string;
  options_region : string;
  options_staging_location : string;
  options_temp_location : string;
  options_job_name : string
}.

Section Run.

Variable project bucket staging_location temp_location : string.
Variable gcs_match : string -> list FileMetadata.
Variable _get_existing_datasources : string -> string -> list string.
Variable source_from_filename : string -> string.
Variable SCAN_TYPE_SATELLITE : string.
Variable SATELLITE_FILES : list string.

Variable json_loads : string -> result Json.
Variable random_source : nat -> string.
Variable SATELLITE_PATH_COMPONENT : string.
Variable _process_satellite : string -> Json -> string -> result (list BigqueryRow).
Variable _process_hyperquack : string -> Json -> string -> result (list BigqueryRow).

Variable open_snapshot : datetime_date -> option (string -> Logged IpMetadata).

(** [ReadAllFromText]: the lines of a file; and the satellite family's own
    line processing. *)
Variable read_lines : string -> list string.
Variable process_satellite_lines : list (string * string) -> M (list BigqueryRow).

Definition _read_scan_text (filenames : list string) : list (string * string) :=
  List.concat
    (List.map (fun filename =>
                 List.map (fun line => (filename, line)) (read_lines filename))
              filenames).

Definition _get_pipeline_options (scan_type job_name : string)
  : result PipelineOptions :=
  region <- dict_getitem SCAN_TYPES_TO_ZONES scan_type ;;
  Ok (mkPipelineOptions "DataflowRunner" project region staging_location
                        temp_location job_name).

Definition run_beam_pipeline (scan_type : string) (incremental_load : bool)
    (job_name destination : string)
    (start_date end_date : option datetime_date) (export_gcs : bool)
  : M Outcome :=
  let is_gcs_destination := Str.startswith "gs://" destination in
  if export_gcs && negb is_gcs_destination then
    raise (Exception "Destination must start with gs:// when writing to GCS.")
  else if negb export_gcs && is_gcs_destination then
    raise (Exception
      "Destination must be a dataset.table name when writing to BigQuery.")
  else
    (pipeline_options <- lift (_get_pipeline_options scan_type job_name) ;;
     new_filenames <-
       lift (_data_to_load project bucket gcs_match _get_existing_datasources
               source_from_filename SCAN_TYPE_SATELLITE SATELLITE_FILES
               scan_type incremental_load destination start_date end_date) ;;
     match new_filenames with
     | [] => logging_info "No new files to load" [] ;; M_ret NothingToLoad
     | _ :: _ =>
         let lines := _read_scan_text new_filenames in
         rows <-
           (if String.eqb scan_type SCAN_TYPE_SATELLITE
            then process_satellite_lines lines
            else for_each
                   (process json_loads random_source SATELLITE_PATH_COMPONENT
                            _process_satellite _process_hyperquack)
                   lines) ;;
         rows_with_metadata <- _add_metadata open_snapshot rows ;;
         _ <- lift (_raise_error_if_collection_empty rows_with_metadata) ;;
         if export_gcs
         then M_ret (WrittenToGcs destination rows_with_metadata)
         else M_ret (WrittenToBigquery
                       (_get_full_table_name project destination)
                       incremental_load rows_with_metadata)
     end)%M.

End Run.

(** * Destinations, names and the file sink

    The functions of [beam_tables] around the selector and the run: what is
    already at a destination, how tables, folders and jobs are named, and
    how rows are filed when they are written to a GCS folder. *)

From Stdlib Require Import DecimalString.

(** ** More of [str], [re] and [os.path] *)

Module PyStr.

(** [s.replace(old, new)] for a non-empty [old]: its occurrences are
    replaced from left to right, without overlap; [skip] counts the
    characters of the last occurrence that are still to be stepped over. *)
Fixpoint replace_from (skip : nat) (old new s : string) : string :=
  match s with
  | EmptyString => EmptyString
  | String c s' =>
      match skip with
      | S k => replace_from k old new s'
      | O => if Str.startswith old s
             then new ++ replace_from (String.length old - 1) old new s'
             else String c (replace_from 0 old new s')
      end
  end.

(** [s.replace('', new)]: [new] before every character and at the end. *)
Fixpoint interleave (new s : string) : string :=
  match s with
  | EmptyString => new
  | String c s' => new ++ String c (interleave new s')
  end.

(** [s.replace(old, new)] *)
Definition replace (old new s : string) : string :=
  match old with
  | EmptyString => interleave new s
  | String _ _ => replace_from 0 old new s
  end.

(** [s.split(sep, maxsplit=1)] for a one-character separator. *)
Fixpoint split_once (sep : ascii) (s : string) : list string :=
  match s with
  | EmptyString => [EmptyString]
  | String c s' =>
      if Str.char_eqb c sep then [EmptyString; s']
      else match split_once sep s' with
           | hd :: tl => String c hd :: tl
           | [] => [String c EmptyString]
           end
  end.

(** What [[^c]*] matches at the start of [s]: the longest prefix
    without [c]. *)
Fixpoint take_until (c : ascii) (s : string) : string :=
  match s with
  | EmptyString => EmptyString
  | String a s' =>
      if Str.char_eqb a c then EmptyString else String a (take_until c s')
  end.

(** [os.path.join(a, b)] of [posixpath]. *)
Definition os_path_join (a b : string) : string :=
  if Str.startswith "/" b then b
  else if String.eqb a "" || Str.endswith "/" a then a ++ b
  else a ++ "/" ++ b.

(** The line feed, [b'\n']. *)
Definition newline : ascii := "010"%char.

End PyStr.

(** [re.findall(r'source=[^/]*', s)]: leftmost matches, without overlap. *)
Fixpoint findall_source_from (skip : nat) (s : string) : list string :=
  match s with
  | EmptyString => []
  | String _ s' =>
      match skip with
      | S k => findall_source_from k s'
      | O => if Str.startswith "source=" s
             then let m :=
                    ("source=" ++ PyStr.take_until "/" (Str.drop 7 s))%string in
                  m :: findall_source_from (String.length m - 1) s'
             else findall_source_from 0 s'
      end
  end.

Definition findall_source (s : string) : list string :=
  findall_source_from 0 s.

(** ** Table, folder and job names *)

(** Tables have names like 'echo_scan' and 'http_scan'. *)
Definition BASE_TABLE_NAME : string := "scan".

(** Prod data goes in the `firehook-censoredplanet:base' dataset. *)
Definition PROD_DATASET_NAME : string := "base".

Definition get_job_name (table_name : string) (incremental_load : bool)
  : string :=
  let fixed_table_name :=
    PyStr.replace "." "-" (PyStr.replace "_" "-" table_name) in
  let fixed_table_name := PyStr.replace "/" "-" fixed_table_name in
  if incremental_load
  then "append-" ++ fixed_table_name
  else "write-" ++ fixed_table_name.

Definition get_table_name (dataset_name scan_type base_table_name : string)
  : string :=
  dataset_name ++ "." ++ scan_type ++ "_" ++ base_table_name.

Definition get_gcs_folder (dataset_name bucket_name : string) : string :=
  "gs://" ++ bucket_name ++ "/" ++ dataset_name.

(** ** The sources already at a destination *)

(** [[match[0][7:] for match in matches if match]] *)
Definition sources_of_matches (matches : list (list string)) : list string :=
  List.concat
    (List.map (fun match_ => match match_ with
                             | m :: _ => [Str.drop 7 m]
                             | [] => []
                             end)
              matches).

Section ExistingDatasources.

(** The two cloud clients: the names of the blobs [list_blobs] yields for a
    project, a bucket and an optional prefix, and the [source] column of the
    rows a query returns for a project. *)
Variable list_blobs : string -> string -> option string -> list string.
Variable query_sources : string -> string -> list string.

Definition _get_existing_datasources (destination project : string)
  : list string :=
  if Str.startswith "gs://" destination then
    let path_split := PyStr.split_once "/" (Str.drop 5 destination) in
    let bucket_name := List.nth 0%nat path_split "" in
    let folder :=
      if (1 <? length path_split)%nat
      then Some (List.nth 1%nat path_split "")
      else None in
    let matches :=
      List.map findall_source (list_blobs project bucket_name folder) in
    sources_of_matches matches
  else
    let fixed_table_name := PyStr.replace ":" "." destination in
    let query :=
      ("SELECT DISTINCT(source) AS source FROM `" ++ fixed_table_name
       ++ "`")%string in
    query_sources project query.

End ExistingDatasources.

(** ** Writing to a GCS folder *)

Module JsonGzSink.

(** A sink that was opened on a file handle; the handle is the bytes
    written to it so far. *)
Record t : Type := mkSink { file_handle : string }.

(** [ToBytesCoder.encode] on a [str]: its bytes. *)
Definition coder_encode (record : string) : string := record.

(** [(mime_type, compression_type)] *)
Definition create_metadata (destination full_file_name : string)
  : string * string :=
  ("application/json", "gzip").

Definition open (fh : string) : t := mkSink fh.

Definition write (self : t) (record : string) : t :=
  mkSink (file_handle self ++ (coder_encode record
                               ++ String PyStr.newline EmptyString)).

Definition flush (self : t) : t := self.

End JsonGzSink.

(** [record_dict[key]] on what [json.loads] returned; a [JObject] lists the
    items of the dict. A value that is no dict raises a [TypeError], carried
    here by [Exception]. *)
Fixpoint items_getitem (items : list (string * Json)) (key : string)
  : result Json :=
  match items with
  | [] => Raise (KeyError key)
  | (k, v) :: items' =>
      if String.eqb k key then Ok v else items_getitem items' key
  end.

Definition json_getitem (record_dict : Json) (key : string) : result Json :=
  match record_dict with
  | JObject items => items_getitem items key
  | _ => Raise (Exception "TypeError")
  end.

(** [str(x)] for an [Optional[int]] and an [Optional[str]]. *)
Definition str_of_optional_int (x : option Z) : string :=
  match x with
  | Some n => NilZero.string_of_int (Z.to_int n)
  | None => "None"
  end.

Definition str_of_optional_str (x : option string) : string :=
  match x with
  | Some s => s
  | None => "None"
  end.

(** The arguments Beam hands to a file naming function. *)
Record FileNamingArgs (Window Pane : Type) : Type := mkFileNamingArgs {
  naming_window : Window;
  naming_pane : Pane;
  naming_shard_index : option Z;
  naming_total_shards : option Z;
  naming_compression : option string;
  naming_destination : option string
}.
Arguments mkFileNamingArgs {Window Pane}.
Arguments naming_window {Window Pane}.
Arguments naming_pane {Window Pane}.
Arguments naming_shard_index {Window Pane}.
Arguments naming_total_shards {Window Pane}.
Arguments naming_compression {Window Pane}.
Arguments naming_destination {Window Pane}.

Section WriteToGcs.

(** The standard library's parser, and [str] on a parsed value, which the
    f-string of [get_destination] applies. *)
Variable json_loads : string -> result Json.
Variable str_of_json : Json -> string.

(** Beam's [destination_prefix_naming(suffix)], with its windows and
    panes. *)
Variable Window Pane : Type.
Variable destination_prefix_naming :
  option string -> FileNamingArgs Window Pane -> string.

Variable scan_type : string.

Definition get_destination (record : string) : result string :=
  record_dict <- json_loads record ;;
  source <- json_getitem record_dict "source" ;;
  country <- json_getitem record_dict "country" ;;
  Ok (scan_type ++ "/source=" ++ str_of_json source
      ++ "/country=" ++ str_of_json country ++ "/results")%string.

(** [custom_file_naming(suffix)] returns [_inner]. *)
Definition custom_file_naming (suffix : option string)
    (args : FileNamingArgs Window Pane) : M string :=
  let filename := destination_prefix_naming suffix args in
  let filename := PyStr.replace "-00000-of-00001" "" filename in
  (logging_info "%s %s %s %s"
     [str_of_optional_str (naming_destination args);
      str_of_optional_int (naming_shard_index args);
      str_of_optional_int (naming_total_shards args);
      filename] ;;
   M_ret filename)%M.

End WriteToGcs.

(** ** Opening the Maxmind databases *)

Definition MAXMIND_CITY : string := "GeoLite2-City.mmdb".
Definition MAXMIND_ASN : string := "GeoLite2-ASN.mmdb".

Module MaxmindFiles.

(** A [geoip2.database.Reader]: the two lookups [MaxmindIpMetadata]
    makes on it. *)
Record Reader : Type := mkReader {
  city : string -> result geoip2.City;
  asn : string -> result geoip2.ASN
}.

Section Init.

(** [_maxmind_reader]: the reader of the database at a path, or the
    exception opening it raises. *)
Variable _maxmind_reader : string -> result Reader.

(** [MaxmindIpMetadata.__init__]: the attributes [maxmind_city] and
    [maxmind_asn]. *)
Definition __init__ (maxmind_folder : string) : result (Reader * Reader) :=
  let maxmind_city_path := PyStr.os_path_join maxmind_folder MAXMIND_CITY in
  let maxmind_asn_path := PyStr.os_path_join maxmind_folder MAXMIND_ASN in
  maxmind_city <- _maxmind_reader maxmind_city_path ;;
  maxmind_asn <- _maxmind_reader maxmind_asn_path ;;
  Ok (maxmind_city, maxmind_asn).

End Init.
End MaxmindFiles.
(** * The vocabulary of the specification *)

(** ** Date stamps in a path *)

Definition digit (c : ascii) : Prop :=
  In c ["0"; "1"; "2"; "3"; "4"; "5"; "6"; "7"; "8"; "9"]%char.

(** A [YYYY-MM-DD] shaped string. *)
Inductive date_shaped : string -> Prop :=
| date_shaped_intro (y1 y2 y3 y4 m1 m2 d1 d2 : ascii) :
    digit y1 -> digit y2 -> digit y3 -> digit y4 ->
    digit m1 -> digit m2 -> digit d1 -> digit d2 ->
    date_shaped
      (String y1 (String y2 (String y3 (String y4 (String "-"
        (String m1 (String m2 (String "-"
          (String d1 (String d2 EmptyString)))))))))).

(** [stamp] occurs in [p] right after the prefix [pre]. *)
Definition stamp_at (p pre stamp : string) : Prop :=
  date_shaped stamp /\ exists post, p = pre ++ stamp ++ post.

Definition has_date_stamp (p : string) : Prop :=
  exists pre stamp, stamp_at p pre stamp.

(** The date stamp embedded in a path: the leftmost one. *)
Definition embedded_stamp (p stamp : string) : Prop :=
  exists pre,
    stamp_at p pre stamp /\
    forall pre' stamp', stamp_at p pre' stamp' ->
      (String.length pre <= String.length pre')%nat.

(** The date a path embeds, when its stamp names a calendar day. *)
Definition embedded_date (p : string) (d : datetime_date) : Prop :=
  exists stamp, embedded_stamp p stamp /\ fromisoformat stamp = Ok d.

Definition date_le (a b : datetime_date) : Prop :=
  year a < year b
  \/ (year a = year b
      /\ (month a < month b \/ (month a = month b /\ day a <= day b))).

(** The optional window: an absent bound does not constrain. *)
Definition in_window (d : datetime_date)
    (start_date end_date : option datetime_date) : Prop :=
  (forall s, start_date = Some s -> date_le s d) /\
  (forall e, end_date = Some e -> date_le d e).

(** ** Expected data file names *)

(** The terminal filename with its compression suffix removed, if it has
    one. *)
Definition strip_compression_suffix (filename : string) : string :=
  if Str.endswith ".gz" filename
  then Str.take (String.length filename - 3) filename
  else filename.

Fixpoint only_dots (s : string) : bool :=
  match s with
  | EmptyString => true
  | String c s' => Str.char_eqb c "." && only_dots s'
  end.

(** A data file name as the families define them: it names something and
    carries no compression suffix of its own. *)
Definition plain_filename (a : string) : Prop :=
  Str.contains ".gz" a = false /\ only_dots a = false.

(** The window test [_between_dates] applies to a parsed date. *)
Definition window_test (d : datetime_date)
    (start_date end_date : option datetime_date) : bool :=
  match start_date, end_date with
  | Some s, Some e => date_leb s d && date_leb d e
  | Some s, None => date_leb s d
  | None, Some e => date_leb d e
  | None, None => true
  end.

(** A condition that was evaluated and came out true. *)
Definition holds (r : result bool) : bool :=
  match r with
  | Ok b => b
  | Raise _ => false
  end.

(** Does the character occur in the string? *)
Fixpoint has_char (c : ascii) (s : string) : bool :=
  match s with
  | EmptyString => false
  | String a s' => Str.char_eqb a c || has_char c s'
  end.

(** ** The metadata join *)

Global Instance datetime_date_eq_dec : EqDecision datetime_date.
Proof. solve_decision. Defined.

(** The record [get_metadata] makes of a provider's answer. *)
Definition metadata_of_answer (answer : result IpMetadata)
  : IpMetadataWithKeys :=
  match answer with
  | Ok (netblock, asn, as_name, as_full_name, as_type, country) =>
      mkIpMetadata netblock (Some asn) as_name as_full_name as_type country
  | Raise _ => no_metadata
  end.

(** The one record a join key resolves to: the answer of its date's snapshot
    for its address. *)
Definition resolve
    (open_snapshot : datetime_date -> option (string -> Logged IpMetadata))
    (key : DateIpKey) : IpMetadataWithKeys :=
  match fromisoformat (fst key) with
  | Ok d =>
      match open_snapshot d with
      | Some answers => metadata_of_answer (fst (answers (snd key)))
      | None => no_metadata
      end
  | Raise _ => no_metadata
  end.

(** The join runs to its end when the factory can open a snapshot for the
    date of every row. *)
Definition providers_available
    (open_snapshot : datetime_date -> option (string -> Logged IpMetadata))
    (rows : list BigqueryRow) : Prop :=
  forall row, In row rows ->
    exists d answers,
      fromisoformat (date row) = Ok d /\ open_snapshot d = Some answers.

(** The provider calls expected of the join, group by group, when [made]
    calls were made before: one factory call per group, then one lookup per
    address of the group on the instance obtained; a date that does not
    parse or a snapshot that does not open ends the run. *)
Fixpoint join_calls
    (open_snapshot : datetime_date -> option (string -> Logged IpMetadata))
    (made : nat) (groups : list (string * list string)) : list ProviderCall :=
  match groups with
  | [] => []
  | (date, ips) :: rest =>
      match fromisoformat date with
      | Raise _ => []
      | Ok d =>
          MakeChooser d made ::
          match open_snapshot d with
          | None => []
          | Some _ =>
              (List.map (GetMetadata made) ips
               ++ join_calls open_snapshot (made + 1 + length ips) rest)%list
          end
      end
  end.

Definition is_lookup (c : ProviderCall) : bool :=
  match c with
  | GetMetadata _ _ => true
  | MakeChooser _ _ => false
  end.

Definition is_acquisition (c : ProviderCall) : bool :=
  match c with
  | MakeChooser _ _ => true
  | GetMetadata _ _ => false
  end.

Definition is_acquisition_for (d : datetime_date) (c : ProviderCall) : bool :=
  match c with
  | MakeChooser d' _ => bool_decide (d' = d)
  | GetMetadata _ _ => false
  end.

(** How many lookups, factory calls, and factory calls for one date a
    sequence of provider calls holds. *)
Definition lookups (calls : list ProviderCall) : nat :=
  length (List.filter is_lookup calls).

Definition acquisitions (calls : list ProviderCall) : nat :=
  length (List.filter is_acquisition calls).

Definition acquisitions_for (d : datetime_date) (calls : list ProviderCall)
  : nat :=
  length (List.filter (is_acquisition_for d) calls).

(** The distinct join keys, and the distinct dates, among rows. *)
Definition distinct_keys (rows : list BigqueryRow) : gset (string * string) :=
  list_to_set (List.map make_date_ip_key rows).

Definition distinct_dates (rows : list BigqueryRow) : gset string :=
  list_to_set (List.map date rows).

(** The groups of addresses by date the join hands to the provider. *)
Definition groups_of (rows : list BigqueryRow) : list (string * list string) :=
  Beam.GroupByKey
    (Beam.Distinct
       (Beam.Keys (List.map (fun row => (make_date_ip_key row, row)) rows))).

(** The factory can open a snapshot for the date of every group. *)
Definition groups_available
    (open_snapshot : datetime_date -> option (string -> Logged IpMetadata))
    (groups : list (string * list string)) : Prop :=
  forall g, In g groups ->
    exists d answers,
      fromisoformat (fst g) = Ok d /\ open_snapshot d = Some answers.

(** The join keys of the groups, each with the record it resolves to. *)
Definition resolved_groups
    (open_snapshot : datetime_date -> option (string -> Logged IpMetadata))
    (groups : list (string * list string))
  : list (DateIpKey * IpMetadataWithKeys) :=
  List.concat
    (List.map
       (fun g => List.map (fun ip => ((fst g, ip),
                                      resolve open_snapshot (fst g, ip)))
                          (snd g))
       groups).

(** The join keys a list of groups stands for. *)
Definition keys_of_groups (groups : list (string * list string))
  : list DateIpKey :=
  List.concat
    (List.map (fun g => List.map (fun ip => (fst g, ip)) (snd g)) groups).

(** What the join makes of a row. *)
Definition joined
    (open_snapshot : datetime_date -> option (string -> Logged IpMetadata))
    (row : BigqueryRow) : BigqueryRow :=
  with_ip_metadata row (resolve open_snapshot (make_date_ip_key row)).

(** * Sample data: the scenarios of the specification *)

Module Sample.

(** Modelled from the spec: [source_from_filename] of the absent
    [flatten_base]. "File path convention: .../<family>/<source>/<datafile>":
    the source is the path component before the file name. *)
Definition source_from_filename (filepath : string) : string :=
  match List.rev (PurePosixPath.parts filepath) with
  | _ :: source :: _ => source
  | _ => ""
  end.

Definition project : string := "firehook-censoredplanet".
Definition bucket : string := "gs://firehook-scans/".
Definition staging_location : string := "gs://firehook-dataflow-test/staging".
Definition temp_location : string := "gs://firehook-dataflow-test/temp".
Definition SCAN_TYPE_SATELLITE : string := "satellite".
Definition SATELLITE_FILES : list string :=
  ["resolvers.json"; "interference.json"].
Definition SATELLITE_PATH_COMPONENT : string := "Satellite".

(** Four objects under the echo prefix: two scans, a scan whose file is
    an empty compressed one, and a file that is no data file. *)
Definition scan_22 : string :=
  "gs://firehook-scans/echo/CP_Quack-echo-2020-08-22-06-08-03/results.json".
Definition scan_23 : string :=
  "gs://firehook-scans/echo/CP_Quack-echo-2020-08-23-06-01-02/results.json.gz".
Definition scan_24_empty : string :=
  "gs://firehook-scans/echo/CP_Quack-echo-2020-08-24-06-01-02/results.json.gz".
Definition notes_23 : string :=
  "gs://firehook-scans/echo/CP_Quack-echo-2020-08-23-06-01-02/notes.txt".

Definition listing : list FileMetadata :=
  [mkFileMetadata scan_22 4096; mkFileMetadata scan_23 2048;
   mkFileMetadata scan_24_empty 33; mkFileMetadata notes_23 512].

Definition gcs_match (pattern : string) : list FileMetadata :=
  if String.eqb pattern "gs://firehook-scans/echo/**/*" then listing else [].

(** The destination already holds the scan of the 22nd. *)
Definition _get_existing_datasources (destination project : string)
  : list string :=
  ["CP_Quack-echo-2020-08-22-06-08-03"].

(** A listing with an object that carries no date stamp, after one whose
    stamp names no calendar day. *)
Definition scan_bad_day : string :=
  "gs://firehook-scans/echo/CP_Quack-echo-2020-13-45-06-01-02/results.json".
Definition stray : string := "gs://firehook-scans/echo/README".

Definition gcs_match_stray (pattern : string) : list FileMetadata :=
  [mkFileMetadata scan_22 4096; mkFileMetadata stray 512].

Definition gcs_match_bad_day (pattern : string) : list FileMetadata :=
  [mkFileMetadata scan_bad_day 4096; mkFileMetadata stray 512].

(** [obj[key]] on a parsed object. *)
Fixpoint lookup_field (key : string) (fields : list (string * Json))
  : option Json :=
  match fields with
  | [] => None
  | (k, v) :: fields' =>
      if String.eqb k key then Some v else lookup_field key fields'
  end.

Definition json_get (key : string) (j : Json) : option Json :=
  match j with
  | JObject fields => lookup_field key fields
  | _ => None
  end.

Definition date_of_filename (filename : string) : string :=
  match findall_date filename with
  | stamp :: _ => stamp
  | [] => ""
  end.

Definition success_of (attempt : Json) : bool :=
  match json_get "Success" attempt with
  | Some (JBool b) => b
  | _ => false
  end.

(** Modelled from the spec: a probe-style extractor, one row per protocol
    attempt of a record [{Keyword, Server, Results: [{Success, ...}]}]. *)
Definition _process_hyperquack (filename : string) (scan : Json)
    (id : string) : result (list BigqueryRow) :=
  match json_get "Keyword" scan, json_get "Server" scan,
        json_get "Results" scan with
  | Some (JString keyword), Some (JString server), Some (JArray results) =>
      Ok (List.map
            (fun attempt =>
               mkRow (date_of_filename filename)
                     (source_from_filename filename)
                     keyword server id
                     (ProbeFields (success_of attempt) None) no_metadata)
            results)
  | _, _, _ => Raise (KeyError "Results")
  end.

Definition address_of (answer : Json) : list string :=
  match answer with
  | JString a => [a]
  | _ => []
  end.

(** Modelled from the spec: a resolution-style extractor, one row per DNS
    answer of a record that carries a list of resolved addresses. *)
Definition _process_satellite (filename : string) (scan : Json)
    (id : string) : result (list BigqueryRow) :=
  match json_get "query" scan, json_get "resolver" scan,
        json_get "answers" scan with
  | Some (JString query), Some (JString resolver), Some (JArray answers) =>
      Ok (List.map
            (fun answer =>
               mkRow (date_of_filename filename)
                     (source_from_filename filename)
                     query resolver id
                     (ResolutionFields (address_of answer) true) no_metadata)
            answers)
  | _, _, _ => Raise (KeyError "answers")
  end.

(** Two lines of a scan file, and a line cut short. The parser below
    stands for [json.loads] on them; the lines are written here without
    their quotation marks. *)
Definition line_a : string :=
  "{Keyword: a.com, Server: 1.1.1.1, Results: [{Success: true}, {Success: false}]}".
Definition line_b : string :=
  "{Keyword: b.com, Server: 1.1.1.1, Results: [{Success: true}]}".
Definition line_cut : string := "{Keyword: c.com, Server: 9.9.".

Definition probe_record (keyword server : string) (successes : list bool)
  : Json :=
  JObject [("Keyword", JString keyword); ("Server", JString server);
           ("Results",
            JArray (List.map (fun b => JObject [("Success", JBool b)])
                             successes))].

Definition json_loads (line : string) : result Json :=
  if String.eqb line line_a
  then Ok (probe_record "a.com" "1.1.1.1" [true; false])
  else if String.eqb line line_b
  then Ok (probe_record "b.com" "1.1.1.1" [true])
  else Raise (JSONDecodeError "Expecting value").

(** A random source that does not repeat itself. *)
Fixpoint tally (n : nat) : string :=
  match n with
  | O => ""
  | S n' => String "f" (tally n')
  end.

Definition random_source (n : nat) : string := tally n.

Definition read_lines (filename : string) : list string :=
  if String.eqb filename scan_23 then [line_a; line_cut; line_b] else [].

Definition process_satellite_lines (lines : list (string * string))
  : M (list BigqueryRow) :=
  M_ret [].

(** Every day has a snapshot; it knows every address but 9.9.9.9. *)
Definition answers (a : string) : Logged IpMetadata :=
  if String.eqb a "9.9.9.9"
  then (Raise (KeyError "No Maxmind entry for 9.9.9.9"), [])
  else FakeMaxmindIpMetadata_lookup a.

Definition open_snapshot (d : datetime_date)
  : option (string -> Logged IpMetadata) :=
  Some answers.

(** A provider none of whose lookups finds anything. *)
Definition open_blank_snapshot (d : datetime_date)
  : option (string -> Logged IpMetadata) :=
  Some (fun a => (Raise (KeyError "No Maxmind entry"), [])).

Definition probe_row (domain ip : string) : BigqueryRow :=
  mkRow "2021-01-01" "CP_Quack-echo-2021-01-01-01-02-03" domain ip "" 
        (ProbeFields true None) no_metadata.

(** Two rows with the same (date, ip) and one row whose address no
    snapshot knows. *)
Definition rows : list BigqueryRow :=
  [probe_row "a.com" "1.1.1.1"; probe_row "b.com" "1.1.1.1";
   probe_row "c.com" "9.9.9.9"].

Definition world : World := mkWorld [] 0 [].

(** Readers of a snapshot that knows the ASN of 1.1.1.1 but not its country,
    and reports the reserved ASN 0 for 192.0.2.1. *)
Definition maxmind_asn (a : string) : result geoip2.ASN :=
  if String.eqb a "1.1.1.1"
  then Ok (geoip2.mkASN (Some 13335) (Some "CLOUDFLARENET")
                        (Some "1.1.1.0/24"))
  else if String.eqb a "192.0.2.1"
  then Ok (geoip2.mkASN (Some 0) None (Some "192.0.2.0/24"))
  else Raise AddressNotFoundError.

Definition maxmind_city (a : string) : result geoip2.City :=
  Raise AddressNotFoundError.

End Sample.

(** * Reading the claims of the specification literally *)

(** [lookup] raises its not-found error for an address. *)
Definition raises_not_found (maxmind_city : string -> result geoip2.City)
    (maxmind_asn : string -> result geoip2.ASN) (a : string) : Prop :=
  exists msg,
    fst (MaxmindIpMetadata.lookup maxmind_city maxmind_asn a)
    = Raise (KeyError msg).

(** The ASN lookup yields no ASN for an address. *)
Definition yields_no_asn (maxmind_asn : string -> result geoip2.ASN)
    (a : string) : Prop :=
  exists as_name netblock,
    fst (MaxmindIpMetadata._get_maxmind_asn maxmind_asn a)
    = Ok (None, as_name, netblock).

(** A scan file none of whose lines parses. *)
Definition read_cut_lines (filename : string) : list string :=
  [Sample.line_cut; Sample.line_cut].

(** * Further vocabulary *)

(** The text before the first occurrence of [old]: no occurrence starts in
    [pre], also none that runs into the occurrence that follows. *)
Definition first_at (old pre : string) : Prop :=
  Str.contains old (pre ++ Str.take (String.length old - 1) old)%string = false.

(** * Sample data: a GCS destination *)

Module GcsSample.

(** A folder that holds the rows of one source, and a table that holds
    none. *)
Definition list_blobs (project bucket_name : string) (prefix : option string)
  : list string :=
  ["avirkud/echo/source=CP_Quack-echo-2020-08-23-06-01-02/country=US/results.json.gz"].

Definition query_sources (project query : string) : list string := [query].

(** A row as [json.dumps] writes it, here without its quotation marks, and
    the dict [json.loads] makes of it. *)
Definition record : string :=
  "{source: CP_Quack-echo-2020-08-23-06-01-02, country: US}".

Definition items : list (string * Json) :=
  [("source", JString "CP_Quack-echo-2020-08-23-06-01-02");
   ("country", JString "US")].

Definition json_loads (line : string) : result Json := Ok (JObject items).

Definition str_of_json (value : Json) : string :=
  match value with
  | JString s => s
  | _ => "None"
  end.

Definition destination : string :=
  "echo/source=CP_Quack-echo-2020-08-23-06-01-02/country=US/results".

(** Beam's name for the only shard of a destination. *)
Definition destination_prefix_naming (suffix : option string)
    (args : FileNamingArgs unit unit) : string :=
  (str_of_optional_str (naming_destination args) ++ "-00000-of-00001"
   ++ str_of_optional_str suffix)%string.

Definition naming_args : FileNamingArgs unit unit :=
  mkFileNamingArgs tt tt (Some 0) (Some 1) None (Some destination).

End GcsSample.

(** * Counting what the flattener and the provider do *)

(** How many of the lines parse. *)
Definition parsed_lines (json_loads : string -> result Json)
    (lines : list (string * string)) : nat :=
  length (List.filter (fun element => is_ok (json_loads (snd element))) lines).

(** The warnings about the lines that do not parse, in the order of the
    lines. *)
Definition malformed_warnings (json_loads : string -> result Json)
    (lines : list (string * string)) : list LogRecord :=
  List.concat
    (List.map
       (fun element =>
          match json_loads (snd element) with
          | Raise (JSONDecodeError e) =>
              [mkLogRecord "WARNING" "JSONDecodeError: %s\nFilename: %s\n%s\n"
                           [e; fst element; snd element]]
          | _ => []
          end)
       lines).

(** The exceptions of a reader that [MaxmindIpMetadata] catches. *)
Definition caught {A : Type} (answer : result A) : bool :=
  match answer with
  | Raise ValueError | Raise AddressNotFoundError => true
  | _ => false
  end.

(** The warning logged for a caught exception. *)
Definition reader_warnings {A : Type} (answer : result A) : list LogRecord :=
  match answer with
  | Raise e =>
      if caught answer
      then [mkLogRecord "WARNING" "Maxmind: %s\n" [str_of_exn e]]
      else []
  | Ok _ => []
  end.

(** * Sample data: the rows of a scan file *)

Module RunSample.

(** The rows the flattener makes of the lines of [Sample.scan_23], and the
    state it leaves: one warning for the line cut short, two identifiers
    drawn. *)
Definition flattened : list BigqueryRow :=
  [mkRow "2020-08-23" "CP_Quack-echo-2020-08-23-06-01-02" "a.com" "1.1.1.1" ""
         (ProbeFields true None) no_metadata;
   mkRow "2020-08-23" "CP_Quack-echo-2020-08-23-06-01-02" "a.com" "1.1.1.1" ""
         (ProbeFields false None) no_metadata;
   mkRow "2020-08-23" "CP_Quack-echo-2020-08-23-06-01-02" "b.com" "1.1.1.1"
         "f" (ProbeFields true None) no_metadata].

Definition flattened_world : World :=
  mkWorld [mkLogRecord "WARNING" "JSONDecodeError: %s\nFilename: %s\n%s\n"
             ["Expecting value"; Sample.scan_23; Sample.line_cut]]
          2 [].

End RunSample.

(** * Properties *)

(** ** Strings *)

#[local] Arguments Str.is_digit : simpl never.
#[local] Arguments Str.char_eqb : simpl never.

Lemma is_digit_digit (c : ascii) : Str.is_digit c = true <-> digit c.
Proof.
  unfold digit.
  destruct c as [[] [] [] [] [] [] [] []]; vm_compute;
    split; intros H; try discriminate; try tauto;
    repeat (destruct H as [H | H]; [discriminate H |]); try contradiction.
Qed.

Lemma char_eqb_eq (a b : ascii) : Str.char_eqb a b = true <-> a = b.
Proof. apply Ascii.eqb_eq. Qed.

Lemma append_nil_r (s : string) : s ++ "" = s.
Proof. induction s as [|c s IH]; simpl; [reflexivity | by rewrite IH]. Qed.

Lemma append_assoc (a b c : string) : (a ++ b) ++ c = a ++ (b ++ c).
Proof. induction a as [|x a IH]; simpl; [reflexivity | by rewrite IH]. Qed.

Lemma length_append (a b : string) :
  String.length (a ++ b) = (String.length a + String.length b)%nat.
Proof. induction a as [|x a IH]; simpl; [reflexivity | by rewrite IH]. Qed.

Lemma take_append (a b : string) : Str.take (String.length a) (a ++ b) = a.
Proof. induction a as [|x a IH]; simpl; [by destruct b | by rewrite IH]. Qed.

Lemma drop_append (a b : string) : Str.drop (String.length a) (a ++ b) = b.
Proof. induction a as [|x a IH]; simpl; [reflexivity | exact IH]. Qed.

Lemma take_drop (n : nat) (s : string) : Str.take n s ++ Str.drop n s = s.
Proof.
  revert s; induction n as [|n IH]; intros [|c s]; simpl; try reflexivity.
  by rewrite IH.
Qed.

Lemma append_inv_length (a b a' b' : string) :
  a ++ b = a' ++ b' -> String.length a = String.length a' -> a = a' /\ b = b'.
Proof.
  revert a'; induction a as [|x a IH]; intros [|x' a'] H Hlen;
    simpl in *; try discriminate; [by split |].
  injection H as -> H. injection Hlen as Hlen.
  destruct (IH _ H Hlen) as [-> ->]. by split.
Qed.

Lemma take_app_ge (n : nat) (a b : string) :
  (String.length a <= n)%nat ->
  Str.take n (a ++ b) = a ++ Str.take (n - String.length a) b.
Proof.
  revert n; induction a as [|x a IH]; intros n Hn; simpl in *.
  - by rewrite Nat.sub_0_r.
  - destruct n as [|n]; [lia |]. simpl. rewrite IH by lia. done.
Qed.

Lemma drop_app_ge (n : nat) (a b : string) :
  (String.length a <= n)%nat ->
  Str.drop n (a ++ b) = Str.drop (n - String.length a) b.
Proof.
  revert n; induction a as [|x a IH]; intros n Hn; simpl in *.
  - by rewrite Nat.sub_0_r.
  - destruct n as [|n]; [lia |]. simpl. by rewrite IH by lia.
Qed.

Lemma startswith_app (p s : string) : Str.startswith p (p ++ s) = true.
Proof.
  induction p as [|c p IH]; simpl; [reflexivity |].
  rewrite IH, andb_true_r. by apply char_eqb_eq.
Qed.

Lemma contains_startswith (needle s : string) :
  Str.startswith needle s = true -> Str.contains needle s = true.
Proof. intros H. destruct s; simpl; by rewrite H. Qed.

Lemma contains_app (needle x y : string) :
  Str.contains needle (x ++ needle ++ y) = true.
Proof.
  induction x as [|c x IH].
  - change ("" ++ needle ++ y) with (needle ++ y).
    apply contains_startswith, startswith_app.
  - simpl. rewrite IH. apply orb_true_r.
Qed.

Lemma endswith_inv (p s : string) :
  Str.endswith p s = true ->
  s = Str.take (String.length s - String.length p) s ++ p.
Proof.
  unfold Str.endswith. intros [_ H%String.eqb_eq]%andb_true_iff.
  transitivity (Str.take (String.length s - String.length p) s
                ++ Str.drop (String.length s - String.length p) s).
  - symmetry. apply take_drop.
  - by rewrite H.
Qed.

Lemma endswith_app (p x : string) : Str.endswith p (x ++ p) = true.
Proof.
  unfold Str.endswith. rewrite length_append.
  apply andb_true_iff. split; [apply Nat.leb_le; lia |].
  replace (String.length x + String.length p - String.length p)%nat
    with (String.length x) by lia.
  rewrite drop_append. apply String.eqb_refl.
Qed.

(** *** [split] *)

Lemma split_nonempty (c : ascii) (s : string) : Str.split c s <> [].
Proof.
  induction s as [|a s IH]; simpl; [done |].
  destruct (Str.char_eqb a c); [done |].
  by destruct (Str.split c s).
Qed.

Lemma split_no_char (c : ascii) (s : string) :
  has_char c s = false -> Str.split c s = [s].
Proof.
  induction s as [|a s IH]; simpl; [done |].
  intros [Ha Hs]%orb_false_iff. rewrite Ha, (IH Hs). done.
Qed.

Lemma split_app (c : ascii) (x y : string) :
  Str.split c (x ++ String c y) = (Str.split c x ++ Str.split c y)%list.
Proof.
  induction x as [|a x IH]; simpl.
  - by rewrite (proj2 (char_eqb_eq c c) eq_refl).
  - destruct (Str.char_eqb a c); rewrite IH; [done |].
    pose proof (split_nonempty c x).
    by destruct (Str.split c x).
Qed.

Lemma split_elem_no_char (c : ascii) (s x : string) :
  In x (Str.split c s) -> has_char c x = false.
Proof.
  revert x; induction s as [|a s IH]; simpl; intros x.
  - by intros [<- | []].
  - destruct (Str.char_eqb a c) eqn:Ha.
    + intros [<- | Hin]; [done | by apply IH].
    + pose proof (split_nonempty c s).
      destruct (Str.split c s) as [|hd tl]; [done |].
      intros [<- | Hin].
      * simpl. rewrite Ha. apply IH. by left.
      * apply IH. by right.
Qed.

(** A component after the first one sits right after a separator, and is
    followed by the end of the string or by another separator. *)
Lemma split_tl_elem (c : ascii) (s w : string) :
  In w (List.tl (Str.split c s)) ->
  exists x y, s = x ++ String c w ++ y /\ (y = "" \/ exists y', y = String c y').
Proof.
  revert w; induction s as [|a s IH]; simpl; intros w; [done |].
  destruct (Str.char_eqb a c) eqn:Ha.
  - apply char_eqb_eq in Ha as ->. simpl.
    destruct (Str.split c s) as [|hd tl] eqn:E; [done |].
    intros [<- | Hin].
    + (* the component right after this separator *)
      exists "". simpl.
      clear IH. revert hd tl E. induction s as [|b s IHs]; simpl; intros hd tl E.
      * injection E as <- <-. exists "". split; [done | by left].
      * destruct (Str.char_eqb b c) eqn:Hb.
        -- injection E as <- <-. apply char_eqb_eq in Hb as ->.
           exists (String c s). split; [done | right; by eexists].
        -- pose proof (split_nonempty c s).
           destruct (Str.split c s) as [|hd' tl']; [done |].
           injection E as <- <-.
           destruct (IHs _ _ eq_refl) as (y & Hy & Hy').
           exists y. split; [| done]. simpl. congruence.
    + destruct (IH w) as (x & y & -> & Hy); [exact Hin |].
      exists (String c x), y. done.
  - pose proof (split_nonempty c s).
    destruct (Str.split c s) as [|hd tl] eqn:E; [done |]. simpl.
    intros Hin. destruct (IH w Hin) as (x & y & -> & Hy).
    exists (String a x), y. done.
Qed.

(** *** [rfind], [lstrip] *)

Lemma rfind_app_char (c : ascii) (x y : string) :
  exists i, Str.rfind c (x ++ String c y) = Some i
            /\ (String.length x <= i)%nat.
Proof.
  induction x as [|a x IH]; simpl.
  - destruct (Str.rfind c y) as [i|]; [exists (S i); split; [done | lia] |].
    rewrite (proj2 (char_eqb_eq c c) eq_refl). exists 0%nat. done.
  - destruct IH as (i & -> & Hi). exists (S i). split; [done | lia].
Qed.

Lemma rfind_no_char (c : ascii) (s : string) :
  has_char c s = false -> Str.rfind c s = None.
Proof.
  induction s as [|a s IH]; simpl; [done |].
  intros [Ha Hs]%orb_false_iff. by rewrite (IH Hs), Ha.
Qed.

Lemma rfind_app_last (c : ascii) (x y : string) :
  has_char c y = false ->
  Str.rfind c (x ++ String c y) = Some (String.length x).
Proof.
  intros Hy. induction x as [|a x IH]; simpl.
  - by rewrite (rfind_no_char _ _ Hy), (proj2 (char_eqb_eq c c) eq_refl).
  - by rewrite IH.
Qed.

Lemma lstrip_only_dots (s t : string) :
  only_dots s = false -> Str.lstrip "." (s ++ t) = Str.lstrip "." s ++ t.
Proof.
  induction s as [|a s IH]; simpl; [done |].
  destruct (Str.char_eqb a "."); simpl; [exact IH | done].
Qed.

Lemma lstrip_decompose (s : string) :
  exists dots, only_dots dots = true /\ s = dots ++ Str.lstrip "." s.
Proof.
  induction s as [|a s IH]; simpl; [by exists "" |].
  destruct (Str.char_eqb a ".") eqn:Ha; [| by exists ""].
  destruct IH as (dots & Hd & Hs).
  exists (String a dots). simpl. rewrite Ha, Hd. split; [done | congruence].
Qed.

(** ** File names *)

Lemma str_in_In (x : string) (l : list string) : str_in x l = true <-> In x l.
Proof.
  unfold str_in. rewrite existsb_exists. split.
  - intros (y & Hy & ->%String.eqb_eq). done.
  - intros H. exists x. split; [done | apply String.eqb_refl].
Qed.

Lemma last_default_or_In {A : Type} (l : list A) (d : A) :
  List.last l d = d \/ In (List.last l d) l.
Proof.
  induction l as [|x [|y l] IH]; [by left | right; by left |].
  destruct IH as [IH | IH]; [left | right]; [exact IH | by right].
Qed.

(** [name] is a single path component, so taking it twice changes nothing. *)
Lemma name_idempotent (p : string) :
  PurePosixPath.name (PurePosixPath.name p) = PurePosixPath.name p.
Proof.
  unfold PurePosixPath.name at 2 3.
  destruct (last_default_or_In (PurePosixPath.parts p) "") as [-> | Hin];
    [reflexivity |].
  set (n := List.last (PurePosixPath.parts p) "") in *.
  unfold PurePosixPath.parts in Hin. apply filter_In in Hin as [Hin Hkeep].
  unfold PurePosixPath.name, PurePosixPath.parts.
  rewrite (split_no_char _ _ (split_elem_no_char _ _ _ Hin)).
  simpl. by rewrite Hkeep.
Qed.

Lemma endswith_dot_gz (n' : string) : Str.endswith "." (n' ++ ".gz") = false.
Proof.
  unfold Str.endswith. rewrite length_append. simpl String.length.
  apply andb_false_iff. right.
  rewrite drop_app_ge by lia.
  replace (String.length n' + 3 - 1 - String.length n')%nat with 2%nat by lia.
  reflexivity.
Qed.

Lemma gz_components_dotted (n' : string) :
  only_dots n' = true ->
  List.tl (Str.split "." (Str.lstrip "." (n' ++ ".gz"))) = [].
Proof.
  induction n' as [|a n' IH]; simpl; [done |].
  intros [Ha Hn]%andb_true_iff. rewrite Ha. by apply IH.
Qed.

Lemma gz_components_named (n' : string) :
  only_dots n' = false ->
  In "gz" (List.tl (Str.split "." (Str.lstrip "." (n' ++ ".gz")))).
Proof.
  intros Hn. rewrite (lstrip_only_dots _ _ Hn).
  change ".gz" with (String "." "gz"). rewrite split_app.
  pose proof (split_nonempty "." (Str.lstrip "." n')) as Hne.
  destruct (Str.split "." (Str.lstrip "." n')) as [|hd tl]; [done |].
  simpl. apply in_or_app. right. by left.
Qed.

Lemma suffix_gz_component (l : list string) :
  In ".gz" (List.map (fun suffix => "." ++ suffix) l) <-> In "gz" l.
Proof.
  rewrite in_map_iff. split.
  - intros (w & [= <-] & Hw). done.
  - intros H. by exists "gz".
Qed.

Lemma only_dots_nonempty (s : string) : only_dots s = false -> s <> "".
Proof. by intros H ->. Qed.

(** The name the matcher compares is the name without its compression
    suffix, as far as plain data file names can tell. *)
Lemma compared_name_spec (n a : string) :
  PurePosixPath.name n = n ->
  plain_filename a ->
  (if str_in ".gz" (PurePosixPath.suffixes n)
   then PurePosixPath.stem n else n) = a
  <-> strip_compression_suffix n = a.
Proof.
  intros Hname [Hgz Hdots].
  unfold PurePosixPath.suffixes, PurePosixPath.stem, strip_compression_suffix.
  rewrite Hname.
  destruct (Str.endswith ".gz" n) eqn:E.
  - (* the name ends with the compression suffix *)
    apply endswith_inv in E. simpl String.length in E.
    set (n' := Str.take (String.length n - 3) n) in *.
    clearbody n'. subst n. clear Hname.
    assert (String.length (n' ++ ".gz") = String.length n' + 3)%nat as Hlen
      by (by rewrite length_append).
    rewrite endswith_dot_gz.
    destruct (only_dots n') eqn:Hn'.
    + rewrite gz_components_dotted by done. simpl.
      split; intros <-.
      * rewrite <- (append_nil_r ".gz"), contains_app in Hgz. discriminate.
      * congruence.
    + assert (str_in ".gz"
                (List.map (fun suffix => "." ++ suffix)
                   (List.tl (Str.split "." (Str.lstrip "." (n' ++ ".gz")))))
              = true) as ->.
      { apply str_in_In, suffix_gz_component. by apply gz_components_named. }
      change ".gz" with (String "." "gz").
      rewrite rfind_app_last by reflexivity.
      assert ((0 <? String.length n')%nat = true) as ->.
      { apply Nat.ltb_lt. pose proof (only_dots_nonempty _ Hn').
        destruct n'; [done | simpl; lia]. }
      rewrite Hlen.
      assert ((String.length n' <? String.length n' + 3 - 1)%nat = true)
        as -> by (apply Nat.ltb_lt; lia).
      simpl. by rewrite take_append.
  - destruct (str_in ".gz") eqn:S; [| done].
    destruct (Str.endswith "." n) eqn:Edot; [discriminate S |].
    apply str_in_In, suffix_gz_component, split_tl_elem in S
      as (x & y & Hx & Hy).
    destruct (lstrip_decompose n) as (dots & _ & Hn). rewrite Hx in Hn.
    rewrite <- append_assoc in Hn.
    destruct Hy as [-> | [y' ->]].
    { rewrite Hn, append_nil_r, endswith_app in E. discriminate. }
    assert (Str.contains ".gz" n = true) as Hcontains
      by (rewrite Hn; apply (contains_app ".gz")).
    split; intros <-; [| congruence].
    exfalso.
    change (String "." "gz" ++ String "." y')
      with (".gz" ++ String "." y') in Hn.
    rewrite <- append_assoc in Hn.
    destruct (rfind_app_char "." ((dots ++ x) ++ ".gz") y') as (i & Hi & Hge).
    rewrite <- Hn in Hi. rewrite Hi in Hgz.
    destruct ((0 <? i)%nat && (i <? String.length n - 1)%nat);
      [| congruence].
    rewrite Hn, take_app_ge, append_assoc, contains_app in Hgz by done.
    discriminate.
Qed.

Lemma _filename_matches_spec (filepath : string) (allowed : list string) :
  Forall plain_filename allowed ->
  _filename_matches filepath allowed = true <->
  In (strip_compression_suffix (PurePosixPath.name filepath)) allowed.
Proof.
  intros Hplain. unfold _filename_matches. rewrite str_in_In.
  rewrite List.Forall_forall in Hplain.
  pose proof (name_idempotent filepath) as Hname.
  set (n := PurePosixPath.name filepath) in *.
  split; intros Hin.
  - pose proof (proj1 (compared_name_spec n _ Hname (Hplain _ Hin)) eq_refl)
      as ->. exact Hin.
  - pose proof (proj2 (compared_name_spec n _ Hname (Hplain _ Hin)) eq_refl)
      as ->. exact Hin.
Qed.

(** ** Date stamps *)

#[local] Arguments date_pattern_at : simpl never.
#[local] Arguments Str.take : simpl never.
#[local] Arguments Str.drop : simpl never.

Lemma date_shaped_length (stamp : string) :
  date_shaped stamp -> String.length stamp = 10%nat.
Proof. by intros []. Qed.

Lemma date_pattern_at_spec (s : string) :
  date_pattern_at s = true <->
  exists stamp post, date_shaped stamp /\ s = stamp ++ post.
Proof.
  split.
  - unfold date_pattern_at.
    destruct s as [|y1 [|y2 [|y3 [|y4 [|h1 [|m1 [|m2 [|h2 [|d1 [|d2 post]]]]]]]]]];
      try discriminate.
    rewrite !andb_true_iff, !is_digit_digit, !char_eqb_eq.
    intros [[[[[[[[[? ?] ?] ?] ->] ?] ?] ->] ?] ?].
    exists (String y1 (String y2 (String y3 (String y4 (String "-"
              (String m1 (String m2 (String "-" (String d1 (String d2 "")))))))))),
           post.
    split; [by constructor | reflexivity].
  - intros (stamp & post & Hshape & ->).
    destruct Hshape; unfold date_pattern_at; simpl.
    rewrite !andb_true_iff, !is_digit_digit, !char_eqb_eq. tauto.
Qed.

Lemma date_pattern_at_take (s : string) :
  date_pattern_at s = true ->
  date_shaped (Str.take 10 s) /\ s = Str.take 10 s ++ Str.drop 10 s.
Proof.
  intros H. apply date_pattern_at_spec in H as (stamp & post & Hshape & ->).
  pose proof (date_shaped_length _ Hshape) as Hlen.
  rewrite <- Hlen at 1 2. rewrite take_append. split; [done |].
  by rewrite <- Hlen, drop_append.
Qed.

Lemma stamp_at_nil (p stamp : string) :
  stamp_at p "" stamp -> date_pattern_at p = true.
Proof.
  intros [Hshape [post ->]]. apply date_pattern_at_spec. by exists stamp, post.
Qed.

Lemma stamp_at_cons (c : ascii) (p pre stamp : string) :
  stamp_at (String c p) (String c pre) stamp <-> stamp_at p pre stamp.
Proof.
  unfold stamp_at; split; intros [Hshape [post H]]; (split; [done |]);
    exists post; simpl in *; congruence.
Qed.

Lemma stamp_at_cons_inv (c : ascii) (p pre stamp : string) :
  stamp_at (String c p) pre stamp ->
  pre = "" \/ exists pre', pre = String c pre' /\ stamp_at p pre' stamp.
Proof.
  destruct pre as [|c' pre']; [by left | right].
  destruct H as [Hshape [post H]]. simpl in H. injection H as -> H.
  exists pre'. split; [done |]. split; [done | by exists post].
Qed.

Lemma findall_date_nil (p : string) :
  findall_date p = [] <-> ~ has_date_stamp p.
Proof.
  unfold findall_date, has_date_stamp.
  induction p as [|c p IH]; simpl.
  - split; [| done]. intros _ (pre & stamp & Hshape & post & H).
    destruct Hshape. destruct pre; discriminate.
  - destruct (date_pattern_at (String c p)) eqn:Hpat.
    + split; [discriminate |]. intros Hno. exfalso. apply Hno.
      apply date_pattern_at_spec in Hpat as (stamp & post & Hshape & Heq).
      exists "", stamp. split; [done | by exists post].
    + rewrite IH. split; intros Hno (pre & stamp & Hat); apply Hno.
      * destruct (stamp_at_cons_inv _ _ _ _ Hat) as [-> | (pre' & -> & Hat')].
        -- rewrite (stamp_at_nil _ _ Hat) in Hpat. discriminate.
        -- by exists pre', stamp.
      * exists (String c pre), stamp. by apply stamp_at_cons.
Qed.

Lemma findall_date_head (p stamp : string) :
  head (findall_date p) = Some stamp <-> embedded_stamp p stamp.
Proof.
  unfold findall_date, embedded_stamp.
  induction p as [|c p IH]; simpl.
  - split; [discriminate |]. intros (pre & (Hshape & post & H) & _).
    destruct Hshape. destruct pre; discriminate.
  - destruct (date_pattern_at (String c p)) eqn:Hpat.
    + apply date_pattern_at_take in Hpat as [Hshape Heq].
      split.
      * intros [= <-]. exists "". split.
        -- split; [exact Hshape | eexists; exact Heq].
        -- intros; simpl; lia.
      * intros (pre & Hat & Hmin).
        assert (pre = "") as ->.
        { specialize (Hmin "" _ (conj Hshape (ex_intro _ _ Heq))).
          destruct pre; [done | simpl in Hmin; lia]. }
        destruct Hat as [Hshape' [post H]]. simpl. f_equal.
        assert (Str.take 10 (String c p) ++ Str.drop 10 (String c p)
                = stamp ++ post) as E by (rewrite <- Heq; exact H).
        destruct (append_inv_length _ _ _ _ E) as [E' _];
          [by rewrite !date_shaped_length | done].
    + rewrite IH. split; intros (pre & Hat & Hmin).
      * exists (String c pre). split; [by apply stamp_at_cons |].
        intros pre' stamp' Hat'.
        destruct (stamp_at_cons_inv _ _ _ _ Hat') as [-> | (pre'' & -> & Hat'')].
        -- rewrite (stamp_at_nil _ _ Hat') in Hpat. discriminate.
        -- simpl. specialize (Hmin _ _ Hat''). lia.
      * destruct (stamp_at_cons_inv _ _ _ _ Hat) as [-> | (pre' & -> & Hat')].
        -- rewrite (stamp_at_nil _ _ Hat) in Hpat. discriminate.
        -- exists pre'. split; [done |]. intros pre'' stamp'' Hat''.
           specialize (Hmin (String c pre'') stamp'').
           simpl in Hmin. apply Nat.succ_le_mono, Hmin. by apply stamp_at_cons.
Qed.

Lemma embedded_stamp_unique (p stamp1 stamp2 : string) :
  embedded_stamp p stamp1 -> embedded_stamp p stamp2 -> stamp1 = stamp2.
Proof.
  intros H1%findall_date_head H2%findall_date_head. congruence.
Qed.

Lemma embedded_date_unique (p : string) (d1 d2 : datetime_date) :
  embedded_date p d1 -> embedded_date p d2 -> d1 = d2.
Proof.
  intros (s1 & H1 & E1) (s2 & H2 & E2).
  rewrite (embedded_stamp_unique _ _ _ H1 H2) in E1. congruence.
Qed.

Lemma embedded_stamp_has_date_stamp (p stamp : string) :
  embedded_stamp p stamp -> has_date_stamp p.
Proof. intros (pre & Hat & _). by exists pre, stamp. Qed.

Lemma fromisoformat_raises (s : string) (e : exn) :
  fromisoformat s = Raise e -> e = ValueError.
Proof.
  unfold fromisoformat.
  repeat (destruct s as [|? s]; [congruence |]).
  destruct s; [| congruence].
  repeat match goal with |- context [if ?b then _ else _] => destruct b end;
    congruence.
Qed.

Lemma date_leb_le (a b : datetime_date) : date_leb a b = true <-> date_le a b.
Proof.
  unfold date_leb, date_le.
  rewrite !orb_true_iff, !andb_true_iff, !orb_true_iff, !andb_true_iff.
  rewrite !Z.ltb_lt, !Z.eqb_eq, Z.leb_le. tauto.
Qed.

Lemma window_test_in_window (d : datetime_date)
    (start_date end_date : option datetime_date) :
  window_test d start_date end_date = true <-> in_window d start_date end_date.
Proof.
  unfold window_test, in_window.
  destruct start_date as [s|], end_date as [e|];
    rewrite ?andb_true_iff, ?date_leb_le.
  - split; [intros [? ?]; split; intros ? [= <-]; done |].
    intros [Hs He]. split; [by apply Hs | by apply He].
  - split; [intros ?; split; [intros ? [= <-]; done | discriminate] |].
    intros [Hs _]. by apply Hs.
  - split; [intros ?; split; [discriminate | intros ? [= <-]; done] |].
    intros [_ He]. by apply He.
  - split; [intros _; split; discriminate | done].
Qed.

Lemma _between_dates_unfold (p : string)
    (start_date end_date : option datetime_date) :
  _between_dates p start_date end_date =
  match findall_date p with
  | [] => Raise IndexError
  | stamp :: _ =>
      match fromisoformat stamp with
      | Ok d => Ok (window_test d start_date end_date)
      | Raise e => Raise e
      end
  end.
Proof.
  unfold _between_dates, window_test.
  destruct (findall_date p) as [|stamp rest]; [reflexivity |]. simpl.
  destruct (fromisoformat stamp); simpl; [| reflexivity].
  by destruct start_date, end_date.
Qed.

Lemma _between_dates_IndexError (p : string)
    (start_date end_date : option datetime_date) :
  _between_dates p start_date end_date = Raise IndexError <->
  ~ has_date_stamp p.
Proof.
  rewrite _between_dates_unfold, <- findall_date_nil.
  destruct (findall_date p) as [|stamp rest]; [done |].
  split; [| discriminate].
  destruct (fromisoformat stamp) eqn:E; [discriminate |].
  apply fromisoformat_raises in E as ->. discriminate.
Qed.

Lemma _between_dates_Ok (p : string)
    (start_date end_date : option datetime_date) (b : bool) :
  _between_dates p start_date end_date = Ok b <->
  exists d, embedded_date p d /\ b = window_test d start_date end_date.
Proof.
  rewrite _between_dates_unfold. unfold embedded_date.
  setoid_rewrite <- findall_date_head.
  destruct (findall_date p) as [|stamp rest]; simpl.
  - split; [discriminate |]. by intros (d & (stamp & [=] & _) & _).
  - destruct (fromisoformat stamp) as [d|e] eqn:E.
    + split.
      * intros [= <-]. exists d. split; [by exists stamp | done].
      * intros (d' & (stamp' & [= <-] & E') & ->). congruence.
    + split; [discriminate |].
      intros (d' & (stamp' & [= <-] & E') & ->). congruence.
Qed.

(** ** Comprehensions whose condition may raise *)

Lemma filter_raising_Ok {A : Type} (cond : A -> result bool) (l : list A) :
  (forall x, In x l -> exists b, cond x = Ok b) ->
  filter_raising cond l
  = Ok (List.filter (fun x => holds (cond x)) l).
Proof.
  induction l as [|x l IH]; intros Hall; [reflexivity |]. simpl.
  destruct (Hall x) as [b Hb]; [by left |]. rewrite Hb. simpl.
  rewrite IH by (intros; apply Hall; by right). simpl.
  by destruct b.
Qed.

Lemma filter_raising_Raise {A : Type} (cond : A -> result bool)
    (l : list A) (x : A) (e : exn) :
  In x l -> cond x = Raise e ->
  exists e' y, In y l /\ cond y = Raise e' /\ filter_raising cond l = Raise e'.
Proof.
  induction l as [|y l IH]; intros Hin Hx; [done |]. simpl.
  destruct (cond y) as [b|e'] eqn:Hy; simpl.
  - destruct Hin as [-> | Hin]; [congruence |].
    destruct (IH Hin Hx) as (e' & z & Hz & Hcz & ->).
    exists e', z. split; [by right | done].
  - exists e', y. split; [by left | done].
Qed.

Lemma filter_raising_only {A : Type} (cond : A -> result bool)
    (l : list A) (x : A) (e0 : exn) :
  (forall y e, In y l -> cond y = Raise e -> e = e0) ->
  In x l -> cond x = Raise e0 ->
  filter_raising cond l = Raise e0.
Proof.
  intros Honly Hin Hx.
  destruct (filter_raising_Raise cond l x e0 Hin Hx) as (e' & y & Hy & Hcy & ->).
  by rewrite (Honly y e' Hy Hcy).
Qed.

Lemma _between_dates_raises (p : string)
    (start_date end_date : option datetime_date) (e : exn) :
  _between_dates p start_date end_date = Raise e ->
  (e = IndexError /\ ~ has_date_stamp p)
  \/ (e = ValueError
      /\ exists stamp, embedded_stamp p stamp
                       /\ fromisoformat stamp = Raise ValueError).
Proof.
  rewrite _between_dates_unfold.
  destruct (findall_date p) as [|stamp rest] eqn:Hall.
  - intros [= <-]. left. split; [done | by apply findall_date_nil].
  - destruct (fromisoformat stamp) as [d|e'] eqn:E; [discriminate |].
    intros [= <-]. pose proof (fromisoformat_raises _ _ E) as ->.
    right. split; [done |]. exists stamp. split; [| done].
    apply findall_date_head. by rewrite Hall.
Qed.

(** ** The selector *)

Lemma combine_path_size (l : list FileMetadata) :
  List.combine (List.map path l) (List.map size_in_bytes l)
  = List.map (fun m => (path m, size_in_bytes m)) l.
Proof. induction l as [|m l IH]; simpl; [done | by rewrite IH]. Qed.

Lemma SCAN_FILES_plain : Forall plain_filename SCAN_FILES.
Proof. repeat constructor. Qed.

Lemma files_to_load_plain (SCAN_TYPE_SATELLITE : string)
    (SATELLITE_FILES : list string) (scan_type : string) :
  Forall plain_filename SATELLITE_FILES ->
  Forall plain_filename
         (files_to_load_of SCAN_TYPE_SATELLITE SATELLITE_FILES scan_type).
Proof.
  intros H. unfold files_to_load_of.
  destruct (String.eqb scan_type SCAN_TYPE_SATELLITE);
    [exact H | exact SCAN_FILES_plain].
Qed.

Section SelectorProperties.

Variable project bucket : string.
Variable gcs_match : string -> list FileMetadata.
Variable _get_existing_datasources : string -> string -> list string.
Variable source_from_filename : string -> string.
Variable SCAN_TYPE_SATELLITE : string.
Variable SATELLITE_FILES : list string.

Variable scan_type : string.
Variable incremental_load : bool.
Variable destination : string.
Variable start_date end_date : option datetime_date.

(** The objects enumerated under the family's prefix. *)
Let listing : list FileMetadata := gcs_match (bucket ++ scan_type ++ "/**/*").

Let existing_sources : list string :=
  existing_sources_of project _get_existing_datasources incremental_load
                      destination.

Let files_to_load : list string :=
  files_to_load_of SCAN_TYPE_SATELLITE SATELLITE_FILES scan_type.

Let selection : result (list string) :=
  _data_to_load project bucket gcs_match _get_existing_datasources
    source_from_filename SCAN_TYPE_SATELLITE SATELLITE_FILES
    scan_type incremental_load destination start_date end_date.

(** The condition of the comprehension, on one enumerated object. *)
Let keep (entry : string * Z) : result bool :=
  let '(filepath, file_size) := entry in
  between <- _between_dates filepath start_date end_date ;;
  Ok (between
      && _filename_matches filepath files_to_load
      && negb (str_in (source_from_filename filepath) existing_sources)
      && (EMPTY_GZIPPED_FILE_SIZE <? file_size)).

Lemma selection_unfold :
  selection =
  (selected <- filter_raising keep
                 (List.map (fun m => (path m, size_in_bytes m)) listing) ;;
   Ok (List.map fst selected)).
Proof.
  unfold selection, _data_to_load. by rewrite combine_path_size.
Qed.

Lemma keep_holds (filepath : string) (file_size : Z) :
  Forall plain_filename SATELLITE_FILES ->
  holds (keep (filepath, file_size)) = true <->
  (exists d, embedded_date filepath d /\ in_window d start_date end_date)
  /\ In (strip_compression_suffix (PurePosixPath.name filepath)) files_to_load
  /\ ~ In (source_from_filename filepath) existing_sources
  /\ ~ file_size <= EMPTY_GZIPPED_FILE_SIZE.
Proof.
  intros Hplain. unfold keep, files_to_load.
  rewrite <- (_filename_matches_spec _ _
                (files_to_load_plain _ _ scan_type Hplain)).
  rewrite <- str_in_In.
  destruct (_between_dates filepath start_date end_date) as [b|e] eqn:E;
    simpl.
  - apply _between_dates_Ok in E as (d & Hd & ->).
    rewrite !andb_true_iff, negb_true_iff, Z.ltb_lt, window_test_in_window.
    split.
    + intros [[[Hw Hm] Hs] Hsz].
      split; [by exists d |]. split; [done |].
      split; [by rewrite Hs | lia].
    + intros ((d' & Hd' & Hw) & Hm & Hs & Hsz).
      rewrite (embedded_date_unique _ _ _ Hd Hd').
      split; [split; [split |] |]; [done | done | | lia].
      by destruct (str_in _ existing_sources).
  - split; [discriminate |].
    intros ((d & Hd & _) & _).
    assert (_between_dates filepath start_date end_date
            = Ok (window_test d start_date end_date)) as E'
      by (apply _between_dates_Ok; by exists d).
    congruence.
Qed.

Lemma keep_raises (filepath : string) (file_size : Z) (e : exn) :
  keep (filepath, file_size) = Raise e <->
  _between_dates filepath start_date end_date = Raise e.
Proof.
  unfold keep.
  destruct (_between_dates filepath start_date end_date); simpl;
    split; congruence.
Qed.

Lemma keep_evaluates (filepath : string) (file_size : Z) :
  (exists d, embedded_date filepath d) ->
  exists b, keep (filepath, file_size) = Ok b.
Proof.
  intros [d Hd]. unfold keep.
  assert (_between_dates filepath start_date end_date
          = Ok (window_test d start_date end_date)) as ->
    by (apply _between_dates_Ok; by exists d).
  simpl. by eexists.
Qed.

Lemma selection_returns_dated (selected : list string) :
  selection = Ok selected ->
  forall m, In m listing -> exists d, embedded_date (path m) d.
Proof.
  intros Hsel m Hm.
  destruct (_between_dates (path m) start_date end_date) as [b|e] eqn:E.
  - apply _between_dates_Ok in E as (d & Hd & _). by exists d.
  - exfalso. rewrite selection_unfold in Hsel.
    destruct (filter_raising_Raise keep
                (List.map (fun m => (path m, size_in_bytes m)) listing)
                (path m, size_in_bytes m) e)
      as (e' & y & _ & _ & Hraise).
    + apply in_map_iff. by exists m.
    + by apply keep_raises.
    + rewrite Hraise in Hsel. discriminate Hsel.
Qed.



End SelectorProperties.

(** ** Dates and their ISO form *)

Lemma digit_val_range (c : ascii) : digit c -> 0 <= Str.digit_val c <= 9.
Proof.
  unfold digit. simpl.
  intros H; repeat (destruct H as [<- | H]; [vm_compute; split; discriminate |]);
    contradiction.
Qed.

Lemma digit_val_inj (a b : ascii) :
  digit a -> digit b -> Str.digit_val a = Str.digit_val b -> a = b.
Proof.
  unfold digit. simpl.
  intros Ha Hb;
    repeat (destruct Ha as [<- | Ha]; [| try contradiction]);
    repeat (destruct Hb as [<- | Hb]; [| try contradiction]);
    vm_compute; intros E; first [reflexivity | discriminate E].
Qed.

Lemma fromisoformat_Ok_inv (s : string) (d : datetime_date) :
  fromisoformat s = Ok d ->
  exists y1 y2 y3 y4 m1 m2 d1 d2,
    s = String y1 (String y2 (String y3 (String y4 (String "-"
          (String m1 (String m2 (String "-"
            (String d1 (String d2 EmptyString)))))))))
    /\ (digit y1 /\ digit y2 /\ digit y3 /\ digit y4)
    /\ (digit m1 /\ digit m2) /\ (digit d1 /\ digit d2)
    /\ year d = 1000 * Str.digit_val y1 + 100 * Str.digit_val y2
                + 10 * Str.digit_val y3 + Str.digit_val y4
    /\ month d = 10 * Str.digit_val m1 + Str.digit_val m2
    /\ day d = 10 * Str.digit_val d1 + Str.digit_val d2.
Proof.
  unfold fromisoformat.
  destruct s as [|y1 [|y2 [|y3 [|y4 [|h1 [|m1 [|m2 [|h2 [|d1 [|d2 [|? ?]]]]]]]]]]];
    try discriminate.
  destruct (date_pattern_at _) eqn:Hpat; [| discriminate].
  unfold date_pattern_at in Hpat.
  rewrite !andb_true_iff, !is_digit_digit, !char_eqb_eq in Hpat.
  destruct Hpat as [[[[[[[[[? ?] ?] ?] ->] ?] ?] ->] ?] ?].
  destruct (_ && _); [| discriminate]. intros [= <-].
  exists y1, y2, y3, y4, m1, m2, d1, d2. simpl. tauto.
Qed.

(** Two strings that parse to the same date are the same string. *)
Lemma fromisoformat_inj (s1 s2 : string) (d : datetime_date) :
  fromisoformat s1 = Ok d -> fromisoformat s2 = Ok d -> s1 = s2.
Proof.
  intros (a1 & a2 & a3 & a4 & a5 & a6 & a7 & a8 & -> & Ha)%fromisoformat_Ok_inv
         (b1 & b2 & b3 & b4 & b5 & b6 & b7 & b8 & -> & Hb)%fromisoformat_Ok_inv.
  destruct Ha as ((A1 & A2 & A3 & A4) & (A5 & A6) & (A7 & A8) & Ey & Em & Ed).
  destruct Hb as ((B1 & B2 & B3 & B4) & (B5 & B6) & (B7 & B8) & Fy & Fm & Fd).
  pose proof (digit_val_range _ A1). pose proof (digit_val_range _ A2).
  pose proof (digit_val_range _ A3). pose proof (digit_val_range _ A4).
  pose proof (digit_val_range _ A5). pose proof (digit_val_range _ A6).
  pose proof (digit_val_range _ A7). pose proof (digit_val_range _ A8).
  pose proof (digit_val_range _ B1). pose proof (digit_val_range _ B2).
  pose proof (digit_val_range _ B3). pose proof (digit_val_range _ B4).
  pose proof (digit_val_range _ B5). pose proof (digit_val_range _ B6).
  pose proof (digit_val_range _ B7). pose proof (digit_val_range _ B8).
  rewrite Ey in Fy. rewrite Em in Fm. rewrite Ed in Fd.
  rewrite (digit_val_inj a1 b1), (digit_val_inj a2 b2), (digit_val_inj a3 b3),
    (digit_val_inj a4 b4), (digit_val_inj a5 b5), (digit_val_inj a6 b6),
    (digit_val_inj a7 b7), (digit_val_inj a8 b8); try done; lia.
Qed.

(** ** Grouping and regrouping *)

Section Regroup.

Context {K : Type} `{EqDecision K}.

Lemma values_under_map {A : Type} (f : A -> K) (l : list A) (k : K) :
  Beam.values_under k (List.map (fun x => (f x, x)) l)
  = List.filter (fun x => bool_decide (f x = k)) l.
Proof.
  unfold Beam.values_under.
  induction l as [|x l IH]; simpl; [done |].
  destruct (bool_decide (f x = k)); simpl; by rewrite IH.
Qed.

Lemma values_under_absent {V : Type} (k : K) (pcoll : list (K * V)) :
  ~ In k (Beam.Keys pcoll) -> Beam.values_under k pcoll = [].
Proof.
  unfold Beam.values_under, Beam.Keys.
  induction pcoll as [|[k' v] l IH]; simpl; [done |].
  intros Hk. rewrite bool_decide_eq_false_2 by tauto. apply IH. tauto.
Qed.

Lemma Keys_graph {V : Type} (h : K -> V) (ks : list K) :
  Beam.Keys (List.map (fun k => (k, h k)) ks) = ks.
Proof.
  unfold Beam.Keys. rewrite List.map_map. simpl. apply List.map_id.
Qed.

(** A key that occurs once holds one value. *)
Lemma values_under_graph {V : Type} (h : K -> V) (ks : list K) (k : K) :
  NoDup ks -> In k ks ->
  Beam.values_under k (List.map (fun k' => (k', h k')) ks) = [h k].
Proof.
  intros Hnd Hin.
  induction Hnd as [|k' ks Hk' Hnd IH]; [done |].
  unfold Beam.values_under in *. simpl.
  destruct (decide (k' = k)) as [-> | Hne].
  - rewrite bool_decide_eq_true_2 by done. simpl. f_equal.
    apply (values_under_absent k (List.map (fun k' => (k', h k')) ks)).
    rewrite Keys_graph. by rewrite <- list_elem_of_In.
  - rewrite bool_decide_eq_false_2 by done.
    destruct Hin as [-> | Hin]; [done | by apply IH].
Qed.

Lemma concat_insert_once {A : Type} (g : K -> list A) (k0 : K) (x : A)
    (ks : list K) :
  NoDup ks -> In k0 ks ->
  List.concat
    (List.map (fun k => if bool_decide (k0 = k) then x :: g k else g k) ks)
  ≡ₚ x :: List.concat (List.map g ks).
Proof.
  intros Hnd Hin.
  induction Hnd as [|k ks Hk Hnd IH]; [done |]. simpl.
  destruct (decide (k0 = k)) as [-> | Hne].
  - rewrite bool_decide_eq_true_2 by done. simpl.
    do 2 f_equiv.
    assert (forall k', In k' ks ->
              (if bool_decide (k = k') then x :: g k' else g k') = g k') as E.
    { intros k' Hk'. rewrite bool_decide_eq_false_2; [done |].
      intros <-. by apply Hk, list_elem_of_In. }
    clear -E. induction ks as [|k' ks IH]; [done |]. simpl.
    rewrite E by (by left). rewrite IH; [done |].
    intros; apply E; by right.
  - rewrite bool_decide_eq_false_2 by done.
    destruct Hin as [-> | Hin]; [done |].
    rewrite (IH Hin). by rewrite Permutation_middle.
Qed.

(** Cutting a list into the groups of its keys and putting the groups
    together again loses and repeats nothing. *)
Lemma regroup {A B : Type} (f : A -> K) (h : K -> A -> B) (l : list A)
    (ks : list K) :
  NoDup ks -> (forall x, In x l -> In (f x) ks) ->
  List.concat
    (List.map
       (fun k => List.map (h k)
                   (List.filter (fun x => bool_decide (f x = k)) l))
       ks)
  ≡ₚ List.map (fun x => h (f x) x) l.
Proof.
  intros Hnd. induction l as [|x l IH]; intros Hks.
  - simpl. clear. induction ks; [done | done].
  - simpl. rewrite <- IH by (intros; apply Hks; by right).
    rewrite <- (concat_insert_once _ (f x) _ ks Hnd) by (apply Hks; by left).
    apply reflexive_eq.
    f_equal. apply map_ext. intros k.
    destruct (decide (f x = k)) as [<- | Hne].
    + by rewrite !bool_decide_eq_true_2.
    + by rewrite !bool_decide_eq_false_2.
Qed.

(** The groups [GroupByKey] makes, flattened again. *)
Lemma GroupByKey_flatten {V : Type} (pcoll : list (K * V)) :
  List.concat
    (List.map (fun g => List.map (fun v => (fst g, v)) (snd g))
              (Beam.GroupByKey pcoll))
  ≡ₚ pcoll.
Proof.
  unfold Beam.GroupByKey, Beam.values_under. rewrite List.map_map. simpl.
  etransitivity.
  - erewrite map_ext; [| intros k; by rewrite List.map_map].
    apply (regroup fst (fun k kv => (k, snd kv)) pcoll).
    + apply NoDup_remove_dups.
    + intros kv Hkv. apply list_elem_of_In, elem_of_remove_dups,
        list_elem_of_In, in_map. done.
  - apply reflexive_eq.
    rewrite <- (List.map_id pcoll) at 2. apply map_ext. by intros [].
Qed.

Lemma GroupByKey_keys {V : Type} (pcoll : list (K * V)) :
  List.map fst (Beam.GroupByKey pcoll) = remove_dups (Beam.Keys pcoll).
Proof.
  unfold Beam.GroupByKey. rewrite List.map_map. simpl. apply List.map_id.
Qed.

End Regroup.

(** ** Running the provider calls *)

#[local] Open Scope list_scope.

Lemma M_bind_Ok {A B : Type} (c : M A) (k : A -> M B) (w w' : World) (a : A) :
  c w = (Ok a, w') -> M_bind c k w = k a w'.
Proof. unfold M_bind. by intros ->. Qed.

Lemma M_bind_Raise {A B : Type} (c : M A) (k : A -> M B) (w w' : World)
    (e : exn) :
  c w = (Raise e, w') -> M_bind c k w = (Raise e, w').
Proof. unfold M_bind. by intros ->. Qed.

Lemma get_metadata_run (chooser : IpMetadataChooser) (ip : string)
    (w : World) :
  exists logged,
    get_metadata chooser ip w
    = (Ok (metadata_of_answer (fst (provider_lookup chooser ip))),
       mkWorld (log w ++ logged) (uuid_draws w)
               (provider_calls w ++ [GetMetadata (instance_id chooser) ip])).
Proof.
  unfold get_metadata, M_bind, record_call, emit, logging_warning, M_ret.
  simpl.
  destruct (provider_lookup chooser ip) as [[[[[[[nb a] an] afn] at'] co] | e] lg];
    simpl.
  - by exists lg.
  - eexists (lg ++ [_]). by rewrite app_assoc.
Qed.

Lemma lookups_run (date : string) (chooser : IpMetadataChooser)
    (ips : list string) (w : World) :
  exists logged,
    for_each
      (fun ip =>
         M_bind (get_metadata chooser ip)
                (fun metadata_values => M_ret [((date, ip), metadata_values)]))
      ips w
    = (Ok (List.map
             (fun ip => ((date, ip),
                         metadata_of_answer (fst (provider_lookup chooser ip))))
             ips),
       mkWorld (log w ++ logged) (uuid_draws w)
               (provider_calls w
                ++ List.map (GetMetadata (instance_id chooser)) ips)).
Proof.
  revert w; induction ips as [|ip ips IH]; intros w.
  - exists []. simpl. unfold M_ret. rewrite !app_nil_r. by destruct w.
  - simpl.
    destruct (get_metadata_run chooser ip w) as [lg1 E1].
    rewrite (M_bind_Ok _ _ _ _ _
               (M_bind_Ok _ _ _ _ _ E1 : M_bind (get_metadata chooser ip) _ w = _)).
    destruct (IH (mkWorld (log w ++ lg1) (uuid_draws w)
                    (provider_calls w ++ [GetMetadata (instance_id chooser) ip])))
      as [lg2 E2].
    rewrite (M_bind_Ok _ _ _ _ _ E2). unfold M_ret. simpl.
    exists (lg1 ++ lg2). by rewrite <- !app_assoc.
Qed.

Section JoinRuns.

Variable open_snapshot : datetime_date -> option (string -> Logged IpMetadata).

Lemma _add_ip_metadata_bad_date (date : string) (ips : list string)
    (w : World) (e : exn) :
  fromisoformat date = Raise e ->
  _add_ip_metadata open_snapshot date ips w = (Raise e, w).
Proof.
  intros E. unfold _add_ip_metadata, M_bind, lift. by rewrite E.
Qed.

Lemma _add_ip_metadata_unavailable (date : string) (ips : list string)
    (w : World) (d : datetime_date) :
  fromisoformat date = Ok d -> open_snapshot d = None ->
  _add_ip_metadata open_snapshot date ips w
  = (Raise ProviderUnavailable,
     mkWorld (log w) (uuid_draws w)
             (provider_calls w ++ [MakeChooser d (length (provider_calls w))])).
Proof.
  intros E1 E2. unfold _add_ip_metadata, M_bind, lift, make_chooser.
  by rewrite E1, E2.
Qed.

Lemma _add_ip_metadata_available (date : string) (ips : list string)
    (w : World) (d : datetime_date) (answers : string -> Logged IpMetadata) :
  fromisoformat date = Ok d -> open_snapshot d = Some answers ->
  exists logged,
    _add_ip_metadata open_snapshot date ips w
    = (Ok (List.map (fun ip => ((date, ip), resolve open_snapshot (date, ip)))
                    ips),
       mkWorld (log w ++ logged) (uuid_draws w)
               (provider_calls w
                ++ MakeChooser d (length (provider_calls w))
                   :: List.map (GetMetadata (length (provider_calls w))) ips)).
Proof.
  intros E1 E2. unfold _add_ip_metadata.
  rewrite (M_bind_Ok _ _ w w d) by (unfold lift; by rewrite E1).
  pose (ch := mkChooser (length (provider_calls w)) answers).
  rewrite (M_bind_Ok _ _ w
             (mkWorld (log w) (uuid_draws w)
                (provider_calls w
                 ++ [MakeChooser d (length (provider_calls w))])) ch)
    by (unfold make_chooser; by rewrite E2).
  destruct (lookups_run date ch ips
              (mkWorld (log w) (uuid_draws w)
                 (provider_calls w
                  ++ [MakeChooser d (length (provider_calls w))])))
    as [logged E].
  rewrite E. exists logged. simpl. f_equal; [f_equal | f_equal].
  - apply map_ext. intros ip. unfold resolve. simpl. by rewrite E1, E2.
  - by rewrite <- app_assoc.
Qed.

Lemma groups_run (groups : list (string * list string)) (w : World) :
  exists r logged,
    for_each (fun '(date, ips) => _add_ip_metadata open_snapshot date ips)
             groups w
    = (r, mkWorld (log w ++ logged) (uuid_draws w)
                  (provider_calls w
                   ++ join_calls open_snapshot (length (provider_calls w))
                                 groups))
    /\ (groups_available open_snapshot groups ->
        r = Ok (resolved_groups open_snapshot groups))
    /\ (is_ok r = true -> groups_available open_snapshot groups).
Proof.
  revert w; induction groups as [|[date ips] groups IH]; intros w.
  - exists (Ok []), []. simpl. unfold M_ret. rewrite !app_nil_r.
    split; [by destruct w |]. split; [done | by intros _ g []].
  - simpl. destruct (fromisoformat date) as [d|e] eqn:E1.
    2:{ exists (Raise e), [].
        rewrite (M_bind_Raise _ _ w w e)
          by (by apply _add_ip_metadata_bad_date).
        rewrite !app_nil_r. split; [by destruct w |].
        split; [| discriminate].
        intros Hav. destruct (Hav (date, ips)) as (d & a & Hd & _);
          [by left | simpl in Hd; congruence]. }
    destruct (open_snapshot d) as [answers|] eqn:E2.
    2:{ exists (Raise ProviderUnavailable), [].
        rewrite (M_bind_Raise _ _ w _ _
                   (_add_ip_metadata_unavailable date ips w d E1 E2)).
        rewrite !app_nil_r. split; [done |].
        split; [| discriminate].
        intros Hav. destruct (Hav (date, ips)) as (d' & a & Hd & Ha);
          [by left | simpl in Hd; congruence]. }
    destruct (_add_ip_metadata_available date ips w d answers E1 E2)
      as [lg1 Erun].
    rewrite (M_bind_Ok _ _ _ _ _ Erun).
    match type of Erun with
    | _ = (_, ?w1) => destruct (IH w1) as (r & lg2 & Erest & Hr & Hok)
    end.
    simpl in Erest. rewrite length_app in Erest. simpl in Erest.
    rewrite length_map in Erest.
    replace (length (provider_calls w) + S (length ips))%nat
      with (length (provider_calls w) + 1 + length ips)%nat in Erest by lia.
    destruct r as [rest|e].
    + rewrite (M_bind_Ok _ _ _ _ _ Erest). unfold M_ret.
      exists (Ok (List.map
                    (fun ip => ((date, ip), resolve open_snapshot (date, ip)))
                    ips ++ rest)), (lg1 ++ lg2).
      split.
      * f_equal. f_equal; [by rewrite app_assoc |].
        by rewrite <- app_assoc.
      * split.
        -- intros Hav. f_equal. unfold resolved_groups. simpl. f_equal.
           assert (Ok rest = Ok (resolved_groups open_snapshot groups))
             as [= ->] by (apply Hr; intros g Hg; apply Hav; by right).
           done.
        -- intros _ g [<- | Hg]; [by exists d, answers | by apply Hok].
    + rewrite (M_bind_Raise _ _ _ _ _ Erest).
      exists (Raise e), (lg1 ++ lg2).
      split.
      * f_equal. f_equal; [by rewrite app_assoc |].
        by rewrite <- app_assoc.
      * split; [| discriminate].
        intros Hav. exfalso.
        assert (Raise e = Ok (resolved_groups open_snapshot groups)) as [=]
          by (apply Hr; intros g Hg; apply Hav; by right).
Qed.

End JoinRuns.

(** ** The groups of a collection of rows *)

Lemma keys_of_rows (rows : list BigqueryRow) :
  Beam.Keys (List.map (fun row => (make_date_ip_key row, row)) rows)
  = List.map make_date_ip_key rows.
Proof. unfold Beam.Keys. by rewrite List.map_map. Qed.

Lemma keys_of_groups_of (rows : list BigqueryRow) :
  keys_of_groups (groups_of rows)
  ≡ₚ remove_dups (List.map make_date_ip_key rows).
Proof.
  unfold keys_of_groups, groups_of, Beam.Distinct.
  rewrite GroupByKey_flatten. by rewrite keys_of_rows.
Qed.

Lemma keys_of_groups_NoDup (rows : list BigqueryRow) :
  NoDup (keys_of_groups (groups_of rows)).
Proof. rewrite keys_of_groups_of. apply NoDup_remove_dups. Qed.

Lemma keys_of_groups_In (rows : list BigqueryRow) (key : DateIpKey) :
  In key (keys_of_groups (groups_of rows))
  <-> In key (List.map make_date_ip_key rows).
Proof.
  rewrite <- !list_elem_of_In, keys_of_groups_of. apply elem_of_remove_dups.
Qed.

Lemma group_has_row (rows : list BigqueryRow) (g : string * list string) :
  In g (groups_of rows) ->
  (forall a, In a (snd g) ->
     exists row, In row rows /\ date row = fst g /\ ip row = a)
  /\ exists row, In row rows /\ date row = fst g.
Proof.
  intros Hg.
  assert (forall a, In a (snd g) ->
            exists row, In row rows /\ date row = fst g /\ ip row = a)
    as Hips.
  { intros a Ha.
    assert (In (fst g, a) (keys_of_groups (groups_of rows))) as Hkey.
    { unfold keys_of_groups. apply in_concat.
      exists (List.map (fun a => (fst g, a)) (snd g)).
      split; [apply in_map_iff; by exists g | by apply in_map]. }
    apply keys_of_groups_In, in_map_iff in Hkey as (row & [= Hd Hi] & Hrow).
    by exists row. }
  split; [exact Hips |].
  unfold groups_of, Beam.GroupByKey in Hg.
  apply in_map_iff in Hg as (dt & <- & Hdt). simpl in *.
  rewrite <- list_elem_of_In, elem_of_remove_dups, list_elem_of_In in Hdt.
  unfold Beam.Keys in Hdt.
  apply in_map_iff in Hdt as ([dt' a] & Hfst & Hin). simpl in Hfst; subst dt'.
  unfold Beam.Distinct in Hin.
  rewrite <- list_elem_of_In, elem_of_remove_dups, list_elem_of_In in Hin.
  rewrite List.map_map in Hin.
  apply in_map_iff in Hin as (row & Hkey & Hrow). simpl in Hkey.
  injection Hkey as Hd Hi. by exists row.
Qed.

Lemma groups_of_available
    (open_snapshot : datetime_date -> option (string -> Logged IpMetadata))
    (rows : list BigqueryRow) :
  providers_available open_snapshot rows ->
  groups_available open_snapshot (groups_of rows).
Proof.
  intros Hav g Hg.
  destruct (group_has_row rows g Hg) as [_ (row & Hrow & <-)].
  by apply Hav.
Qed.

Lemma groups_of_available_inv
    (open_snapshot : datetime_date -> option (string -> Logged IpMetadata))
    (rows : list BigqueryRow) :
  groups_available open_snapshot (groups_of rows) ->
  providers_available open_snapshot rows.
Proof.
  intros Hav row Hrow.
  assert (In (make_date_ip_key row) (keys_of_groups (groups_of rows)))
    as Hkey by (by apply keys_of_groups_In, in_map).
  unfold keys_of_groups in Hkey.
  apply in_concat in Hkey as (ks & Hks & Hkey).
  apply in_map_iff in Hks as (g & <- & Hg).
  apply in_map_iff in Hkey as (a & [= Hd Hi] & Ha).
  destruct (Hav g Hg) as (d & answers & Hparse & Hopen).
  exists d, answers. by rewrite <- Hd.
Qed.

Lemma resolved_groups_graph
    (open_snapshot : datetime_date -> option (string -> Logged IpMetadata))
    (groups : list (string * list string)) :
  resolved_groups open_snapshot groups
  = List.map (fun key => (key, resolve open_snapshot key))
             (keys_of_groups groups).
Proof.
  unfold resolved_groups, keys_of_groups.
  rewrite concat_map, List.map_map. f_equal. apply map_ext. intros g.
  by rewrite List.map_map.
Qed.

(** ** The re-join *)

(** Merging the resolved keys back onto the rows gives every row the record
    of its key. *)
Lemma rejoin
    (open_snapshot : datetime_date -> option (string -> Logged IpMetadata))
    (rows : list BigqueryRow) :
  Beam.FlatMapTuple merge_metadata_with_rows
    (Beam.CoGroupByKey
       (resolved_groups open_snapshot (groups_of rows))
       (List.map (fun row => (make_date_ip_key row, row)) rows))
  ≡ₚ List.map (joined open_snapshot) rows.
Proof.
  unfold Beam.FlatMapTuple, Beam.CoGroupByKey.
  rewrite List.map_map. simpl.
  rewrite resolved_groups_graph, Keys_graph, keys_of_rows.
  set (cks := remove_dups (keys_of_groups (groups_of rows)
                           ++ List.map make_date_ip_key rows)).
  assert (NoDup cks) as Hnd by apply NoDup_remove_dups.
  assert (forall k, In k cks <-> In k (List.map make_date_ip_key rows)) as Hin.
  { intros k. unfold cks.
    rewrite <- list_elem_of_In, elem_of_remove_dups, list_elem_of_In.
    rewrite in_app_iff, keys_of_groups_In. tauto. }
  rewrite <- (regroup make_date_ip_key
                (fun k row => with_ip_metadata row (resolve open_snapshot k))
                rows cks Hnd)
    by (intros row Hrow; by apply Hin, in_map).
  apply reflexive_eq. f_equal. apply map_ext_in. intros k Hk.
  rewrite values_under_graph, values_under_map;
    [done | apply keys_of_groups_NoDup | by apply keys_of_groups_In, Hin].
Qed.

Section JoinRun.

Variable open_snapshot : datetime_date -> option (string -> Logged IpMetadata).

(** What a run of the join returns and what it does to the world. *)
Lemma _add_metadata_run (rows : list BigqueryRow) (w : World) :
  exists r logged,
    _add_metadata open_snapshot rows w
    = (r, mkWorld (log w ++ logged) (uuid_draws w)
                  (provider_calls w
                   ++ join_calls open_snapshot (length (provider_calls w))
                                 (groups_of rows)))
    /\ (providers_available open_snapshot rows ->
        exists rows_with_metadata,
          r = Ok rows_with_metadata
          /\ rows_with_metadata ≡ₚ List.map (joined open_snapshot) rows)
    /\ (is_ok r = true -> providers_available open_snapshot rows).
Proof.
  unfold _add_metadata. fold (groups_of rows).
  destruct (groups_run open_snapshot (groups_of rows) w)
    as (r0 & logged & Erun & Hr0 & Hok).
  destruct r0 as [ips_with_metadata | e].
  - rewrite (M_bind_Ok _ _ _ _ _ Erun). unfold M_ret.
    eexists _, logged. split; [reflexivity |].
    split; [| by intros _; apply groups_of_available_inv, Hok].
    intros Hav. eexists. split; [reflexivity |].
    assert (Ok ips_with_metadata
            = Ok (resolved_groups open_snapshot (groups_of rows))) as [= ->]
      by (by apply Hr0, groups_of_available).
    apply rejoin.
  - rewrite (M_bind_Raise _ _ _ _ _ Erun).
    exists (Raise e), logged. split; [reflexivity |].
    split; [| discriminate].
    intros Hav. exfalso.
    assert (Raise e = Ok (resolved_groups open_snapshot (groups_of rows)))
      as [=] by (by apply Hr0, groups_of_available).
Qed.

End JoinRun.

(** ** The provider calls of the join *)

Lemma lookups_app (c1 c2 : list ProviderCall) :
  lookups (c1 ++ c2) = (lookups c1 + lookups c2)%nat.
Proof. unfold lookups. by rewrite List.filter_app, length_app. Qed.

Lemma acquisitions_app (c1 c2 : list ProviderCall) :
  acquisitions (c1 ++ c2) = (acquisitions c1 + acquisitions c2)%nat.
Proof. unfold acquisitions. by rewrite List.filter_app, length_app. Qed.

Lemma acquisitions_for_app (d : datetime_date) (c1 c2 : list ProviderCall) :
  acquisitions_for d (c1 ++ c2)
  = (acquisitions_for d c1 + acquisitions_for d c2)%nat.
Proof. unfold acquisitions_for. by rewrite List.filter_app, length_app. Qed.

Lemma lookups_GetMetadata (i : nat) (ips : list string) :
  lookups (List.map (GetMetadata i) ips) = length ips.
Proof.
  unfold lookups. induction ips as [|a ips IH]; simpl; [done | by rewrite IH].
Qed.

Lemma acquisitions_GetMetadata (i : nat) (ips : list string) :
  acquisitions (List.map (GetMetadata i) ips) = 0%nat.
Proof. unfold acquisitions. by induction ips. Qed.

Lemma acquisitions_for_GetMetadata (d : datetime_date) (i : nat)
    (ips : list string) :
  acquisitions_for d (List.map (GetMetadata i) ips) = 0%nat.
Proof. unfold acquisitions_for. by induction ips. Qed.

Lemma acquisitions_for_absent (d : datetime_date) (calls : list ProviderCall) :
  (forall i, ~ In (MakeChooser d i) calls) -> acquisitions_for d calls = 0%nat.
Proof.
  unfold acquisitions_for.
  induction calls as [|[d' i | i a] calls IH]; intros Hno; simpl; [done | |].
  - rewrite bool_decide_eq_false_2.
    + apply IH. intros j Hj. apply (Hno j). by right.
    + intros ->. apply (Hno i). by left.
  - apply IH. intros j Hj. apply (Hno j). by right.
Qed.

Section JoinCalls.

Variable open_snapshot : datetime_date -> option (string -> Logged IpMetadata).

Lemma length_keys_of_groups_cons (g : string * list string)
    (groups : list (string * list string)) :
  length (keys_of_groups (g :: groups))
  = (length (snd g) + length (keys_of_groups groups))%nat.
Proof.
  unfold keys_of_groups. simpl. by rewrite length_app, length_map.
Qed.

(** One lookup per key of the groups, when every snapshot opens. *)
Lemma lookups_join_calls (made : nat) (groups : list (string * list string)) :
  groups_available open_snapshot groups ->
  lookups (join_calls open_snapshot made groups)
  = length (keys_of_groups groups).
Proof.
  revert made; induction groups as [|[dt ips] groups IH]; intros made Hav;
    [done |].
  destruct (Hav (dt, ips)) as (d & answers & E1 & E2); [by left |].
  simpl in E1. rewrite length_keys_of_groups_cons. simpl. rewrite E1, E2.
  change (MakeChooser d made :: ?l) with ([MakeChooser d made] ++ l).
  rewrite !lookups_app, lookups_GetMetadata, IH; [done |].
  intros g Hg. apply Hav. by right.
Qed.

(** Never more lookups than keys. *)
Lemma lookups_join_calls_le (made : nat)
    (groups : list (string * list string)) :
  (lookups (join_calls open_snapshot made groups)
   <= length (keys_of_groups groups))%nat.
Proof.
  revert made; induction groups as [|[dt ips] groups IH]; intros made;
    [done |].
  rewrite length_keys_of_groups_cons. simpl.
  destruct (fromisoformat dt) as [d|]; [| unfold lookups; simpl; lia].
  change (MakeChooser d made :: ?l) with ([MakeChooser d made] ++ l).
  rewrite lookups_app.
  destruct (open_snapshot d); [| unfold lookups; simpl; lia].
  rewrite lookups_app, lookups_GetMetadata.
  specialize (IH (made + 1 + length ips)%nat). unfold lookups at 1. simpl. lia.
Qed.

(** One factory call per group at most, and exactly one when every
    snapshot opens. *)
Lemma acquisitions_join_calls (made : nat)
    (groups : list (string * list string)) :
  (acquisitions (join_calls open_snapshot made groups) <= length groups)%nat
  /\ (groups_available open_snapshot groups ->
      acquisitions (join_calls open_snapshot made groups) = length groups).
Proof.
  revert made; induction groups as [|[dt ips] groups IH]; intros made;
    [done |].
  simpl. destruct (fromisoformat dt) as [d|] eqn:E1.
  2:{ split; [unfold acquisitions; simpl; lia |].
      intros Hav. destruct (Hav (dt, ips)) as (d & a & Hd & _);
        [by left | simpl in Hd; congruence]. }
  change (MakeChooser d made :: ?l) with ([MakeChooser d made] ++ l).
  rewrite acquisitions_app.
  destruct (open_snapshot d) eqn:E2.
  2:{ split; [unfold acquisitions; simpl; lia |].
      intros Hav. destruct (Hav (dt, ips)) as (d' & a & Hd & Ha);
        [by left | simpl in Hd; congruence]. }
  rewrite acquisitions_app, acquisitions_GetMetadata.
  destruct (IH (made + 1 + length ips)%nat) as [Hle Heq].
  unfold acquisitions at 1 3. simpl. split; [lia |].
  intros Hav. rewrite Heq; [done |]. intros g Hg. apply Hav. by right.
Qed.

(** A factory call of the join is for the date of some group, and its
    instance is a new one. *)
Lemma MakeChooser_join_calls (made : nat)
    (groups : list (string * list string)) (d : datetime_date) (i : nat) :
  In (MakeChooser d i) (join_calls open_snapshot made groups) ->
  (made <= i)%nat
  /\ exists g, In g groups /\ fromisoformat (fst g) = Ok d.
Proof.
  revert made; induction groups as [|[dt ips] groups IH]; intros made;
    [done |].
  simpl. destruct (fromisoformat dt) as [d0|] eqn:E1; [| done].
  intros [[= <- <-] | Hin].
  { split; [lia |]. exists (dt, ips). split; [by left | done]. }
  destruct (open_snapshot d0); [| done].
  apply in_app_iff in Hin as [Hin | Hin].
  { apply in_map_iff in Hin as (a & [=] & _). }
  destruct (IH _ Hin) as [Hle (g & Hg & Hd)].
  split; [lia |]. exists g. split; [by right | done].
Qed.

(** A lookup of the join is made on the instance obtained for the date of
    its group. *)
Lemma GetMetadata_join_calls (made : nat)
    (groups : list (string * list string)) (i : nat) (a : string) :
  In (GetMetadata i a) (join_calls open_snapshot made groups) ->
  exists g d,
    In g groups /\ In a (snd g) /\ fromisoformat (fst g) = Ok d
    /\ In (MakeChooser d i) (join_calls open_snapshot made groups).
Proof.
  revert made; induction groups as [|[dt ips] groups IH]; intros made;
    [done |].
  simpl. destruct (fromisoformat dt) as [d0|] eqn:E1; [| done].
  intros [[=] | Hin].
  destruct (open_snapshot d0); [| done].
  apply in_app_iff in Hin as [Hin | Hin].
  - apply in_map_iff in Hin as (a' & [= <- <-] & Ha).
    exists (dt, ips), d0. split; [by left |]. split; [done |].
    split; [done | by left].
  - destruct (IH _ Hin) as (g & d & Hg & Ha & Hd & Hmk).
    exists g, d. split; [by right |]. split; [done |]. split; [done |].
    right. apply in_app_iff. by right.
Qed.

(** An instance belongs to one date. *)
Lemma instance_one_date (made : nat) (groups : list (string * list string))
    (d d' : datetime_date) (i : nat) :
  In (MakeChooser d i) (join_calls open_snapshot made groups) ->
  In (MakeChooser d' i) (join_calls open_snapshot made groups) ->
  d = d'.
Proof.
  revert made; induction groups as [|[dt ips] groups IH]; intros made;
    [done |].
  simpl. destruct (fromisoformat dt) as [d0|] eqn:E1; [| done].
  assert (forall d1 j,
            In (MakeChooser d1 j)
               match open_snapshot d0 with
               | Some _ =>
                   List.map (GetMetadata made) ips
                   ++ join_calls open_snapshot (made + 1 + length ips) groups
               | None => []
               end ->
            In (MakeChooser d1 j)
               (join_calls open_snapshot (made + 1 + length ips) groups))
    as Hrest.
  { intros d1 j Hin. destruct (open_snapshot d0); [| done].
    apply in_app_iff in Hin as [Hin | Hin]; [| done].
    apply in_map_iff in Hin as (a & [=] & _). }
  intros [E1' | H1%Hrest] [E2' | H2%Hrest].
  - congruence.
  - injection E1' as <- <-.
    apply MakeChooser_join_calls in H2 as [Hle _]. lia.
  - injection E2' as <- <-.
    apply MakeChooser_join_calls in H1 as [Hle _]. lia.
  - by apply (IH _ H1 H2).
Qed.

(** At most one factory call per date, when no two groups share a date. *)
Lemma acquisitions_for_join_calls (made : nat)
    (groups : list (string * list string)) (d : datetime_date) :
  NoDup (List.map fst groups) ->
  (acquisitions_for d (join_calls open_snapshot made groups) <= 1)%nat.
Proof.
  revert made; induction groups as [|[dt ips] groups IH]; intros made Hnd;
    [unfold acquisitions_for; simpl; lia |].
  simpl in Hnd. apply NoDup_cons in Hnd as [Hdt Hnd].
  simpl. destruct (fromisoformat dt) as [d0|] eqn:E1;
    [| unfold acquisitions_for; simpl; lia].
  change (MakeChooser d0 made :: ?l) with ([MakeChooser d0 made] ++ l).
  rewrite acquisitions_for_app.
  destruct (open_snapshot d0);
    [| unfold acquisitions_for; simpl; destruct (bool_decide _); simpl; lia].
  rewrite acquisitions_for_app, acquisitions_for_GetMetadata.
  specialize (IH (made + 1 + length ips)%nat Hnd).
  unfold acquisitions_for at 1. simpl.
  destruct (decide (d0 = d)) as [-> | Hne].
  - rewrite bool_decide_eq_true_2 by done. simpl.
    rewrite acquisitions_for_absent; [lia |].
    intros i (_ & g & Hg & Hd)%MakeChooser_join_calls.
    apply Hdt. rewrite (fromisoformat_inj _ _ _ E1 Hd).
    apply list_elem_of_In, in_map. done.
  - rewrite bool_decide_eq_false_2 by done. simpl. lia.
Qed.

(** When every snapshot opens, each key of the groups is looked up on the
    instance obtained for its date. *)
Lemma key_looked_up (made : nat) (groups : list (string * list string))
    (g : string * list string) (a : string) :
  groups_available open_snapshot groups ->
  In g groups -> In a (snd g) ->
  exists d i,
    fromisoformat (fst g) = Ok d
    /\ In (MakeChooser d i) (join_calls open_snapshot made groups)
    /\ In (GetMetadata i a) (join_calls open_snapshot made groups).
Proof.
  revert made; induction groups as [|[dt ips] groups IH]; intros made Hav Hg Ha;
    [done |].
  destruct (Hav (dt, ips)) as (d0 & answers & E1 & E2); [by left |].
  simpl in E1. simpl. rewrite E1, E2.
  destruct Hg as [<- | Hg].
  - exists d0, made. split; [done |]. split; [by left |].
    right. apply in_app_iff. left. by apply in_map.
  - destruct (IH (made + 1 + length ips)%nat) as (d & i & Hd & Hmk & Hget);
      [by intros g' Hg'; apply Hav; right | done | done |].
    exists d, i. split; [done |].
    split; right; apply in_app_iff; by right.
Qed.

End JoinCalls.

(** ** The metadata join *)

Lemma length_remove_dups_size `{Countable A} (l : list A) :
  length (remove_dups l) = size (list_to_set l : gset A).
Proof.
  rewrite <- (size_list_to_set (C:=gset A) (remove_dups l))
    by apply NoDup_remove_dups.
  f_equal. apply set_eq. intros x.
  by rewrite !elem_of_list_to_set, elem_of_remove_dups.
Qed.

Lemma groups_of_dates_NoDup (rows : list BigqueryRow) :
  NoDup (List.map fst (groups_of rows)).
Proof.
  unfold groups_of. rewrite GroupByKey_keys. apply NoDup_remove_dups.
Qed.

Lemma length_groups_of (rows : list BigqueryRow) :
  length (groups_of rows) = size (distinct_dates rows).
Proof.
  rewrite <- (length_map fst). unfold groups_of. rewrite GroupByKey_keys.
  rewrite length_remove_dups_size. unfold distinct_dates. f_equal.
  apply set_eq. intros dt.
  rewrite !elem_of_list_to_set, !list_elem_of_In.
  unfold Beam.Keys, Beam.Distinct. rewrite !in_map_iff. split.
  - intros ([dt' a] & <- & Hin).
    rewrite <- list_elem_of_In, elem_of_remove_dups, list_elem_of_In in Hin.
    rewrite List.map_map in Hin.
    apply in_map_iff in Hin as (row & Hkey & Hrow). simpl in Hkey.
    injection Hkey as Hd Hi. by exists row.
  - intros (row & <- & Hrow). exists (make_date_ip_key row). split; [done |].
    rewrite <- list_elem_of_In, elem_of_remove_dups, list_elem_of_In.
    rewrite List.map_map. apply in_map_iff. by exists row.
Qed.

Lemma length_keys_of_groups_of (rows : list BigqueryRow) :
  length (keys_of_groups (groups_of rows)) = size (distinct_keys rows).
Proof.
  rewrite keys_of_groups_of. apply length_remove_dups_size.
Qed.

Section JoinTheorems.

Variable open_snapshot : datetime_date -> option (string -> Logged IpMetadata).

Lemma _add_metadata_returns (rows : list BigqueryRow) (w : World) :
  (providers_available open_snapshot rows
   <-> exists rows_with_metadata w',
         _add_metadata open_snapshot rows w = (Ok rows_with_metadata, w'))
  /\ forall rows_with_metadata w',
       _add_metadata open_snapshot rows w = (Ok rows_with_metadata, w') ->
       rows_with_metadata ≡ₚ List.map (joined open_snapshot) rows.
Proof.
  destruct (_add_metadata_run open_snapshot rows w)
    as (r & logged & Erun & Hr & Hok).
  split; [split |].
  - intros Hav. destruct (Hr Hav) as (out & -> & _). by eexists out, _.
  - intros (out & w' & E). rewrite Erun in E. injection E as -> _.
    by apply Hok.
  - intros out w' E. rewrite Erun in E. injection E as -> _.
    destruct (Hr (Hok eq_refl)) as (out' & [= <-] & Hperm). exact Hperm.
Qed.

(** C1. Row preservation: the join returns exactly when the factory can
    open a snapshot for the date of every row, and what it returns has as
    many rows as it was given, whatever the lookups answer: it is the given
    rows, each with a metadata record attached, in some order, and rows with
    nothing but unset metadata when every lookup misses. *)
Theorem add_metadata_preserves_rows (rows : list BigqueryRow) (w : World) :
  (providers_available open_snapshot rows
   <-> exists rows_with_metadata w',
         _add_metadata open_snapshot rows w = (Ok rows_with_metadata, w'))
  /\ forall rows_with_metadata w',
       _add_metadata open_snapshot rows w = (Ok rows_with_metadata, w') ->
       length rows_with_metadata = length rows
       /\ rows_with_metadata ≡ₚ List.map (joined open_snapshot) rows
       /\ ((forall d answers a,
              open_snapshot d = Some answers ->
              is_ok (fst (answers a)) = false)
           -> rows_with_metadata
              ≡ₚ List.map (fun row => with_ip_metadata row no_metadata) rows).
Proof.
  destruct (_add_metadata_returns rows w) as [Hreturns Hperm].
  split; [exact Hreturns |].
  intros out w' E. specialize (Hperm out w' E).
  split; [by rewrite Hperm, length_map |]. split; [exact Hperm |].
  intros Hmiss. rewrite Hperm. apply reflexive_eq, map_ext_in.
  intros row Hrow. unfold joined, resolve, make_date_ip_key. simpl. f_equal.
  assert (providers_available open_snapshot rows) as Hav
    by (apply Hreturns; by exists out, w').
  destruct (Hav row Hrow) as (d & answers & -> & Eopen). rewrite Eopen.
  specialize (Hmiss d answers (ip row) Eopen).
  by destruct (answers (ip row)) as [[] ?].
Qed.


(** C2. Key dedup: the lookups one run of the join makes on the provider
    are never more than there are distinct (date, ip) pairs among the rows,
    and a join that returns (as it does exactly when the factory can open a
    snapshot for the date of every row) has made exactly that many, however
    many rows share a pair. *)
Theorem add_metadata_lookups_distinct_keys (rows : list BigqueryRow)
    (w : World) :
  exists calls,
    provider_calls (snd (_add_metadata open_snapshot rows w))
    = provider_calls w ++ calls
    /\ (lookups calls <= size (distinct_keys rows))%nat
    /\ (is_ok (fst (_add_metadata open_snapshot rows w)) = true ->
        lookups calls = size (distinct_keys rows))
    /\ (providers_available open_snapshot rows
        <-> is_ok (fst (_add_metadata open_snapshot rows w)) = true).
Proof.
  destruct (_add_metadata_run open_snapshot rows w)
    as (r & logged & Erun & Hr & Hok).
  rewrite Erun. simpl. eexists. split; [reflexivity |].
  split; [| split; [| split]].
  - rewrite <- length_keys_of_groups_of. apply lookups_join_calls_le.
  - intros Hav%Hok.
    rewrite lookups_join_calls by (by apply groups_of_available).
    apply length_keys_of_groups_of.
  - intros Hav. by destruct (Hr Hav) as (out & -> & _).
  - exact Hok.
Qed.

(** C4. Provider acquisition: among the provider calls of one run of the
    join there is at most one factory call per date, and no more factory
    calls than distinct dates among the rows, whatever the number of
    addresses; every lookup is made on the instance the factory returned
    for the date of a row with that address, and an instance serves one
    date. When the factory can open every snapshot, there is one factory
    call per distinct date, and the key of every row is looked up on the
    instance of its date. *)
Theorem provider_acquired_once_per_date (rows : list BigqueryRow)
    (w : World) :
  exists calls,
    provider_calls (snd (_add_metadata open_snapshot rows w))
    = provider_calls w ++ calls
    /\ (forall d, (acquisitions_for d calls <= 1)%nat)
    /\ (acquisitions calls <= size (distinct_dates rows))%nat
    /\ (forall i a, In (GetMetadata i a) calls ->
          exists row d,
            In row rows /\ ip row = a /\ fromisoformat (date row) = Ok d
            /\ In (MakeChooser d i) calls)
    /\ (forall d d' i,
          In (MakeChooser d i) calls -> In (MakeChooser d' i) calls -> d = d')
    /\ (providers_available open_snapshot rows ->
        acquisitions calls = size (distinct_dates rows)
        /\ forall row, In row rows ->
             exists d i,
               fromisoformat (date row) = Ok d
               /\ In (MakeChooser d i) calls
               /\ In (GetMetadata i (ip row)) calls).
Proof.
  destruct (_add_metadata_run open_snapshot rows w)
    as (r & logged & Erun & Hr & _).
  rewrite Erun. simpl. eexists. split; [reflexivity |].
  set (made := length (provider_calls w)).
  split; [| split; [| split; [| split; [| split]]]].
  - intros d. apply acquisitions_for_join_calls, groups_of_dates_NoDup.
  - rewrite <- length_groups_of. apply acquisitions_join_calls.
  - intros i a (g & d & Hg & Ha & Hd & Hmk)%GetMetadata_join_calls.
    destruct (group_has_row rows g Hg) as [Hips _].
    destruct (Hips a Ha) as (row & Hrow & Hdate & Hip).
    exists row, d. rewrite Hdate. done.
  - intros d d' i. apply instance_one_date.
  - rewrite <- length_groups_of. by apply acquisitions_join_calls,
      groups_of_available.
  - intros row Hrow.
    assert (In (make_date_ip_key row) (keys_of_groups (groups_of rows)))
      as Hkey by (by apply keys_of_groups_In, in_map).
    unfold keys_of_groups in Hkey.
    apply in_concat in Hkey as (ks & Hks & Hkey).
    apply in_map_iff in Hks as (g & <- & Hg).
    apply in_map_iff in Hkey as (a & [= Hd Hi] & Ha).
    destruct (key_looked_up open_snapshot made (groups_of rows) g a)
      as (d & i & Hparse & Hmk & Hget);
      [by apply groups_of_available | done | done |].
    exists d, i. rewrite <- Hd, <- Hi. done.
Qed.

End JoinTheorems.

(** ** The flattener *)

Lemma for_each_app {A B : Type} (body : A -> M (list B)) (l1 l2 : list A)
    (w : World) :
  for_each body (l1 ++ l2) w
  = match for_each body l1 w with
    | (Ok ys1, w1) =>
        match for_each body l2 w1 with
        | (Ok ys2, w2) => (Ok (ys1 ++ ys2), w2)
        | (Raise e, w2) => (Raise e, w2)
        end
    | (Raise e, w1) => (Raise e, w1)
    end.
Proof.
  revert w; induction l1 as [|x l1 IH]; intros w; simpl.
  - unfold M_ret. by destruct (for_each body l2 w) as [[] ?].
  - unfold M_bind, M_ret. destruct (body x w) as [[ys|e] w0]; [| done].
    rewrite IH.
    destruct (for_each body l1 w0) as [[ys1|e] w1]; [| done].
    destruct (for_each body l2 w1) as [[ys2|e] w2]; [| done].
    by rewrite app_assoc.
Qed.

Section FlattenTheorems.

Variable json_loads : string -> result Json.
Variable random_source : nat -> string.
Variable SATELLITE_PATH_COMPONENT : string.
Variable _process_satellite : string -> Json -> string -> result (list BigqueryRow).
Variable _process_hyperquack : string -> Json -> string -> result (list BigqueryRow).

Let flatten : string * string -> M (list BigqueryRow) :=
  process json_loads random_source SATELLITE_PATH_COMPONENT
          _process_satellite _process_hyperquack.

(** The world after the warning about a line that does not parse. *)
Let warned (filename line msg : string) (w : World) : World :=
  mkWorld (log w ++ [mkLogRecord "WARNING"
                       "JSONDecodeError: %s\nFilename: %s\n%s\n"
                       [msg; filename; line]])
          (uuid_draws w) (provider_calls w).


(** Modelled from the spec: the two extractors are mixed in from modules
    that are not among the sources at hand. "Each extractor is a pure
    function (filepath, parsedRecord, measurement_id) -> sequence of Row";
    "all such rows share measurement_id". *)
Hypothesis satellite_rows_carry_id :
  forall filename scan id rows,
    _process_satellite filename scan id = Ok rows ->
    forall row, In row rows -> measurement_id row = id.
Hypothesis hyperquack_rows_carry_id :
  forall filename scan id rows,
    _process_hyperquack filename scan id = Ok rows ->
    forall row, In row rows -> measurement_id row = id.


End FlattenTheorems.

(** ** The Maxmind provider *)

Section MaxmindTheorems.

Variable maxmind_city : string -> result geoip2.City.
Variable maxmind_asn : string -> result geoip2.ASN.

Let lookup : string -> Logged IpMetadata :=
  MaxmindIpMetadata.lookup maxmind_city maxmind_asn.
Let _get_maxmind_asn :=
  MaxmindIpMetadata._get_maxmind_asn maxmind_asn.
Let _get_country_code :=
  MaxmindIpMetadata._get_country_code maxmind_city.

Lemma lookup_unfold (ip : string) (asn : option Z)
    (as_name netblock country : option string)
    (logged1 logged2 : list LogRecord) :
  _get_maxmind_asn ip = (Ok (asn, as_name, netblock), logged1) ->
  _get_country_code ip = (Ok country, logged2) ->
  fst (lookup ip)
  = if not_int asn
    then Raise (KeyError ("No Maxmind entry for " ++ ip)%string)
    else Ok (netblock, default 0 asn, as_name, None, None, country).
Proof.
  unfold lookup, MaxmindIpMetadata.lookup, _get_maxmind_asn, _get_country_code.
  intros -> ->. simpl. by destruct (not_int asn).
Qed.


End MaxmindTheorems.

(** ** The run *)

Lemma _raise_exception_if_zero_spec (num : Z) :
  (_raise_exception_if_zero num
   = Raise (Exception "Zero rows were created even though there were new files.")
   <-> num = 0)
  /\ (_raise_exception_if_zero num = Ok tt <-> num <> 0).
Proof.
  unfold _raise_exception_if_zero.
  destruct (Z.eqb_spec num 0) as [-> | Hne]; split; split; try done.
Qed.

Lemma _raise_error_if_collection_empty_spec (rows : list BigqueryRow) :
  (_raise_error_if_collection_empty rows
   = Raise (Exception "Zero rows were created even though there were new files.")
   <-> rows = [])
  /\ (_raise_error_if_collection_empty rows = Ok [tt] <-> rows <> []).
Proof.
  unfold _raise_error_if_collection_empty, Beam.Count_Globally.
  unfold _raise_exception_if_zero.
  destruct rows as [|row rows]; simpl; [by split; split |].
  split; split; try done.
Qed.

Lemma _add_metadata_nil
    (open_snapshot : datetime_date -> option (string -> Logged IpMetadata))
    (w : World) :
  _add_metadata open_snapshot [] w = (Ok [], w).
Proof. reflexivity. Qed.

Lemma _get_pipeline_options_known
    (project staging_location temp_location scan_type job_name : string) :
  In scan_type ALL_SCAN_TYPES ->
  exists options,
    _get_pipeline_options project staging_location temp_location
                          scan_type job_name = Ok options.
Proof.
  intros [<- | [<- | [<- | [<- | [<- | []]]]]]; eexists; reflexivity.
Qed.

Section RunTheorems.

Variable project bucket staging_location temp_location : string.
Variable gcs_match : string -> list FileMetadata.
Variable _get_existing_datasources : string -> string -> list string.
Variable source_from_filename : string -> string.
Variable SCAN_TYPE_SATELLITE : string.
Variable SATELLITE_FILES : list string.
Variable json_loads : string -> result Json.
Variable random_source : nat -> string.
Variable SATELLITE_PATH_COMPONENT : string.
Variable _process_satellite : string -> Json -> string -> result (list BigqueryRow).
Variable _process_hyperquack : string -> Json -> string -> result (list BigqueryRow).
Variable open_snapshot : datetime_date -> option (string -> Logged IpMetadata).
Variable read_lines : string -> list string.
Variable process_satellite_lines : list (string * string) -> M (list BigqueryRow).

Variable scan_type : string.
Variable incremental_load : bool.
Variable job_name destination : string.
Variable start_date end_date : option datetime_date.
Variable export_gcs : bool.

Let selection : result (list string) :=
  _data_to_load project bucket gcs_match _get_existing_datasources
    source_from_filename SCAN_TYPE_SATELLITE SATELLITE_FILES
    scan_type incremental_load destination start_date end_date.

(** The stage that turns the lines of the selected files into rows. *)
Let flatten_stage (new_filenames : list string) : M (list BigqueryRow) :=
  let lines := _read_scan_text read_lines new_filenames in
  if String.eqb scan_type SCAN_TYPE_SATELLITE
  then process_satellite_lines lines
  else for_each
         (process json_loads random_source SATELLITE_PATH_COMPONENT
                  _process_satellite _process_hyperquack)
         lines.

Let run : M Outcome :=
  run_beam_pipeline project bucket staging_location temp_location
    gcs_match _get_existing_datasources
    source_from_filename SCAN_TYPE_SATELLITE SATELLITE_FILES
    json_loads random_source SATELLITE_PATH_COMPONENT
    _process_satellite _process_hyperquack open_snapshot
    read_lines process_satellite_lines
    scan_type incremental_load job_name destination start_date end_date
    export_gcs.

Let written (rows : list BigqueryRow) : Outcome :=
  if export_gcs
  then WrittenToGcs destination rows
  else WrittenToBigquery (_get_full_table_name project destination)
                         incremental_load rows.

Lemma run_unfold (new_filenames : list string) (w : World) :
  In scan_type ALL_SCAN_TYPES ->
  export_gcs = Str.startswith "gs://" destination ->
  selection = Ok new_filenames -> new_filenames <> [] ->
  run w
  = M_bind (flatten_stage new_filenames)
      (fun rows =>
         M_bind (_add_metadata open_snapshot rows)
           (fun rows_with_metadata =>
              M_bind (lift (_raise_error_if_collection_empty
                              rows_with_metadata))
                (fun _ => M_ret (written rows_with_metadata)))) w.
Proof.
  intros Hknown Hdest Hsel Hne.
  destruct (_get_pipeline_options_known project staging_location temp_location
              scan_type job_name Hknown) as [options Hoptions].
  unfold run, run_beam_pipeline. rewrite <- Hdest, Hoptions.
  destruct export_gcs eqn:Hexp; simpl.
  - fold selection. rewrite Hsel. unfold M_bind at 1 2, lift at 1 2.
    destruct new_filenames as [|f fs]; [done |].
    unfold flatten_stage, written. rewrite ?Hexp. reflexivity.
  - fold selection. rewrite Hsel. unfold M_bind at 1 2, lift at 1 2.
    destruct new_filenames as [|f fs]; [done |].
    unfold flatten_stage, written. rewrite ?Hexp. reflexivity.
Qed.

(** C9. Empty-output abort: [_raise_exception_if_zero] raises exactly on a
    count of zero and lets every other count pass. In a run of a known scan
    type whose destination suits its export mode and whose selection is not
    empty, no row after processing makes the run raise that exception; and
    when there are rows and the join runs to its end, the run writes as
    many rows as were made. *)
Theorem run_aborts_on_zero_rows :
  (forall num,
     (_raise_exception_if_zero num
      = Raise (Exception
                 "Zero rows were created even though there were new files.")
      <-> num = 0)
     /\ (_raise_exception_if_zero num = Ok tt <-> num <> 0))
  /\ (forall new_filenames w w1,
        In scan_type ALL_SCAN_TYPES ->
        export_gcs = Str.startswith "gs://" destination ->
        selection = Ok new_filenames -> new_filenames <> [] ->
        flatten_stage new_filenames w = (Ok [], w1) ->
        run w
        = (Raise (Exception
                    "Zero rows were created even though there were new files."),
           w1))
  /\ (forall new_filenames rows w w1,
        In scan_type ALL_SCAN_TYPES ->
        export_gcs = Str.startswith "gs://" destination ->
        selection = Ok new_filenames -> new_filenames <> [] ->
        flatten_stage new_filenames w = (Ok rows, w1) -> rows <> [] ->
        providers_available open_snapshot rows ->
        exists rows_with_metadata w2,
          run w = (Ok (written rows_with_metadata), w2)
          /\ length rows_with_metadata = length rows).
Proof.
  split; [exact _raise_exception_if_zero_spec |]. split.
  - intros new_filenames w w1 Hknown Hdest Hsel Hne Hstage.
    rewrite (run_unfold _ _ Hknown Hdest Hsel Hne).
    rewrite (M_bind_Ok _ _ _ _ _ Hstage).
    rewrite (M_bind_Ok _ _ _ _ _ (_add_metadata_nil open_snapshot w1)).
    reflexivity.
  - intros new_filenames rows w w1 Hknown Hdest Hsel Hne Hstage Hrows Hav.
    rewrite (run_unfold _ _ Hknown Hdest Hsel Hne).
    rewrite (M_bind_Ok _ _ _ _ _ Hstage).
    destruct (_add_metadata_run open_snapshot rows w1)
      as (r & logged & Erun & Hr & _).
    destruct (Hr Hav) as (out & -> & Hperm).
    rewrite (M_bind_Ok _ _ _ _ _ Erun).
    assert (length out = length rows) as Hlen
      by (by rewrite Hperm, length_map).
    assert (out <> []) as Hout
      by (intros ->; destruct rows; [done | discriminate Hlen]).
    apply (_raise_error_if_collection_empty_spec out) in Hout.
    unfold M_bind, lift. rewrite Hout. unfold M_ret.
    by eexists out, _.
Qed.

End RunTheorems.

(** * The scenarios of the specification *)

Lemma embedded_date_intro (p stamp : string) (d : datetime_date) :
  head (findall_date p) = Some stamp -> fromisoformat stamp = Ok d ->
  embedded_date p d.
Proof. intros H E. exists stamp. split; [by apply findall_date_head | done]. Qed.

Lemma sample_listing_dated (m : FileMetadata) :
  In m (Sample.gcs_match (Sample.bucket ++ "echo" ++ "/**/*")%string) ->
  exists d, embedded_date (path m) d.
Proof.
  intros [<- | [<- | [<- | [<- | []]]]];
    eexists; eapply embedded_date_intro; reflexivity.
Qed.

Lemma sample_satellite_files_plain : Forall plain_filename Sample.SATELLITE_FILES.
Proof. repeat constructor. Qed.

Lemma sample_providers_available :
  providers_available Sample.open_snapshot Sample.rows.
Proof.
  intros row [<- | [<- | [<- | []]]]; eexists _, _; split; reflexivity.
Qed.

Lemma sample_blank_providers_available :
  providers_available Sample.open_blank_snapshot Sample.rows.
Proof.
  intros row [<- | [<- | [<- | []]]]; eexists _, _; split; reflexivity.
Qed.

Lemma sample_hyperquack_rows_carry_id (filename : string) (scan : Json)
    (id : string) (rows : list BigqueryRow) :
  Sample._process_hyperquack filename scan id = Ok rows ->
  forall row, In row rows -> measurement_id row = id.
Proof.
  unfold Sample._process_hyperquack.
  destruct (Sample.json_get "Keyword" scan) as [[]|]; try discriminate.
  destruct (Sample.json_get "Server" scan) as [[]|]; try discriminate.
  destruct (Sample.json_get "Results" scan) as [[]|]; try discriminate.
  intros [= <-] row (attempt & <- & _)%in_map_iff. reflexivity.
Qed.

Lemma sample_satellite_rows_carry_id (filename : string) (scan : Json)
    (id : string) (rows : list BigqueryRow) :
  Sample._process_satellite filename scan id = Ok rows ->
  forall row, In row rows -> measurement_id row = id.
Proof.
  unfold Sample._process_satellite.
  destruct (Sample.json_get "query" scan) as [[]|]; try discriminate.
  destruct (Sample.json_get "resolver" scan) as [[]|]; try discriminate.
  destruct (Sample.json_get "answers" scan) as [[]|]; try discriminate.
  intros [= <-] row (answer & <- & _)%in_map_iff. reflexivity.
Qed.


(** Scenario A and D: two rows of one key and a row whose lookup fails. The
    join makes one factory call and two lookups on the instance it got, and
    returns three rows; the first two carry the same record, the third
    nothing. *)
Example scenario_join :
  _add_metadata Sample.open_snapshot Sample.rows Sample.world
  = (Ok [with_ip_metadata (Sample.probe_row "a.com" "1.1.1.1")
           (mkIpMetadata (Some "101.103.0.0/16") (Some 1221)
                         (Some "ASN-TELSTRA") None None (Some "AU"));
         with_ip_metadata (Sample.probe_row "b.com" "1.1.1.1")
           (mkIpMetadata (Some "101.103.0.0/16") (Some 1221)
                         (Some "ASN-TELSTRA") None None (Some "AU"));
         with_ip_metadata (Sample.probe_row "c.com" "9.9.9.9") no_metadata],
     mkWorld [mkLogRecord "WARNING" "KeyError: %s\n"
                          ["No Maxmind entry for 9.9.9.9"]]
             0
             [MakeChooser (mkDate 2021 1 1) 0;
              GetMetadata 0 "1.1.1.1"; GetMetadata 0 "9.9.9.9"]).
Proof. vm_compute. reflexivity. Qed.

(** Scenario C and E: in an incremental run the scan already ingested and
    the empty compressed file are left out, whatever the window. *)
Example scenario_selection :
  _data_to_load Sample.project Sample.bucket Sample.gcs_match
    Sample._get_existing_datasources Sample.source_from_filename
    Sample.SCAN_TYPE_SATELLITE Sample.SATELLITE_FILES
    "echo" true "base.echo_scan" None None
  = Ok [Sample.scan_23]
  /\ _data_to_load Sample.project Sample.bucket Sample.gcs_match
       Sample._get_existing_datasources Sample.source_from_filename
       Sample.SCAN_TYPE_SATELLITE Sample.SATELLITE_FILES
       "echo" false "base.echo_scan" (Some (mkDate 2020 8 22)) None
     = Ok [Sample.scan_22; Sample.scan_23].
Proof. split; vm_compute; reflexivity. Qed.

(** Scenario B: a line cut short among the lines of a file. The rows of the
    other lines come out, each line under its own identifier. *)
Example scenario_flatten :
  for_each
    (process Sample.json_loads Sample.random_source
             Sample.SATELLITE_PATH_COMPONENT
             Sample._process_satellite Sample._process_hyperquack)
    (_read_scan_text Sample.read_lines [Sample.scan_23]) Sample.world
  = (Ok [mkRow "2020-08-23" "CP_Quack-echo-2020-08-23-06-01-02" "a.com"
               "1.1.1.1" "" (ProbeFields true None) no_metadata;
         mkRow "2020-08-23" "CP_Quack-echo-2020-08-23-06-01-02" "a.com"
               "1.1.1.1" "" (ProbeFields false None) no_metadata;
         mkRow "2020-08-23" "CP_Quack-echo-2020-08-23-06-01-02" "b.com"
               "1.1.1.1" "f" (ProbeFields true None) no_metadata],
     mkWorld [mkLogRecord "WARNING" "JSONDecodeError: %s\nFilename: %s\n%s\n"
                ["Expecting value"; Sample.scan_23; Sample.line_cut]]
             2 []).
Proof. vm_compute. reflexivity. Qed.

(** ** The theorems at the sample data *)

Lemma add_metadata_preserves_rows_witness :
  providers_available Sample.open_blank_snapshot Sample.rows
  /\ exists rows_with_metadata w',
       _add_metadata Sample.open_blank_snapshot Sample.rows Sample.world
       = (Ok rows_with_metadata, w')
       /\ length rows_with_metadata = length Sample.rows.
Proof.
  split; [exact sample_blank_providers_available |].
  destruct (add_metadata_preserves_rows Sample.open_blank_snapshot Sample.rows
              Sample.world)
    as [Hreturns Hrows].
  destruct (proj1 Hreturns sample_blank_providers_available) as (out & w' & E).
  exists out, w'. split; [exact E | exact (proj1 (Hrows out w' E))].
Defined.

Lemma add_metadata_lookups_distinct_keys_witness :
  providers_available Sample.open_snapshot Sample.rows
  /\ exists calls,
       provider_calls
         (snd (_add_metadata Sample.open_snapshot Sample.rows Sample.world))
       = provider_calls Sample.world ++ calls
       /\ is_ok (fst (_add_metadata Sample.open_snapshot Sample.rows
                        Sample.world)) = true
       /\ lookups calls = size (distinct_keys Sample.rows).
Proof.
  split; [exact sample_providers_available |].
  destruct (add_metadata_lookups_distinct_keys Sample.open_snapshot Sample.rows
              Sample.world)
    as (calls & E & _ & Hexact & Hreturns).
  exists calls. split; [exact E |].
  split; [exact (proj1 Hreturns sample_providers_available) |].
  exact (Hexact (proj1 Hreturns sample_providers_available)).
Defined.


Lemma provider_acquired_once_per_date_witness :
  providers_available Sample.open_snapshot Sample.rows
  /\ exists calls,
       provider_calls
         (snd (_add_metadata Sample.open_snapshot Sample.rows Sample.world))
       = provider_calls Sample.world ++ calls
       /\ (forall d, (acquisitions_for d calls <= 1)%nat)
       /\ acquisitions calls = size (distinct_dates Sample.rows).
Proof.
  split; [exact sample_providers_available |].
  destruct (provider_acquired_once_per_date Sample.open_snapshot Sample.rows
              Sample.world)
    as (calls & E & Honce & _ & _ & _ & Hav).
  exists calls. split; [exact E |]. split; [exact Honce |].
  exact (proj1 (Hav sample_providers_available)).
Defined.





(** A run over a file none of whose lines parses: files were selected, no
    row was made, the run raises. *)
Lemma run_aborts_on_zero_rows_witness :
  In "echo"%string ALL_SCAN_TYPES
  /\ false = Str.startswith "gs://" "base.echo_scan"
  /\ _data_to_load Sample.project Sample.bucket Sample.gcs_match
       Sample._get_existing_datasources Sample.source_from_filename
       Sample.SCAN_TYPE_SATELLITE Sample.SATELLITE_FILES
       "echo" true "base.echo_scan" None None
     = Ok [Sample.scan_23]
  /\ [Sample.scan_23] <> []
  /\ fst (for_each
            (process Sample.json_loads Sample.random_source
                     Sample.SATELLITE_PATH_COMPONENT
                     Sample._process_satellite Sample._process_hyperquack)
            (_read_scan_text read_cut_lines [Sample.scan_23]) Sample.world)
     = Ok []
  /\ fst (run_beam_pipeline Sample.project Sample.bucket
            Sample.staging_location Sample.temp_location Sample.gcs_match
            Sample._get_existing_datasources Sample.source_from_filename
            Sample.SCAN_TYPE_SATELLITE Sample.SATELLITE_FILES
            Sample.json_loads Sample.random_source
            Sample.SATELLITE_PATH_COMPONENT
            Sample._process_satellite Sample._process_hyperquack
            Sample.open_snapshot read_cut_lines Sample.process_satellite_lines
            "echo" true "append-base-echo-scan" "base.echo_scan" None None
            false Sample.world)
     = Raise (Exception
                "Zero rows were created even though there were new files.").
Proof.
  split; [right; right; left; reflexivity |].
  split; [reflexivity |]. split; [vm_compute; reflexivity |].
  split; [discriminate |]. split; [vm_compute; reflexivity |].
  rewrite (proj1 (proj2 (run_aborts_on_zero_rows Sample.project Sample.bucket
                           Sample.staging_location Sample.temp_location
                           Sample.gcs_match Sample._get_existing_datasources
                           Sample.source_from_filename
                           Sample.SCAN_TYPE_SATELLITE Sample.SATELLITE_FILES
                           Sample.json_loads Sample.random_source
                           Sample.SATELLITE_PATH_COMPONENT
                           Sample._process_satellite Sample._process_hyperquack
                           Sample.open_snapshot read_cut_lines
                           Sample.process_satellite_lines
                           "echo" true "append-base-echo-scan" "base.echo_scan"
                           None None false))
             [Sample.scan_23] Sample.world
             (snd (for_each
                     (process Sample.json_loads Sample.random_source
                              Sample.SATELLITE_PATH_COMPONENT
                              Sample._process_satellite
                              Sample._process_hyperquack)
                     (_read_scan_text read_cut_lines [Sample.scan_23])
                     Sample.world))).
  - reflexivity.
  - right; right; left; reflexivity.
  - reflexivity.
  - vm_compute. reflexivity.
  - discriminate.
  - vm_compute. reflexivity.
Defined.

Lemma sample_stray_undated : ~ has_date_stamp Sample.stray.
Proof. apply findall_date_nil. reflexivity. Qed.


(** ** Where a claim, read literally, fails *)



(** * Names, destinations and the file sink *)

#[local] Open Scope string_scope.

(** ** Searching and replacing in strings *)

Lemma has_char_app (c : ascii) (x y : string) :
  has_char c (x ++ y) = has_char c x || has_char c y.
Proof.
  induction x as [|a x IH]; simpl; [reflexivity |].
  by rewrite IH, orb_assoc.
Qed.

Lemma length_take (n : nat) (s : string) :
  String.length (Str.take n s) = Nat.min n (String.length s).
Proof.
  revert s; induction n as [|n IH]; intros [|c s]; try reflexivity.
  unfold Str.take; fold Str.take. simpl. by rewrite IH.
Qed.

Lemma startswith_inv (p s : string) :
  Str.startswith p s = true -> exists t, s = p ++ t.
Proof.
  revert s; induction p as [|a p IH]; intros s H; simpl in *.
  - by exists s.
  - destruct s as [|b s]; [discriminate |].
    apply andb_true_iff in H as [E H]. apply char_eqb_eq in E as ->.
    destruct (IH _ H) as [t ->]. by exists t.
Qed.

Lemma startswith_app_long (p u v : string) :
  (String.length p <= String.length u)%nat ->
  Str.startswith p (u ++ v) = Str.startswith p u.
Proof.
  revert u; induction p as [|a p IH]; intros [|b u] Hlen; simpl in *;
    try reflexivity; try lia.
  rewrite IH by lia. reflexivity.
Qed.

Lemma contains_cons (needle : string) (c : ascii) (s : string) :
  Str.contains needle (String c s)
  = Str.startswith needle (String c s) || Str.contains needle s.
Proof. reflexivity. Qed.

(** A string that lacks a character of [needle] does not contain it. *)
Lemma startswith_has_char (p s : string) (c : ascii) :
  Str.startswith p s = true -> has_char c p = true -> has_char c s = true.
Proof.
  intros H Hc. destruct (startswith_inv _ _ H) as [t ->].
  by rewrite has_char_app, Hc.
Qed.

Lemma contains_lacks_char (needle s : string) (c : ascii) :
  has_char c needle = true -> has_char c s = false ->
  Str.contains needle s = false.
Proof.
  intros Hc. induction s as [|a s IH]; intros Hs.
  - simpl. destruct (Str.startswith needle "") eqn:E; [| by rewrite orb_false_r].
    by rewrite (startswith_has_char _ _ _ E Hc) in Hs.
  - rewrite contains_cons.
    destruct (Str.startswith needle (String a s)) eqn:E.
    + by rewrite (startswith_has_char _ _ _ E Hc) in Hs.
    + simpl in Hs. apply orb_false_iff in Hs as [_ Hs]. by rewrite IH.
Qed.

Lemma endswith_contains (p s : string) :
  Str.endswith p s = true -> Str.contains p s = true.
Proof.
  intros H. rewrite (endswith_inv _ _ H).
  pose proof (contains_app p
                (Str.take (String.length s - String.length p) s) "") as C.
  by rewrite append_nil_r in C.
Qed.

Lemma first_at_cons (old : string) (c : ascii) (pre v : string) :
  first_at old (String c pre) ->
  Str.startswith old (String c pre ++ old ++ v) = false
  /\ first_at old pre.
Proof.
  unfold first_at. intros H.
  change (String c pre ++ Str.take (String.length old - 1) old)
    with (String c (pre ++ Str.take (String.length old - 1) old)) in H.
  rewrite contains_cons in H. apply orb_false_iff in H as [H1 H2].
  split; [| done].
  rewrite <- (take_drop (String.length old - 1) old) at 2.
  rewrite append_assoc, <- (append_assoc (String c pre)).
  rewrite startswith_app_long; [done |].
  simpl. rewrite length_append, length_take. lia.
Qed.

Lemma first_at_lacks_char (old pre : string) (c : ascii) :
  has_char c old = true ->
  has_char c (Str.take (String.length old - 1) old) = false ->
  has_char c pre = false ->
  first_at old pre.
Proof.
  intros Hc Hinit Hpre. apply (contains_lacks_char _ _ c Hc).
  by rewrite has_char_app, Hpre, Hinit.
Qed.

Lemma replace_from_skip (old new u v : string) :
  PyStr.replace_from (String.length u) old new (u ++ v)
  = PyStr.replace_from 0 old new v.
Proof.
  induction u as [|c u IH]; simpl; [| exact IH].
  destruct v; reflexivity.
Qed.

Lemma replace_from_at (old new v : string) :
  old <> "" ->
  PyStr.replace_from 0 old new (old ++ v)
  = new ++ PyStr.replace_from 0 old new v.
Proof.
  destruct old as [|a old]; [done |]. intros _.
  change (String a old ++ v) with (String a (old ++ v)).
  unfold PyStr.replace_from at 1; fold PyStr.replace_from.
  change (String a (old ++ v)) with (String a old ++ v).
  rewrite startswith_app.
  replace (String.length (String a old) - 1)%nat with (String.length old)
    by (simpl; lia).
  by rewrite replace_from_skip.
Qed.

Lemma replace_from_before (old new pre v : string) :
  first_at old pre ->
  PyStr.replace_from 0 old new (pre ++ old ++ v)
  = pre ++ PyStr.replace_from 0 old new (old ++ v).
Proof.
  induction pre as [|c pre IH]; intros H; [reflexivity |].
  destruct (first_at_cons _ _ _ v H) as [Hs Hpre].
  change (String c pre ++ old ++ v) with (String c (pre ++ old ++ v)) in *.
  unfold PyStr.replace_from at 1; fold PyStr.replace_from.
  rewrite Hs, (IH Hpre). reflexivity.
Qed.

Lemma replace_from_absent (old new s : string) :
  Str.contains old s = false -> PyStr.replace_from 0 old new s = s.
Proof.
  induction s as [|c s IH]; intros H; [reflexivity |].
  rewrite contains_cons in H. apply orb_false_iff in H as [H1 H2].
  unfold PyStr.replace_from; fold PyStr.replace_from.
  by rewrite H1, (IH H2).
Qed.

(** Replacing one occurrence: what [s.replace(old, new)] gives when [old]
    occurs once. *)
Lemma replace_once (old new pre post : string) :
  old <> "" -> first_at old pre -> Str.contains old post = false ->
  PyStr.replace old new (pre ++ old ++ post) = pre ++ new ++ post.
Proof.
  intros Hold Hpre Hpost. unfold PyStr.replace.
  destruct old as [|a old'] eqn:E; [done |]. rewrite <- E in *.
  rewrite (replace_from_before _ _ _ _ Hpre), (replace_from_at _ _ _ Hold).
  by rewrite (replace_from_absent _ _ _ Hpost).
Qed.

Lemma replace_absent (old new s : string) :
  old <> "" -> Str.contains old s = false -> PyStr.replace old new s = s.
Proof.
  intros Hold H. unfold PyStr.replace.
  destruct old as [|a old'] eqn:E; [done |]. rewrite <- E in *.
  by apply replace_from_absent.
Qed.

(** *** Replacing a character by a character *)

Lemma replace_char_cons (a b c : ascii) (s : string) :
  PyStr.replace (String a "") (String b "") (String c s)
  = String (if Str.char_eqb a c then b else c)
           (PyStr.replace (String a "") (String b "") s).
Proof.
  unfold PyStr.replace. simpl. rewrite andb_true_r.
  by destruct (Str.char_eqb a c).
Qed.

Lemma replace_char_app (a b : ascii) (x y : string) :
  PyStr.replace (String a "") (String b "") (x ++ y)
  = PyStr.replace (String a "") (String b "") x
    ++ PyStr.replace (String a "") (String b "") y.
Proof.
  induction x as [|c x IH]; [reflexivity |].
  change (String c x ++ y) with (String c (x ++ y)).
  rewrite !replace_char_cons, IH. reflexivity.
Qed.

Lemma replace_char_length (a b : ascii) (s : string) :
  String.length (PyStr.replace (String a "") (String b "") s)
  = String.length s.
Proof.
  induction s as [|c s IH]; [reflexivity |].
  rewrite replace_char_cons. cbn [String.length]. by rewrite IH.
Qed.

Lemma char_eqb_refl (a : ascii) : Str.char_eqb a a = true.
Proof. by apply char_eqb_eq. Qed.

Lemma char_eqb_neq (a b : ascii) : a <> b -> Str.char_eqb a b = false.
Proof.
  intros H. destruct (Str.char_eqb a b) eqn:E; [| done].
  by apply char_eqb_eq in E.
Qed.

Lemma char_eqb_sym (a b : ascii) : Str.char_eqb a b = Str.char_eqb b a.
Proof. apply Ascii.eqb_sym. Qed.

(** After the replacement the old character is gone. *)
Lemma replace_char_removes (a b : ascii) (s : string) :
  a <> b -> has_char a (PyStr.replace (String a "") (String b "") s) = false.
Proof.
  intros Hab. induction s as [|c s IH]; [reflexivity |].
  rewrite replace_char_cons. cbn [has_char]. rewrite IH, orb_false_r.
  destruct (Str.char_eqb a c) eqn:E.
  - rewrite char_eqb_sym. by apply char_eqb_neq.
  - by rewrite char_eqb_sym.
Qed.

(** It brings in no character but the new one. *)
Lemma replace_char_keeps_absent (a b c : ascii) (s : string) :
  c <> b -> has_char c s = false ->
  has_char c (PyStr.replace (String a "") (String b "") s) = false.
Proof.
  intros Hcb. induction s as [|x s IH]; [reflexivity |].
  cbn [has_char]. intros H. apply orb_false_iff in H as [H1 H2].
  rewrite replace_char_cons. cbn [has_char]. rewrite (IH H2), orb_false_r.
  destruct (Str.char_eqb a x); [| done].
  rewrite char_eqb_sym. by apply char_eqb_neq.
Qed.

Lemma replace_char_absent (a b : ascii) (s : string) :
  has_char a s = false -> PyStr.replace (String a "") (String b "") s = s.
Proof.
  induction s as [|x s IH]; [reflexivity |].
  cbn [has_char]. intros H. apply orb_false_iff in H as [H1 H2].
  rewrite replace_char_cons, (IH H2). by rewrite char_eqb_sym, H1.
Qed.

Lemma append_inv_r (a a' b : string) : a ++ b = a' ++ b -> a = a'.
Proof.
  intros H. apply (append_inv_length a b a' b H).
  apply (f_equal String.length) in H. rewrite !length_append in H. lia.
Qed.

Lemma append_inv_l (a b b' : string) : a ++ b = a ++ b' -> b = b'.
Proof. intros H. by apply (append_inv_length a b a b'). Qed.

(** ** Job names *)

(** The three replacements of [get_job_name]. *)
Lemma job_name_unfold (table_name : string) (incremental_load : bool) :
  get_job_name table_name incremental_load
  = (if incremental_load then "append-" else "write-")
    ++ PyStr.replace "/" "-"
         (PyStr.replace "." "-" (PyStr.replace "_" "-" table_name)).
Proof. unfold get_job_name. by destruct incremental_load. Qed.

Lemma job_name_clean (s : string) :
  has_char "_" s = false -> has_char "." s = false ->
  has_char "/" s = false ->
  PyStr.replace "/" "-" (PyStr.replace "." "-" (PyStr.replace "_" "-" s)) = s.
Proof.
  intros H1 H2 H3. by rewrite (replace_char_absent "_" "-" s H1),
    (replace_char_absent "." "-" s H2), (replace_char_absent "/" "-" s H3).
Qed.

(** X1. Job names: whatever the table name, the job name holds no
    underscore, no period and no slash; it is the table name, character for
    character as long, behind the prefix of the load mode, so that the
    incremental and the full load of one table have different job names. *)
Theorem get_job_name_valid (table_name : string) (incremental_load : bool) :
  has_char "_" (get_job_name table_name incremental_load) = false
  /\ has_char "." (get_job_name table_name incremental_load) = false
  /\ has_char "/" (get_job_name table_name incremental_load) = false
  /\ String.length (get_job_name table_name incremental_load)
     = (String.length (if incremental_load then "append-" else "write-")
        + String.length table_name)%nat
  /\ get_job_name table_name true <> get_job_name table_name false.
Proof.
  rewrite !job_name_unfold.
  set (prefix := if incremental_load then "append-" else "write-").
  assert (forall c : ascii, In c ["_"; "."; "/"]%char ->
            has_char c prefix = false) as Hprefix.
  { intros c Hc. unfold prefix.
    destruct incremental_load;
      repeat (destruct Hc as [<- | Hc]; [reflexivity |]); destruct Hc. }
  repeat split.
  - rewrite has_char_app, Hprefix by (simpl; tauto). simpl.
    apply replace_char_keeps_absent; [done |].
    apply replace_char_keeps_absent; [done |].
    by apply replace_char_removes.
  - rewrite has_char_app, Hprefix by (simpl; tauto). simpl.
    apply replace_char_keeps_absent; [done |].
    by apply replace_char_removes.
  - rewrite has_char_app, Hprefix by (simpl; tauto). simpl.
    by apply replace_char_removes.
  - by rewrite length_append, !replace_char_length.
  - discriminate.
Qed.

(** X2. Job names of tables: for one dataset and one base table name, the
    tables of two different scan types, or two different load modes, have
    different job names, so their pipelines can run at the same time. The
    scan types are taken without underscore, period and slash, as the ones
    the pipeline knows are. *)
Theorem job_names_differ (dataset_name base_table_name : string)
    (scan_type1 scan_type2 : string) (incremental1 incremental2 : bool) :
  (forall c : ascii, In c ["_"; "."; "/"]%char ->
     has_char c scan_type1 = false /\ has_char c scan_type2 = false) ->
  scan_type1 <> scan_type2 \/ incremental1 <> incremental2 ->
  get_job_name (get_table_name dataset_name scan_type1 base_table_name)
               incremental1
  <> get_job_name (get_table_name dataset_name scan_type2 base_table_name)
                  incremental2.
Proof.
  intros Hclean Hdiff E. rewrite !job_name_unfold in E.
  unfold get_table_name in E.
  rewrite !replace_char_app in E.
  rewrite (job_name_clean scan_type1), (job_name_clean scan_type2) in E
    by (apply Hclean; simpl; tauto).
  assert (incremental1 = incremental2) as ->.
  { destruct incremental1, incremental2; try done; discriminate E. }
  apply append_inv_l, append_inv_l, append_inv_l in E.
  rewrite <- !append_assoc in E. apply append_inv_r in E.
  change (PyStr.replace "/" "-" (PyStr.replace "." "-" (PyStr.replace "_" "-" "_")))
    with "-" in E.
  apply append_inv_r in E.
  destruct Hdiff as [H | H]; by apply H.
Qed.

(** The scan types of [SCAN_TYPES_TO_ZONES] are such. *)
Lemma ALL_SCAN_TYPES_clean (scan_type : string) (c : ascii) :
  In scan_type ALL_SCAN_TYPES -> In c ["_"; "."; "/"]%char ->
  has_char c scan_type = false.
Proof.
  intros Hs Hc.
  repeat (destruct Hs as [<- | Hs];
          [repeat (destruct Hc as [<- | Hc]; [reflexivity |]); destruct Hc |]).
  destruct Hs.
Qed.

Lemma job_names_differ_witness :
  (forall c : ascii, In c ["_"; "."; "/"]%char ->
     has_char c "echo" = false /\ has_char c "http" = false)
  /\ get_job_name (get_table_name PROD_DATASET_NAME "echo" BASE_TABLE_NAME)
                  false
     <> get_job_name (get_table_name PROD_DATASET_NAME "http" BASE_TABLE_NAME)
                     false.
Proof.
  assert (forall c : ascii, In c ["_"; "."; "/"]%char ->
            has_char c "echo" = false /\ has_char c "http" = false) as Hclean.
  { intros c Hc. split; apply ALL_SCAN_TYPES_clean; try done;
      vm_compute; tauto. }
  split; [exact Hclean |].
  apply (job_names_differ PROD_DATASET_NAME BASE_TABLE_NAME "echo" "http"
           false false Hclean).
  left. discriminate.
Defined.

(** ** The sources already at a destination *)

Lemma split_once_no_char (c : ascii) (s : string) :
  has_char c s = false -> PyStr.split_once c s = [s].
Proof.
  induction s as [|a s IH]; cbn [has_char]; intros H; [reflexivity |].
  apply orb_false_iff in H as [H1 H2].
  cbn [PyStr.split_once]. by rewrite H1, (IH H2).
Qed.

Lemma split_once_app (c : ascii) (x y : string) :
  has_char c x = false -> PyStr.split_once c (x ++ String c y) = [x; y].
Proof.
  induction x as [|a x IH]; cbn [has_char]; intros H.
  - cbn [String.append PyStr.split_once]. by rewrite char_eqb_refl.
  - apply orb_false_iff in H as [H1 H2].
    change (String a x ++ String c y) with (String a (x ++ String c y)).
    cbn [PyStr.split_once]. by rewrite H1, (IH H2).
Qed.

Lemma take_until_app (c : ascii) (x y : string) :
  has_char c x = false -> PyStr.take_until c (x ++ String c y) = x.
Proof.
  induction x as [|a x IH]; cbn [has_char]; intros H.
  - cbn [String.append PyStr.take_until]. by rewrite char_eqb_refl.
  - apply orb_false_iff in H as [H1 H2].
    change (String a x ++ String c y) with (String a (x ++ String c y)).
    cbn [PyStr.take_until]. by rewrite H1, (IH H2).
Qed.

Lemma drop_gs (s : string) : Str.drop 5 ("gs://" ++ s) = s.
Proof. exact (drop_append "gs://" s). Qed.

Lemma findall_source_before (pre v : string) :
  first_at "source=" pre ->
  findall_source_from 0 (pre ++ "source=" ++ v)
  = findall_source_from 0 ("source=" ++ v).
Proof.
  induction pre as [|c pre IH]; intros H; [reflexivity |].
  destruct (first_at_cons _ _ _ v H) as [Hs Hpre].
  change (String c pre ++ "source=" ++ v)
    with (String c (pre ++ "source=" ++ v)) in *.
  unfold findall_source_from at 1; fold findall_source_from.
  rewrite Hs. exact (IH Hpre).
Qed.

Lemma findall_source_at (v : string) :
  head (findall_source_from 0 ("source=" ++ v))
  = Some ("source=" ++ PyStr.take_until "/" v).
Proof.
  change ("source=" ++ v) with (String "s" ("ource=" ++ v)).
  unfold findall_source_from; fold findall_source_from.
  change (String "s" ("ource=" ++ v)) with ("source=" ++ v).
  rewrite startswith_app.
  change 7%nat with (String.length "source="). by rewrite drop_append.
Qed.

(** The source a blob name carries: the text between the first [source=]
    and the slash after it. *)
Lemma source_of_blob_name (pre source rest : string) :
  first_at "source=" pre -> has_char "/" source = false ->
  sources_of_matches
    [findall_source (pre ++ "source=" ++ source ++ String "/" rest)]
  = [source].
Proof.
  intros Hpre Hsource. unfold findall_source.
  rewrite (findall_source_before _ _ Hpre).
  pose proof (findall_source_at (source ++ String "/" rest)) as Hhead.
  rewrite (take_until_app _ _ _ Hsource) in Hhead.
  destruct (findall_source_from 0 ("source=" ++ source ++ String "/" rest))
    as [|m ms]; [discriminate |].
  injection Hhead as ->. unfold sources_of_matches.
  reflexivity.
Qed.

Lemma startswith_lacks_char (p s : string) (c : ascii) :
  has_char c p = true -> has_char c s = false -> Str.startswith p s = false.
Proof.
  intros Hp Hs. destruct (Str.startswith p s) eqn:E; [| done].
  by rewrite (startswith_has_char _ _ _ E Hp) in Hs.
Qed.

(** A full table name is no GCS folder. *)
Lemma full_table_name_not_gcs (project table_name : string) :
  has_char ":" project = false -> has_char "/" table_name = false ->
  Str.startswith "gs://" (_get_full_table_name project table_name) = false.
Proof.
  intros Hp Ht. unfold _get_full_table_name.
  destruct (Str.startswith "gs://" (project ++ ":" ++ table_name)) eqn:E;
    [| done].
  destruct (startswith_inv _ _ E) as [t Et].
  destruct project as [|c0 [|c1 [|c2 project]]];
    cbn [String.append] in Et; try discriminate Et.
  - injection Et as _ _ Et. rewrite Et in Ht. discriminate Ht.
  - injection Et as _ _ -> _. cbn [has_char] in Hp.
    rewrite char_eqb_refl, !orb_true_r in Hp. discriminate Hp.
Qed.

Section ExistingDatasourcesTheorems.

Variable list_blobs : string -> string -> option string -> list string.
Variable query_sources : string -> string -> list string.

(** X3. Sources at a GCS destination: for the folder [get_gcs_folder]
    names, the blobs listed are those of the bucket under the dataset's
    prefix, and for a bare bucket those of the bucket without a prefix; the
    sources are read off the names of these blobs. The bucket name holds no
    slash. *)
Theorem existing_datasources_of_gcs_folder
    (dataset_name bucket_name project : string) :
  has_char "/" bucket_name = false ->
  _get_existing_datasources list_blobs query_sources
    (get_gcs_folder dataset_name bucket_name) project
  = sources_of_matches
      (List.map findall_source
                (list_blobs project bucket_name (Some dataset_name)))
  /\ _get_existing_datasources list_blobs query_sources
       ("gs://" ++ bucket_name) project
     = sources_of_matches
         (List.map findall_source (list_blobs project bucket_name None)).
Proof.
  intros Hbucket. unfold _get_existing_datasources, get_gcs_folder.
  rewrite !startswith_app, !drop_gs. split.
  - change ("/" ++ dataset_name) with (String "/" dataset_name).
    by rewrite (split_once_app _ _ _ Hbucket).
  - by rewrite (split_once_no_char _ _ Hbucket).
Qed.

(** X5. Sources at a BigQuery destination: in an incremental load to a
    table, the sources already ingested are the [source] column of one
    query, which names the table as [project.dataset.table]: the colon of
    the full table name is replaced by a period. The project holds no colon
    and the table name no colon and no slash. *)
Theorem existing_sources_of_table (project table_name : string) :
  has_char ":" project = false ->
  has_char ":" table_name = false ->
  has_char "/" table_name = false ->
  existing_sources_of project
    (_get_existing_datasources list_blobs query_sources) true table_name
  = query_sources project
      ("SELECT DISTINCT(source) AS source FROM `"
       ++ project ++ "." ++ table_name ++ "`").
Proof.
  intros Hp Ht Hslash. unfold existing_sources_of.
  rewrite (startswith_lacks_char "gs://" table_name "/" eq_refl Hslash).
  cbn [negb]. unfold _get_existing_datasources.
  rewrite (full_table_name_not_gcs _ _ Hp Hslash).
  unfold _get_full_table_name.
  rewrite !replace_char_app, (replace_char_absent _ _ _ Hp),
    (replace_char_absent _ _ _ Ht).
  change (PyStr.replace ":" "." ":") with ".".
  by rewrite !append_assoc.
Qed.

End ExistingDatasourcesTheorems.

Lemma existing_datasources_of_gcs_folder_witness :
  has_char "/" "firehook-test" = false
  /\ _get_existing_datasources GcsSample.list_blobs GcsSample.query_sources
       (get_gcs_folder "avirkud" "firehook-test") Sample.project
     = ["CP_Quack-echo-2020-08-23-06-01-02"].
Proof.
  split; [reflexivity |].
  rewrite (proj1 (existing_datasources_of_gcs_folder
                    GcsSample.list_blobs GcsSample.query_sources
                    "avirkud" "firehook-test" Sample.project eq_refl)).
  reflexivity.
Defined.

Lemma existing_sources_of_table_witness :
  has_char ":" Sample.project = false
  /\ has_char ":" "base.echo_scan" = false
  /\ has_char "/" "base.echo_scan" = false
  /\ existing_sources_of Sample.project
       (_get_existing_datasources GcsSample.list_blobs
                                  GcsSample.query_sources)
       true "base.echo_scan"
     = ["SELECT DISTINCT(source) AS source FROM `firehook-censoredplanet.base.echo_scan`"].
Proof.
  repeat (split; [reflexivity |]).
  exact (existing_sources_of_table
           GcsSample.list_blobs GcsSample.query_sources
           Sample.project "base.echo_scan" eq_refl eq_refl eq_refl).
Defined.

(** ** Writing to a GCS folder *)

Section WriteToGcsTheorems.

Variable json_loads : string -> result Json.
Variable str_of_json : Json -> string.
Variable Window Pane : Type.
Variable destination_prefix_naming :
  option string -> FileNamingArgs Window Pane -> string.

(** X4. Filing and finding a source: the folder [get_destination] files a
    record under names the record's source, and [_get_existing_datasources]
    reads that source back off the name of any blob written under it,
    whatever the country and the rest of the name. The record is a dict
    with a [source] that is a string ([str] of a string is that string) and
    a [country]; the source holds no slash, and neither the destination
    folder nor the scan type holds an equals sign. *)
Theorem written_source_is_found (scan_type record source : string)
    (items : list (string * Json)) :
  json_loads record = Ok (JObject items) ->
  items_getitem items "source" = Ok (JString source) ->
  is_ok (items_getitem items "country") = true ->
  str_of_json (JString source) = source ->
  has_char "/" source = false ->
  has_char "=" scan_type = false ->
  exists destination,
    get_destination json_loads str_of_json scan_type record = Ok destination
    /\ forall folder rest,
         has_char "=" folder = false ->
         sources_of_matches
           [findall_source (folder ++ "/" ++ destination ++ rest)]
         = [source].
Proof.
  intros Hloads Hsource Hcountry Hstr Hslash Hscan.
  destruct (items_getitem items "country") as [country |] eqn:Ec;
    [| discriminate].
  eexists. split.
  - unfold get_destination. rewrite Hloads. cbn [result_bind json_getitem].
    rewrite Hsource, Ec. cbn [result_bind]. rewrite Hstr. reflexivity.
  - intros folder rest Hfolder.
    rewrite !append_assoc.
    rewrite <- (append_assoc folder "/"), <- (append_assoc (folder ++ "/")).
    change "/source=" with ("/" ++ "source=").
    rewrite (append_assoc "/" "source="),
      <- (append_assoc (_ ++ scan_type) "/").
    change ("/country=" ++ str_of_json country ++ "/results" ++ rest)
      with (String "/" ("country=" ++ str_of_json country ++ "/results"
                        ++ rest)).
    apply source_of_blob_name; [| done].
    apply (first_at_lacks_char _ _ "="); [reflexivity | reflexivity |].
    by rewrite !has_char_app, Hfolder, Hscan.
Qed.

(** X7. Naming the files: when Beam's name holds the single-shard
    component once, the file is named without it, and the name is logged;
    a name without the component, as that of one shard among several, is
    kept as it is. *)
Theorem custom_file_naming_single_shard (suffix : option string)
    (args : FileNamingArgs Window Pane) (w : World) :
  let logged filename :=
    mkWorld (log w ++ [mkLogRecord "INFO" "%s %s %s %s"
                         [str_of_optional_str (naming_destination args);
                          str_of_optional_int (naming_shard_index args);
                          str_of_optional_int (naming_total_shards args);
                          filename]])%list
            (uuid_draws w) (provider_calls w) in
  (forall pre post,
     destination_prefix_naming suffix args
     = pre ++ "-00000-of-00001" ++ post ->
     first_at "-00000-of-00001" pre ->
     Str.contains "-00000-of-00001" post = false ->
     custom_file_naming Window Pane destination_prefix_naming suffix args w
     = (Ok (pre ++ post), logged (pre ++ post)))
  /\ (Str.contains "-00000-of-00001" (destination_prefix_naming suffix args)
      = false ->
      custom_file_naming Window Pane destination_prefix_naming suffix args w
      = (Ok (destination_prefix_naming suffix args),
         logged (destination_prefix_naming suffix args))).
Proof.
  intros logged. split.
  - intros pre post Hname Hpre Hpost. unfold custom_file_naming.
    rewrite Hname, (replace_once "-00000-of-00001" "" _ _ ltac:(done) Hpre Hpost).
    reflexivity.
  - intros Habsent. unfold custom_file_naming.
    rewrite (replace_absent "-00000-of-00001" "" _ ltac:(done) Habsent).
    reflexivity.
Qed.

End WriteToGcsTheorems.

Lemma written_source_is_found_witness :
  GcsSample.json_loads GcsSample.record = Ok (JObject GcsSample.items)
  /\ items_getitem GcsSample.items "source"
     = Ok (JString "CP_Quack-echo-2020-08-23-06-01-02")
  /\ is_ok (items_getitem GcsSample.items "country") = true
  /\ exists destination,
       get_destination GcsSample.json_loads GcsSample.str_of_json "echo"
                       GcsSample.record
       = Ok destination
       /\ sources_of_matches
            [findall_source ("avirkud" ++ "/" ++ destination ++ ".json.gz")]
          = ["CP_Quack-echo-2020-08-23-06-01-02"].
Proof.
  repeat (split; [reflexivity |]).
  destruct (written_source_is_found
              GcsSample.json_loads GcsSample.str_of_json "echo"
              GcsSample.record "CP_Quack-echo-2020-08-23-06-01-02"
              GcsSample.items eq_refl eq_refl eq_refl eq_refl eq_refl eq_refl)
    as (destination & E & H).
  exists destination. split; [exact E |].
  exact (H "avirkud" ".json.gz" eq_refl).
Defined.

Lemma custom_file_naming_single_shard_witness :
  GcsSample.destination_prefix_naming (Some ".json.gz") GcsSample.naming_args
  = GcsSample.destination ++ "-00000-of-00001" ++ ".json.gz"
  /\ first_at "-00000-of-00001" GcsSample.destination
  /\ Str.contains "-00000-of-00001" ".json.gz" = false
  /\ fst (custom_file_naming unit unit GcsSample.destination_prefix_naming
            (Some ".json.gz") GcsSample.naming_args Sample.world)
     = Ok (GcsSample.destination ++ ".json.gz").
Proof.
  repeat (split; [reflexivity |]).
  rewrite (proj1 (custom_file_naming_single_shard unit unit
                    GcsSample.destination_prefix_naming (Some ".json.gz")
                    GcsSample.naming_args Sample.world)
             GcsSample.destination ".json.gz" eq_refl eq_refl eq_refl).
  reflexivity.
Defined.

(** ** The file sink *)

(** The bytes of the records, each with its line feed. *)
Lemma written_records (records : list string) (sink : JsonGzSink.t) :
  JsonGzSink.file_handle (List.fold_left JsonGzSink.write records sink)
  = JsonGzSink.file_handle sink
    ++ String.concat ""
         (List.map (fun record => record ++ String PyStr.newline "") records).
Proof.
  revert sink; induction records as [|record records IH]; intros sink.
  - cbn [List.fold_left List.map String.concat]. by rewrite append_nil_r.
  - cbn [List.fold_left]. rewrite IH.
    unfold JsonGzSink.write, JsonGzSink.coder_encode.
    cbn [JsonGzSink.file_handle].
    rewrite append_assoc. f_equal.
    cbn [List.map]. destruct records as [|record' records]; [| reflexivity].
    cbn [List.map String.concat]. by rewrite append_nil_r.
Qed.

Lemma split_lines (records : list string) :
  Forall (fun record => has_char PyStr.newline record = false) records ->
  Str.split PyStr.newline
    (String.concat ""
       (List.map (fun record => record ++ String PyStr.newline "") records))
  = (records ++ [""])%list.
Proof.
  induction 1 as [|record records Hrecord _ IH]; [reflexivity |].
  assert (String.concat ""
            (List.map (fun record => record ++ String PyStr.newline "")
                      (record :: records))
          = record ++ String PyStr.newline
              (String.concat ""
                 (List.map (fun record => record ++ String PyStr.newline "")
                           records))) as ->.
  { cbn [List.map]. destruct records as [|record' records].
    - cbn [List.map String.concat]. reflexivity.
    - cbn [List.map String.concat]. cbn [String.append].
      by rewrite append_assoc. }
  rewrite split_app, IH, (split_no_char _ _ Hrecord). reflexivity.
Qed.

(** X6. One record per line: a sink opened on an empty file and written
    to record by record, then flushed, holds the records in the order they
    were written, each closed by a line feed, so that splitting the file at
    the line feeds gives the records back, and an empty rest. The records
    hold no line feed of their own. *)
Theorem sink_lines_round_trip (records : list string) :
  Forall (fun record => has_char PyStr.newline record = false) records ->
  Str.split PyStr.newline
    (JsonGzSink.file_handle
       (JsonGzSink.flush
          (List.fold_left JsonGzSink.write records (JsonGzSink.open ""))))
  = (records ++ [""])%list.
Proof.
  intros Hrecords. unfold JsonGzSink.flush. rewrite written_records.
  by apply split_lines.
Qed.

Lemma sink_lines_round_trip_witness :
  Forall (fun record => has_char PyStr.newline record = false)
         [GcsSample.record; GcsSample.record]
  /\ Str.split PyStr.newline
       (JsonGzSink.file_handle
          (JsonGzSink.flush
             (List.fold_left JsonGzSink.write
                [GcsSample.record; GcsSample.record] (JsonGzSink.open ""))))
     = [GcsSample.record; GcsSample.record; ""].
Proof.
  assert (Forall (fun record => has_char PyStr.newline record = false)
                 [GcsSample.record; GcsSample.record]) as H
    by (repeat constructor).
  split; [exact H |]. exact (sink_lines_round_trip _ H).
Defined.

(** * More on the source selector *)

#[local] Open Scope list_scope.

Lemma sublist_map {A B : Type} (f : A -> B) (l1 l2 : list A) :
  sublist l1 l2 -> sublist (List.map f l1) (List.map f l2).
Proof.
  induction 1; cbn [List.map]; by constructor.
Qed.

(** A comprehension keeps some of the elements, in their order. *)
Lemma filter_raising_sublist {A : Type} (cond : A -> result bool)
    (l l1 : list A) :
  filter_raising cond l = Ok l1 -> sublist l1 l.
Proof.
  revert l1; induction l as [|x l IH]; intros l1 H; cbn [filter_raising] in H.
  - injection H as <-. constructor.
  - destruct (cond x) as [b |]; [| discriminate].
    cbn [result_bind] in H.
    destruct (filter_raising cond l) as [rest |]; [| discriminate].
    cbn [result_bind] in H. injection H as <-.
    destruct b; constructor; by apply IH.
Qed.

(** A weaker condition that raises no more often keeps no less. *)
Lemma filter_raising_mono {A : Type} (cond1 cond2 : A -> result bool)
    (l l1 : list A) :
  (forall x b, In x l -> cond1 x = Ok b ->
     exists b', cond2 x = Ok b' /\ (b = true -> b' = true)) ->
  filter_raising cond1 l = Ok l1 ->
  exists l2, filter_raising cond2 l = Ok l2 /\ sublist l1 l2.
Proof.
  revert l1; induction l as [|x l IH]; intros l1 Hcond H;
    cbn [filter_raising] in *.
  - injection H as <-. exists []. split; [done | constructor].
  - destruct (cond1 x) as [b |] eqn:E1; [| discriminate].
    cbn [result_bind] in H.
    destruct (filter_raising cond1 l) as [rest |]; [| discriminate].
    cbn [result_bind] in H. injection H as <-.
    destruct (Hcond x b (or_introl eq_refl) E1) as (b' & -> & Hb).
    destruct (IH rest (fun y c Hy => Hcond y c (or_intror Hy)) eq_refl)
      as (rest' & -> & Hsub).
    cbn [result_bind]. eexists. split; [reflexivity |].
    destruct b.
    + rewrite (Hb eq_refl). by constructor.
    + destruct b'; [by constructor | done].
Qed.

Lemma date_leb_refl (d : datetime_date) : date_leb d d = true.
Proof. apply date_leb_le. unfold date_le. lia. Qed.

Lemma date_le_trans (a b c : datetime_date) :
  date_le a b -> date_le b c -> date_le a c.
Proof. unfold date_le. lia. Qed.

(** Whether [_between_dates] raises does not depend on the window. *)
Lemma _between_dates_windows (p : string)
    (start1 end1 start2 end2 : option datetime_date) (b : bool) :
  _between_dates p start1 end1 = Ok b ->
  exists d,
    b = window_test d start1 end1
    /\ _between_dates p start2 end2 = Ok (window_test d start2 end2).
Proof.
  rewrite !_between_dates_unfold.
  destruct (findall_date p) as [|stamp stamps]; [discriminate |].
  destruct (fromisoformat stamp) as [d |]; [| discriminate].
  intros [= <-]. by exists d.
Qed.

Section SelectorOrder.

Variable project bucket : string.
Variable gcs_match : string -> list FileMetadata.
Variable _get_existing_datasources : string -> string -> list string.
Variable source_from_filename : string -> string.
Variable SCAN_TYPE_SATELLITE : string.
Variable SATELLITE_FILES : list string.

Variable scan_type : string.
Variable destination : string.

(** The objects enumerated under the family's prefix. *)
Let listing : list FileMetadata := gcs_match (bucket ++ scan_type ++ "/**/*")%string.

Let selection (incremental_load : bool)
    (start_date end_date : option datetime_date) : result (list string) :=
  _data_to_load project bucket gcs_match _get_existing_datasources
    source_from_filename SCAN_TYPE_SATELLITE SATELLITE_FILES
    scan_type incremental_load destination start_date end_date.

(** A selection with fewer sources to leave out and a wider window holds
    every file of the narrower one. *)
Lemma selection_mono (incremental1 incremental2 : bool)
    (start1 end1 start2 end2 : option datetime_date)
    (selected1 : list string) :
  (incremental2 = true -> incremental1 = true) ->
  (forall d, window_test d start1 end1 = true ->
             window_test d start2 end2 = true) ->
  selection incremental1 start1 end1 = Ok selected1 ->
  exists selected2,
    selection incremental2 start2 end2 = Ok selected2
    /\ sublist selected1 selected2.
Proof.
  intros Hinc Hwin. unfold selection, _data_to_load.
  rewrite combine_path_size.
  match goal with
  | |- result_bind (filter_raising ?c1 ?l) _ = _ ->
       exists _, result_bind (filter_raising ?c2 _) _ = _ /\ _ =>
      intros H;
      destruct (filter_raising c1 l) as [kept1 |] eqn:E1; [| discriminate H];
      destruct (filter_raising_mono c1 c2 l kept1) as (kept2 & E2 & Hsub);
      [| exact E1 |]
  end.
  - intros [filepath file_size] b _.
    destruct (_between_dates filepath start1 end1) as [b1 |] eqn:Eb;
      [| discriminate].
    destruct (_between_dates_windows _ _ _ start2 end2 _ Eb) as (d & -> & ->).
    cbn [result_bind]. intros [= <-]. eexists. split; [reflexivity |].
    rewrite !andb_true_iff. intros [[[Hw Hname] Hsource] Hsize].
    repeat split; [by apply Hwin | done | | done].
    unfold existing_sources_of in *.
    destruct incremental2; [by rewrite (Hinc eq_refl) in Hsource | done].
  - cbn [result_bind] in H. injection H as <-.
    rewrite E2. cbn [result_bind]. eexists. split; [reflexivity |].
    by apply sublist_map.
Qed.

(** X8. The selection is a part of the listing: the files returned are
    among the paths enumerated under the prefix, in the order of the
    enumeration, none more often than it is enumerated. *)
Theorem data_to_load_sublist_of_listing (incremental_load : bool)
    (start_date end_date : option datetime_date) (selected : list string) :
  selection incremental_load start_date end_date = Ok selected ->
  sublist selected (List.map path listing)
  /\ (length selected <= length listing)%nat.
Proof.
  unfold selection, _data_to_load. rewrite combine_path_size.
  match goal with
  | |- result_bind (filter_raising ?c ?l) _ = _ -> _ =>
      intros H; destruct (filter_raising c l) as [kept |] eqn:E;
      [| discriminate H]
  end.
  cbn [result_bind] in H. injection H as <-.
  apply filter_raising_sublist, (sublist_map fst) in E.
  rewrite List.map_map in E. cbn [fst] in E.
  split; [exact E |].
  apply sublist_length in E. rewrite !List.length_map in E.
  rewrite List.length_map. exact E.
Qed.

(** X9. Incremental and full load: every file an incremental load selects
    is selected by the full load with the same window, which then returns as
    well; the sources already at the destination only take files away. *)
Theorem data_to_load_incremental_in_full
    (start_date end_date : option datetime_date) (selected : list string) :
  selection true start_date end_date = Ok selected ->
  exists selected_full,
    selection false start_date end_date = Ok selected_full
    /\ sublist selected selected_full.
Proof. apply selection_mono; done. Qed.

(** X10. Widening the window: a selection with a window that admits every
    date the first one admits returns whenever the first does, and holds
    every file of the first; so does the selection without a window. *)
Theorem data_to_load_wider_window (incremental_load : bool)
    (start1 end1 start2 end2 : option datetime_date)
    (selected : list string) :
  (forall d, in_window d start1 end1 -> in_window d start2 end2) ->
  selection incremental_load start1 end1 = Ok selected ->
  (exists selected_wider,
     selection incremental_load start2 end2 = Ok selected_wider
     /\ sublist selected selected_wider)
  /\ (exists selected_all,
        selection incremental_load None None = Ok selected_all
        /\ sublist selected selected_all).
Proof.
  intros Hwider H. split.
  - apply (selection_mono incremental_load incremental_load start1 end1);
      [done | | done].
    intros d. rewrite !window_test_in_window. apply Hwider.
  - by apply (selection_mono incremental_load incremental_load start1 end1).
Qed.

End SelectorOrder.


(** The date pattern looks at ten characters. *)
Lemma date_pattern_at_app (p rest : string) :
  (10 <= String.length p)%nat ->
  date_pattern_at (p ++ rest)%string = date_pattern_at p
  /\ Str.take 10 (p ++ rest)%string = Str.take 10 p.
Proof.
  intros Hlen.
  do 10 (destruct p as [|? p]; [cbn [String.length] in Hlen; lia |]).
  split; reflexivity.
Qed.

Lemma findall_date_from_length (skip : nat) (p : string) :
  findall_date_from skip p <> [] -> (10 + skip <= String.length p)%nat.
Proof.
  revert skip; induction p as [|c p IH]; intros skip H; [done |].
  cbn [findall_date_from] in H. destruct skip as [|skip].
  - destruct (date_pattern_at (String c p)) eqn:E.
    + apply date_pattern_at_take in E as [Hshaped Hp].
      apply date_shaped_length in Hshaped. rewrite length_take in Hshaped.
      lia.
    + apply IH in H. cbn [String.length]. lia.
  - apply IH in H. cbn [String.length]. lia.
Qed.

(** What follows the leftmost stamp does not change it. *)
Lemma findall_date_head_app (p rest : string) :
  findall_date p <> [] ->
  head (findall_date (p ++ rest)%string) = head (findall_date p).
Proof.
  unfold findall_date. induction p as [|c p IH]; intros H; [done |].
  pose proof (findall_date_from_length 0 _ H) as Hlen.
  destruct (date_pattern_at_app (String c p) rest Hlen) as [Hat Htake].
  change (String c p ++ rest)%string with (String c (p ++ rest)%string) in *.
  cbn [findall_date_from] in *. rewrite Hat.
  destruct (date_pattern_at (String c p)).
  - cbn [head]. by rewrite Htake.
  - by apply IH.
Qed.

(** X22. The leftmost stamp decides: for a path that holds a date stamp,
    whatever is written after the path, a time of day, a file name or
    another date, changes nothing to what [_between_dates] returns or
    raises. *)
Theorem between_dates_leftmost_stamp (p rest : string)
    (start_date end_date : option datetime_date) :
  _between_dates p start_date end_date <> Raise IndexError ->
  _between_dates (p ++ rest)%string start_date end_date
  = _between_dates p start_date end_date.
Proof.
  intros H. rewrite !_between_dates_unfold in *.
  assert (findall_date p <> []) as Hstamp
    by (intros E; by rewrite E in H).
  pose proof (findall_date_head_app p rest Hstamp) as Hhead.
  destruct (findall_date p) as [|stamp stamps]; [done |].
  destruct (findall_date (p ++ rest)%string) as [|stamp' stamps'];
    [discriminate Hhead |].
  by injection Hhead as ->.
Qed.

Lemma strip_compression_suffix_spec (n a : string) :
  plain_filename a ->
  strip_compression_suffix n = a <-> n = a \/ n = (a ++ ".gz")%string.
Proof.
  intros [Hgz _]. unfold strip_compression_suffix. split.
  - destruct (Str.endswith ".gz" n) eqn:E; [| by left].
    intros <-. right. exact (endswith_inv _ _ E).
  - intros [-> | ->].
    + destruct (Str.endswith ".gz" a) eqn:E; [| done].
      apply endswith_contains in E. by rewrite E in Hgz.
    + rewrite endswith_app, length_append.
      replace (String.length a + String.length ".gz" - 3)%nat
        with (String.length a) by (cbn [String.length]; lia).
      apply take_append.
Qed.

(** X12. Matching file names: for allowed names that are plain, a path
    matches exactly when its last component is one of the allowed names or
    one of them followed by [.gz]; the directories of the path play no
    role. *)
Theorem filename_matches_plain_or_gz (filepath : string)
    (allowed_filenames : list string) :
  Forall plain_filename allowed_filenames ->
  _filename_matches filepath allowed_filenames = true <->
  exists a, In a allowed_filenames
            /\ (PurePosixPath.name filepath = a
                \/ PurePosixPath.name filepath = (a ++ ".gz")%string).
Proof.
  intros Hplain. rewrite (_filename_matches_spec _ _ Hplain). split.
  - intros Hin. eexists. split; [exact Hin |].
    apply strip_compression_suffix_spec; [| done].
    by apply (proj1 (List.Forall_forall _ _) Hplain).
  - intros (a & Hin & Hname).
    apply (strip_compression_suffix_spec _ a) in Hname as ->; [done |].
    by apply (proj1 (List.Forall_forall _ _) Hplain).
Qed.

Lemma data_to_load_sublist_of_listing_witness :
  _data_to_load Sample.project Sample.bucket Sample.gcs_match
    Sample._get_existing_datasources Sample.source_from_filename
    Sample.SCAN_TYPE_SATELLITE Sample.SATELLITE_FILES
    "echo" true "base.echo_scan" None None
  = Ok [Sample.scan_23]
  /\ sublist [Sample.scan_23]
             (List.map path
                (Sample.gcs_match (Sample.bucket ++ "echo" ++ "/**/*")%string)).
Proof.
  split; [reflexivity |].
  exact (proj1 (data_to_load_sublist_of_listing
                  Sample.project Sample.bucket Sample.gcs_match
                  Sample._get_existing_datasources Sample.source_from_filename
                  Sample.SCAN_TYPE_SATELLITE Sample.SATELLITE_FILES
                  "echo" "base.echo_scan" true None None [Sample.scan_23]
                  eq_refl)).
Defined.

Lemma data_to_load_incremental_in_full_witness :
  _data_to_load Sample.project Sample.bucket Sample.gcs_match
    Sample._get_existing_datasources Sample.source_from_filename
    Sample.SCAN_TYPE_SATELLITE Sample.SATELLITE_FILES
    "echo" true "base.echo_scan" None None
  = Ok [Sample.scan_23]
  /\ exists selected_full,
       _data_to_load Sample.project Sample.bucket Sample.gcs_match
         Sample._get_existing_datasources Sample.source_from_filename
         Sample.SCAN_TYPE_SATELLITE Sample.SATELLITE_FILES
         "echo" false "base.echo_scan" None None
       = Ok selected_full
       /\ sublist [Sample.scan_23] selected_full.
Proof.
  split; [reflexivity |].
  exact (data_to_load_incremental_in_full
           Sample.project Sample.bucket Sample.gcs_match
           Sample._get_existing_datasources Sample.source_from_filename
           Sample.SCAN_TYPE_SATELLITE Sample.SATELLITE_FILES
           "echo" "base.echo_scan" None None [Sample.scan_23] eq_refl).
Defined.

Lemma sample_window_wider (d : datetime_date) :
  in_window d (Some (mkDate 2020 8 23)) None ->
  in_window d (Some (mkDate 2020 8 1)) None.
Proof.
  intros [Hs _]. split; [| done]. intros s [= <-].
  apply (date_le_trans _ (mkDate 2020 8 23)); [| by apply Hs].
  unfold date_le. cbn. lia.
Qed.

Lemma data_to_load_wider_window_witness :
  (forall d, in_window d (Some (mkDate 2020 8 23)) None ->
             in_window d (Some (mkDate 2020 8 1)) None)
  /\ _data_to_load Sample.project Sample.bucket Sample.gcs_match
       Sample._get_existing_datasources Sample.source_from_filename
       Sample.SCAN_TYPE_SATELLITE Sample.SATELLITE_FILES
       "echo" false "base.echo_scan" (Some (mkDate 2020 8 23)) None
     = Ok [Sample.scan_23]
  /\ exists selected_wider,
       _data_to_load Sample.project Sample.bucket Sample.gcs_match
         Sample._get_existing_datasources Sample.source_from_filename
         Sample.SCAN_TYPE_SATELLITE Sample.SATELLITE_FILES
         "echo" false "base.echo_scan" (Some (mkDate 2020 8 1)) None
       = Ok selected_wider
       /\ sublist [Sample.scan_23] selected_wider.
Proof.
  split; [exact sample_window_wider |]. split; [reflexivity |].
  exact (proj1 (data_to_load_wider_window
                  Sample.project Sample.bucket Sample.gcs_match
                  Sample._get_existing_datasources Sample.source_from_filename
                  Sample.SCAN_TYPE_SATELLITE Sample.SATELLITE_FILES
                  "echo" "base.echo_scan" false
                  (Some (mkDate 2020 8 23)) None (Some (mkDate 2020 8 1)) None
                  [Sample.scan_23] sample_window_wider eq_refl)).
Defined.

Lemma sample_scan_22_dated : embedded_date Sample.scan_22 (mkDate 2020 8 22).
Proof. by apply (embedded_date_intro _ "2020-08-22"). Qed.


Lemma filename_matches_plain_or_gz_witness :
  Forall plain_filename SCAN_FILES
  /\ (_filename_matches Sample.scan_23 SCAN_FILES = true <->
      exists a, In a SCAN_FILES
                /\ (PurePosixPath.name Sample.scan_23 = a
                    \/ PurePosixPath.name Sample.scan_23
                       = (a ++ ".gz")%string)).
Proof.
  split; [exact SCAN_FILES_plain |].
  exact (filename_matches_plain_or_gz Sample.scan_23 SCAN_FILES
           SCAN_FILES_plain).
Defined.

Lemma between_dates_leftmost_stamp_witness :
  _between_dates "gs://firehook-scans/echo/CP_Quack-echo-2020-08-22" None None
  <> Raise IndexError
  /\ _between_dates
       ("gs://firehook-scans/echo/CP_Quack-echo-2020-08-22"
        ++ "-06-08-03/results-2021-01-01.json")%string
       (Some (mkDate 2020 8 22)) (Some (mkDate 2020 8 22))
     = Ok true.
Proof.
  split; [discriminate |].
  rewrite (between_dates_leftmost_stamp
             "gs://firehook-scans/echo/CP_Quack-echo-2020-08-22"
             "-06-08-03/results-2021-01-01.json"
             (Some (mkDate 2020 8 22)) (Some (mkDate 2020 8 22))
             ltac:(discriminate)).
  reflexivity.
Defined.

(** * More on the run, the flattener and the provider *)

Lemma dict_getitem_missing (d : list (string * string)) (key : string) :
  ~ In key (List.map fst d) -> dict_getitem d key = Raise (KeyError key).
Proof.
  induction d as [|[k v] d IH]; intros H; [reflexivity |].
  cbn [dict_getitem]. cbn [List.map fst In] in H.
  destruct (String.eqb k key) eqn:E.
  - apply String.eqb_eq in E. tauto.
  - apply IH. tauto.
Qed.

Section RunArguments.

Variable project bucket staging_location temp_location : string.
Variable gcs_match : string -> list FileMetadata.
Variable _get_existing_datasources : string -> string -> list string.
Variable source_from_filename : string -> string.
Variable SCAN_TYPE_SATELLITE : string.
Variable SATELLITE_FILES : list string.
Variable json_loads : string -> result Json.
Variable random_source : nat -> string.
Variable SATELLITE_PATH_COMPONENT : string.
Variable _process_satellite : string -> Json -> string -> result (list BigqueryRow).
Variable _process_hyperquack : string -> Json -> string -> result (list BigqueryRow).
Variable open_snapshot : datetime_date -> option (string -> Logged IpMetadata).
Variable read_lines : string -> list string.
Variable process_satellite_lines : list (string * string) -> M (list BigqueryRow).

Variable scan_type : string.
Variable incremental_load : bool.
Variable job_name destination : string.
Variable start_date end_date : option datetime_date.
Variable export_gcs : bool.

Let selection : result (list string) :=
  _data_to_load project bucket gcs_match _get_existing_datasources
    source_from_filename SCAN_TYPE_SATELLITE SATELLITE_FILES
    scan_type incremental_load destination start_date end_date.

Let run : M Outcome :=
  run_beam_pipeline project bucket staging_location temp_location
    gcs_match _get_existing_datasources
    source_from_filename SCAN_TYPE_SATELLITE SATELLITE_FILES
    json_loads random_source SATELLITE_PATH_COMPONENT
    _process_satellite _process_hyperquack open_snapshot
    read_lines process_satellite_lines
    scan_type incremental_load job_name destination start_date end_date
    export_gcs.

(** X13. Destination and export mode: a run whose destination does not
    suit its export mode raises the exception that says so, before anything
    is listed, read, looked up or logged. *)
Theorem run_rejects_mismatched_destination (w : World) :
  export_gcs <> Str.startswith "gs://" destination ->
  run w
  = (Raise (Exception
              (if export_gcs
               then "Destination must start with gs:// when writing to GCS."
               else "Destination must be a dataset.table name when writing to BigQuery.")),
     w).
Proof.
  intros H. unfold run, run_beam_pipeline.
  by destruct export_gcs, (Str.startswith "gs://" destination).
Qed.

(** X14. Unknown scan type: with a destination that suits the export
    mode, a scan type that has no zone makes the run raise [KeyError] for
    it, before the files are selected. *)
Theorem run_unknown_scan_type (w : World) :
  export_gcs = Str.startswith "gs://" destination ->
  ~ In scan_type ALL_SCAN_TYPES ->
  run w = (Raise (KeyError scan_type), w).
Proof.
  intros Hdest Hscan. unfold run, run_beam_pipeline, _get_pipeline_options.
  rewrite <- Hdest, (dict_getitem_missing _ _ Hscan).
  by destruct export_gcs.
Qed.

(** X15. Nothing to load: in a run with valid arguments, an empty
    selection ends the run with one INFO record and nothing else: no line is
    read, no identifier drawn, no provider asked, nothing written. A
    selection that raises ends the run with its exception. *)
Theorem run_nothing_to_load (w : World) :
  In scan_type ALL_SCAN_TYPES ->
  export_gcs = Str.startswith "gs://" destination ->
  (selection = Ok [] ->
   run w
   = (Ok NothingToLoad,
      mkWorld (log w ++ [mkLogRecord "INFO" "No new files to load" []])
              (uuid_draws w) (provider_calls w)))
  /\ (forall e, selection = Raise e -> run w = (Raise e, w)).
Proof.
  intros Hknown Hdest.
  destruct (_get_pipeline_options_known project staging_location temp_location
              scan_type job_name Hknown) as [options Hoptions].
  split; [intros Hsel | intros e Hsel];
    unfold run, run_beam_pipeline; rewrite <- Hdest, Hoptions;
    fold selection; rewrite Hsel; by destruct export_gcs.
Qed.

End RunArguments.

Lemma run_rejects_mismatched_destination_witness :
  true <> Str.startswith "gs://" "base.echo_scan"
  /\ run_beam_pipeline Sample.project Sample.bucket Sample.staging_location
       Sample.temp_location Sample.gcs_match Sample._get_existing_datasources
       Sample.source_from_filename Sample.SCAN_TYPE_SATELLITE
       Sample.SATELLITE_FILES Sample.json_loads Sample.random_source
       Sample.SATELLITE_PATH_COMPONENT Sample._process_satellite
       Sample._process_hyperquack Sample.open_snapshot Sample.read_lines
       Sample.process_satellite_lines
       "echo" true "append-base-echo-scan" "base.echo_scan" None None true
       Sample.world
     = (Raise (Exception
                 "Destination must start with gs:// when writing to GCS."),
        Sample.world).
Proof.
  split; [discriminate |].
  exact (run_rejects_mismatched_destination
           Sample.project Sample.bucket Sample.staging_location
           Sample.temp_location Sample.gcs_match
           Sample._get_existing_datasources
           Sample.source_from_filename Sample.SCAN_TYPE_SATELLITE
           Sample.SATELLITE_FILES Sample.json_loads Sample.random_source
           Sample.SATELLITE_PATH_COMPONENT Sample._process_satellite
           Sample._process_hyperquack Sample.open_snapshot Sample.read_lines
           Sample.process_satellite_lines
           "echo" true "append-base-echo-scan" "base.echo_scan" None None true
           Sample.world ltac:(discriminate)).
Defined.

Lemma page_fetch_unknown : ~ In "page_fetch" ALL_SCAN_TYPES.
Proof.
  intros H. repeat (destruct H as [H | H]; [discriminate H |]). destruct H.
Qed.

Lemma run_unknown_scan_type_witness :
  false = Str.startswith "gs://" "base.page_fetch_scan"
  /\ ~ In "page_fetch" ALL_SCAN_TYPES
  /\ run_beam_pipeline Sample.project Sample.bucket Sample.staging_location
       Sample.temp_location Sample.gcs_match Sample._get_existing_datasources
       Sample.source_from_filename Sample.SCAN_TYPE_SATELLITE
       Sample.SATELLITE_FILES Sample.json_loads Sample.random_source
       Sample.SATELLITE_PATH_COMPONENT Sample._process_satellite
       Sample._process_hyperquack Sample.open_snapshot Sample.read_lines
       Sample.process_satellite_lines
       "page_fetch" false "write-base-page-fetch-scan" "base.page_fetch_scan"
       None None false Sample.world
     = (Raise (KeyError "page_fetch"), Sample.world).
Proof.
  split; [reflexivity |]. split; [exact page_fetch_unknown |].
  exact (run_unknown_scan_type
           Sample.project Sample.bucket Sample.staging_location
           Sample.temp_location Sample.gcs_match
           Sample._get_existing_datasources
           Sample.source_from_filename Sample.SCAN_TYPE_SATELLITE
           Sample.SATELLITE_FILES Sample.json_loads Sample.random_source
           Sample.SATELLITE_PATH_COMPONENT Sample._process_satellite
           Sample._process_hyperquack Sample.open_snapshot Sample.read_lines
           Sample.process_satellite_lines
           "page_fetch" false "write-base-page-fetch-scan"
           "base.page_fetch_scan" None None false
           Sample.world eq_refl page_fetch_unknown).
Defined.

Lemma http_known : In "http" ALL_SCAN_TYPES.
Proof. vm_compute. tauto. Qed.

Lemma run_nothing_to_load_witness :
  In "http" ALL_SCAN_TYPES
  /\ false = Str.startswith "gs://" "base.http_scan"
  /\ _data_to_load Sample.project Sample.bucket Sample.gcs_match
       Sample._get_existing_datasources Sample.source_from_filename
       Sample.SCAN_TYPE_SATELLITE Sample.SATELLITE_FILES
       "http" false "base.http_scan" None None
     = Ok []
  /\ run_beam_pipeline Sample.project Sample.bucket Sample.staging_location
       Sample.temp_location Sample.gcs_match Sample._get_existing_datasources
       Sample.source_from_filename Sample.SCAN_TYPE_SATELLITE
       Sample.SATELLITE_FILES Sample.json_loads Sample.random_source
       Sample.SATELLITE_PATH_COMPONENT Sample._process_satellite
       Sample._process_hyperquack Sample.open_snapshot Sample.read_lines
       Sample.process_satellite_lines
       "http" false "write-base-http-scan" "base.http_scan" None None false
       Sample.world
     = (Ok NothingToLoad,
        mkWorld [mkLogRecord "INFO" "No new files to load" []] 0 []).
Proof.
  split; [exact http_known |]. split; [reflexivity |]. split; [reflexivity |].
  exact (proj1 (run_nothing_to_load
           Sample.project Sample.bucket Sample.staging_location
           Sample.temp_location Sample.gcs_match
           Sample._get_existing_datasources
           Sample.source_from_filename Sample.SCAN_TYPE_SATELLITE
           Sample.SATELLITE_FILES Sample.json_loads Sample.random_source
           Sample.SATELLITE_PATH_COMPONENT Sample._process_satellite
           Sample._process_hyperquack Sample.open_snapshot Sample.read_lines
           Sample.process_satellite_lines
           "http" false "write-base-http-scan" "base.http_scan" None None false
           Sample.world http_known eq_refl) eq_refl).
Defined.

(** ** The flattener over the lines of the files *)

Lemma for_each_cons {A B : Type} (body : A -> M (list B)) (x : A)
    (l : list A) (w : World) :
  for_each body (x :: l) w
  = match body x w with
    | (Ok ys, w1) =>
        match for_each body l w1 with
        | (Ok rest, w2) => (Ok (ys ++ rest), w2)
        | (Raise e, w2) => (Raise e, w2)
        end
    | (Raise e, w1) => (Raise e, w1)
    end.
Proof.
  cbn [for_each]. unfold M_bind, M_ret.
  destruct (body x w) as [[ys | e] w1]; [| done].
  by destruct (for_each body l w1) as [[rest | e] w2].
Qed.

Section FlattenAccounting.

Variable json_loads : string -> result Json.
Variable random_source : nat -> string.
Variable SATELLITE_PATH_COMPONENT : string.
Variable _process_satellite : string -> Json -> string -> result (list BigqueryRow).
Variable _process_hyperquack : string -> Json -> string -> result (list BigqueryRow).

Let flatten : string * string -> M (list BigqueryRow) :=
  process json_loads random_source SATELLITE_PATH_COMPONENT
          _process_satellite _process_hyperquack.

(** One line: an identifier is drawn exactly when the line parses, a
    warning logged exactly when it is malformed. *)
Lemma process_accounting (element : string * string) (w : World) :
  provider_calls (snd (flatten element w)) = provider_calls w
  /\ uuid_draws (snd (flatten element w))
     = (uuid_draws w + parsed_lines json_loads [element])%nat
  /\ (is_ok (fst (flatten element w)) = true ->
      log (snd (flatten element w))
      = log w ++ malformed_warnings json_loads [element]).
Proof.
  destruct element as [filename line].
  unfold flatten, process, parsed_lines, malformed_warnings.
  cbn [List.map List.concat List.filter snd fst].
  destruct (json_loads line) as [scan | e]; cbn [is_ok length].
  - unfold M_bind, uuid4_hex, lift.
    destruct (Str.contains SATELLITE_PATH_COMPONENT filename);
      cbn [snd fst provider_calls uuid_draws log];
      rewrite app_nil_r; repeat split; lia.
  - destruct e; cbn [snd fst raise provider_calls uuid_draws log is_ok];
      try (repeat split; [lia | discriminate]).
    unfold M_bind, logging_warning, emit, M_ret.
    cbn [snd fst provider_calls uuid_draws log]. rewrite app_nil_r.
    repeat split; lia.
Qed.

Lemma parsed_lines_cons (element : string * string)
    (lines : list (string * string)) :
  parsed_lines json_loads (element :: lines)
  = (parsed_lines json_loads [element] + parsed_lines json_loads lines)%nat.
Proof.
  unfold parsed_lines. cbn [List.filter].
  by destruct (is_ok (json_loads (snd element))).
Qed.

Lemma malformed_warnings_cons (element : string * string)
    (lines : list (string * string)) :
  malformed_warnings json_loads (element :: lines)
  = malformed_warnings json_loads [element]
    ++ malformed_warnings json_loads lines.
Proof.
  unfold malformed_warnings. cbn [List.map List.concat].
  by rewrite app_nil_r.
Qed.

(** X16. What flattening the lines costs: it never touches the provider;
    it draws at most one identifier per line that parses, and, when it runs
    to its end, exactly one per such line, and has then logged exactly one
    warning per malformed line, in the order of the lines. *)
Theorem flatten_accounting (lines : list (string * string)) (w : World) :
  provider_calls (snd (for_each flatten lines w)) = provider_calls w
  /\ (uuid_draws w <= uuid_draws (snd (for_each flatten lines w))
      <= uuid_draws w + parsed_lines json_loads lines)%nat
  /\ (is_ok (fst (for_each flatten lines w)) = true ->
      uuid_draws (snd (for_each flatten lines w))
      = (uuid_draws w + parsed_lines json_loads lines)%nat
      /\ log (snd (for_each flatten lines w))
         = log w ++ malformed_warnings json_loads lines).
Proof.
  revert w; induction lines as [|element lines IH]; intros w.
  - cbn [for_each M_ret snd fst]. unfold parsed_lines, malformed_warnings.
    cbn [List.filter List.map List.concat length]. rewrite app_nil_r.
    repeat split; lia.
  - rewrite for_each_cons.
    destruct (process_accounting element w) as (Hcalls & Hdraws & Hlog).
    rewrite parsed_lines_cons, malformed_warnings_cons.
    destruct (flatten element w) as [[ys | e] w1] eqn:E1;
      cbn [snd fst] in *.
    + destruct (IH w1) as (IHcalls & IHdraws & IHlog).
      destruct (for_each flatten lines w1) as [[rest | e] w2];
        cbn [snd fst is_ok] in *.
      * destruct (IHlog eq_refl) as [-> ->].
        rewrite Hlog, app_assoc by done. repeat split; lia || congruence.
      * repeat split; try discriminate; lia || congruence.
    + cbn [is_ok]. repeat split; try discriminate; lia || congruence.
Qed.

End FlattenAccounting.

(** ** The Maxmind provider *)

Section MaxmindShape.

Variable maxmind_city : string -> result geoip2.City.
Variable maxmind_asn : string -> result geoip2.ASN.

Let lookup := MaxmindIpMetadata.lookup maxmind_city maxmind_asn.

(** X17. What a lookup returns: a record [lookup] returns has a non-zero
    ASN, which with the name and the netblock is what the ASN database
    holds for the address; its full name and type are unset; its country is
    what the city database holds, and unset when that database fails for
    the address. *)
Theorem lookup_result_shape (ip : string) (netblock : option string)
    (asn : Z) (as_name as_full_name as_type country : option string) :
  fst (lookup ip)
  = Ok (netblock, asn, as_name, as_full_name, as_type, country) ->
  asn <> 0 /\ as_full_name = None /\ as_type = None
  /\ (exists found,
        maxmind_asn ip = Ok found
        /\ geoip2.autonomous_system_number found = Some asn
        /\ geoip2.autonomous_system_organization found = as_name
        /\ geoip2.network found = netblock)
  /\ match maxmind_city ip with
     | Ok vp_info => country = geoip2.country_iso_code vp_info
     | Raise _ => country = None
     end.
Proof.
  unfold lookup, MaxmindIpMetadata.lookup, MaxmindIpMetadata._get_maxmind_asn,
    MaxmindIpMetadata._get_country_code.
  destruct (maxmind_asn ip) as [found | e1].
  - destruct found as [[n |] organization network];
      cbn [Logged_bind geoip2.autonomous_system_number
           geoip2.autonomous_system_organization geoip2.network];
      destruct (maxmind_city ip) as [vp_info | []];
      cbn [Logged_bind not_int fst Logged_ret default];
      try discriminate;
      destruct (n =? 0)%Z eqn:En; cbn [fst]; try discriminate;
      intros [= <- <- <- <- <- <-];
      apply Z.eqb_neq in En;
      (repeat split; [done | by eexists]).
  - destruct e1; cbn [Logged_bind fst]; try discriminate;
      destruct (maxmind_city ip) as [vp_info | []];
      cbn [Logged_bind not_int fst]; discriminate.
Qed.

(** X18. What a lookup raises and logs: [lookup] never raises the
    [ValueError] or the [AddressNotFoundError] of a reader; when the ASN
    database answers or fails with one of these two, the city database is
    asked as well, also when no ASN was found, and the log holds one warning
    per reader that failed so, the ASN reader's first. *)
Theorem lookup_raises_and_logs (ip : string) :
  fst (lookup ip) <> Raise ValueError
  /\ fst (lookup ip) <> Raise AddressNotFoundError
  /\ (is_ok (maxmind_asn ip) || caught (maxmind_asn ip) = true ->
      snd (lookup ip)
      = reader_warnings (maxmind_asn ip) ++ reader_warnings (maxmind_city ip))
  /\ (caught (maxmind_asn ip) = true -> caught (maxmind_city ip) = true ->
      fst (lookup ip) = Raise (KeyError ("No Maxmind entry for " ++ ip)%string)
      /\ length (snd (lookup ip)) = 2%nat).
Proof.
  unfold lookup, MaxmindIpMetadata.lookup, MaxmindIpMetadata._get_maxmind_asn,
    MaxmindIpMetadata._get_country_code.
  destruct (maxmind_asn ip) as [[[n |] organization network] | []];
    destruct (maxmind_city ip) as [vp_info | []];
    cbn [Logged_bind geoip2.autonomous_system_number
         geoip2.autonomous_system_organization geoip2.network
         not_int fst snd Logged_ret is_ok caught reader_warnings orb
         str_of_exn List.app];
    try destruct (n =? 0)%Z;
    cbn [fst snd List.app length];
    repeat split; try discriminate; try reflexivity.
Qed.

End MaxmindShape.

Lemma lookup_result_shape_witness :
  fst (MaxmindIpMetadata.lookup Sample.maxmind_city Sample.maxmind_asn
         "1.1.1.1")
  = Ok (Some "1.1.1.0/24", 13335, Some "CLOUDFLARENET", None, None, None)
  /\ exists found,
       Sample.maxmind_asn "1.1.1.1" = Ok found
       /\ geoip2.autonomous_system_number found = Some 13335.
Proof.
  split; [reflexivity |].
  destruct (lookup_result_shape Sample.maxmind_city Sample.maxmind_asn
              "1.1.1.1" (Some "1.1.1.0/24") 13335 (Some "CLOUDFLARENET")
              None None None eq_refl)
    as (_ & _ & _ & (found & E & Hn & _) & _).
  by exists found.
Defined.

Lemma lookup_raises_and_logs_witness :
  caught (Sample.maxmind_asn "8.8.8.8") = true
  /\ caught (Sample.maxmind_city "8.8.8.8") = true
  /\ MaxmindIpMetadata.lookup Sample.maxmind_city Sample.maxmind_asn "8.8.8.8"
     = (Raise (KeyError "No Maxmind entry for 8.8.8.8"),
        [mkLogRecord "WARNING" "Maxmind: %s\n" ["AddressNotFoundError"];
         mkLogRecord "WARNING" "Maxmind: %s\n" ["AddressNotFoundError"]]).
Proof.
  split; [reflexivity |]. split; [reflexivity |].
  destruct (lookup_raises_and_logs Sample.maxmind_city Sample.maxmind_asn
              "8.8.8.8") as (_ & _ & Hlog & Hboth).
  destruct (Hboth eq_refl eq_refl) as [Hraise _].
  specialize (Hlog eq_refl).
  destruct (MaxmindIpMetadata.lookup Sample.maxmind_city Sample.maxmind_asn
              "8.8.8.8") as [r l].
  cbn [fst snd] in *. by rewrite Hraise, Hlog.
Defined.

Lemma flatten_accounting_witness :
  is_ok (fst (for_each
                (process Sample.json_loads Sample.random_source
                         Sample.SATELLITE_PATH_COMPONENT
                         Sample._process_satellite Sample._process_hyperquack)
                (_read_scan_text Sample.read_lines [Sample.scan_23])
                Sample.world)) = true
  /\ uuid_draws
       (snd (for_each
               (process Sample.json_loads Sample.random_source
                        Sample.SATELLITE_PATH_COMPONENT
                        Sample._process_satellite Sample._process_hyperquack)
               (_read_scan_text Sample.read_lines [Sample.scan_23])
               Sample.world))
     = 2%nat.
Proof.
  split; [reflexivity |].
  destruct (flatten_accounting Sample.json_loads Sample.random_source
              Sample.SATELLITE_PATH_COMPONENT
              Sample._process_satellite Sample._process_hyperquack
              (_read_scan_text Sample.read_lines [Sample.scan_23])
              Sample.world) as (_ & _ & H).
  exact (proj1 (H eq_refl)).
Defined.

(** ** Opening the Maxmind databases *)

Lemma last_snoc {A : Type} (l : list A) (x d : A) : List.last (l ++ [x]) d = x.
Proof.
  induction l as [|y l IH]; [reflexivity |].
  cbn [List.app]. destruct (l ++ [x]) eqn:E; [by destruct l |].
  exact IH.
Qed.

(** The last component of a path that ends in a slash and a plain name. *)
Lemma name_of_file_in (folder file : string) :
  has_char "/" file = false -> file <> ""%string -> file <> "."%string ->
  PurePosixPath.name (folder ++ String "/" file)%string = file.
Proof.
  intros Hslash Hempty Hdot. unfold PurePosixPath.name, PurePosixPath.parts.
  rewrite split_app, List.filter_app, (split_no_char _ _ Hslash).
  cbn [List.filter].
  apply String.eqb_neq in Hempty, Hdot. rewrite Hempty, Hdot. cbn [negb andb].
  apply last_snoc.
Qed.

Lemma name_of_file (file : string) :
  has_char "/" file = false -> file <> ""%string -> file <> "."%string ->
  PurePosixPath.name file = file.
Proof.
  intros Hslash Hempty Hdot. unfold PurePosixPath.name, PurePosixPath.parts.
  rewrite (split_no_char _ _ Hslash). cbn [List.filter].
  apply String.eqb_neq in Hempty, Hdot. by rewrite Hempty, Hdot.
Qed.

(** [os.path.join] puts a plain name into the folder. *)
Lemma name_os_path_join (folder file : string) :
  has_char "/" file = false -> file <> ""%string -> file <> "."%string ->
  PurePosixPath.name (PyStr.os_path_join folder file) = file.
Proof.
  intros Hslash Hempty Hdot. unfold PyStr.os_path_join.
  rewrite (startswith_lacks_char "/" file "/" eq_refl Hslash).
  destruct (String.eqb folder "") eqn:E.
  - apply String.eqb_eq in E as ->. cbn [orb String.append].
    by apply name_of_file.
  - cbn [orb]. destruct (Str.endswith "/" folder) eqn:Eend.
    + rewrite (endswith_inv _ _ Eend), append_assoc.
      by apply name_of_file_in.
    + by apply name_of_file_in.
Qed.

Lemma os_path_join_slash (folder file : string) :
  folder <> ""%string -> Str.endswith "/" folder = false ->
  PyStr.os_path_join (folder ++ "/")%string file
  = PyStr.os_path_join folder file.
Proof.
  intros Hfolder Hend. unfold PyStr.os_path_join.
  destruct (Str.startswith "/" file); [done |].
  rewrite endswith_app, orb_true_r, Hend, orb_false_r.
  apply String.eqb_neq in Hfolder. rewrite Hfolder.
  by rewrite append_assoc.
Qed.



(** ** The metadata of one date *)

Section JoinOrder.

Variable open_snapshot : datetime_date -> option (string -> Logged IpMetadata).

(** X20. The metadata of one date: [_add_ip_metadata] raises what the
    date raises when it does not parse, without a call to the provider;
    else it asks the factory once, also for no address at all, and when the
    snapshot opens it looks every address up on that one instance, in the
    order given, and returns one record per address under the key of the
    date and the address; it draws no identifier. *)
Theorem add_ip_metadata_calls (date : string) (ips : list string)
    (w : World) :
  uuid_draws (snd (_add_ip_metadata open_snapshot date ips w)) = uuid_draws w
  /\ match fromisoformat date with
     | Raise e => _add_ip_metadata open_snapshot date ips w = (Raise e, w)
     | Ok d =>
         let instance := length (provider_calls w) in
         match open_snapshot d with
         | None =>
             fst (_add_ip_metadata open_snapshot date ips w)
             = Raise ProviderUnavailable
             /\ provider_calls (snd (_add_ip_metadata open_snapshot date ips w))
                = provider_calls w ++ [MakeChooser d instance]
         | Some answers =>
             fst (_add_ip_metadata open_snapshot date ips w)
             = Ok (List.map
                     (fun ip => ((date, ip),
                                 metadata_of_answer (fst (answers ip))))
                     ips)
             /\ provider_calls (snd (_add_ip_metadata open_snapshot date ips w))
                = provider_calls w
                  ++ MakeChooser d instance
                     :: List.map (GetMetadata instance) ips
         end
     end.
Proof.
  destruct (fromisoformat date) as [d | e] eqn:Edate.
  - destruct (open_snapshot d) as [answers |] eqn:Eopen.
    + destruct (_add_ip_metadata_available open_snapshot date ips w d answers
                  Edate Eopen) as [logged ->].
      cbn [fst snd uuid_draws provider_calls]. repeat split.
      f_equal. apply List.map_ext. intros a. unfold resolve.
      cbn [fst snd]. by rewrite Edate, Eopen.
    + rewrite (_add_ip_metadata_unavailable open_snapshot date ips w d
                 Edate Eopen).
      by cbn [fst snd uuid_draws provider_calls].
  - rewrite (_add_ip_metadata_bad_date open_snapshot date ips w e Edate).
    by cbn [fst snd].
Qed.

Lemma providers_available_perm (rows rows' : list BigqueryRow) :
  rows ≡ₚ rows' ->
  providers_available open_snapshot rows ->
  providers_available open_snapshot rows'.
Proof.
  intros Hperm Hav row Hin. apply Hav.
  by apply (Permutation_in _ (Permutation_sym Hperm)).
Qed.

(** X21. The order of the rows does not matter: when the join returns for
    a collection of rows, it returns for the rows in any other order, from
    any state, and the rows it returns are the same up to their order. *)
Theorem add_metadata_order_insensitive (rows rows' : list BigqueryRow)
    (w w0 : World) (rows_with_metadata : list BigqueryRow) (w' : World) :
  rows ≡ₚ rows' ->
  _add_metadata open_snapshot rows w = (Ok rows_with_metadata, w') ->
  exists rows_with_metadata' w0',
    _add_metadata open_snapshot rows' w0 = (Ok rows_with_metadata', w0')
    /\ rows_with_metadata ≡ₚ rows_with_metadata'.
Proof.
  intros Hperm Hrun.
  destruct (_add_metadata_returns open_snapshot rows w) as [Hav Hout].
  destruct (_add_metadata_returns open_snapshot rows' w0) as [Hav' Hout'].
  apply Hout in Hrun as Hjoined.
  assert (providers_available open_snapshot rows') as Havailable.
  { apply (providers_available_perm rows); [done |].
    apply Hav. by eexists _, _. }
  destruct (proj1 Hav' Havailable) as (out' & w0' & Hrun').
  exists out', w0'. split; [done |].
  rewrite Hjoined, (Hout' _ _ Hrun').
  by apply Permutation_map.
Qed.

End JoinOrder.

Lemma sample_rows_reversed : Sample.rows ≡ₚ List.rev Sample.rows.
Proof. apply Permutation_rev. Qed.

Lemma add_metadata_order_insensitive_witness :
  Sample.rows ≡ₚ List.rev Sample.rows
  /\ is_ok (fst (_add_metadata Sample.open_snapshot Sample.rows Sample.world))
     = true
  /\ exists rows_with_metadata' w0',
       _add_metadata Sample.open_snapshot (List.rev Sample.rows) Sample.world
       = (Ok rows_with_metadata', w0').
Proof.
  split; [exact sample_rows_reversed |]. split; [reflexivity |].
  destruct (_add_metadata Sample.open_snapshot Sample.rows Sample.world)
    as [[out | e] w'] eqn:E; [| discriminate E].
  destruct (add_metadata_order_insensitive Sample.open_snapshot
              Sample.rows (List.rev Sample.rows) Sample.world Sample.world
              out w' sample_rows_reversed E)
    as (out' & w0' & E' & _).
  by exists out', w0'.
Defined.

(** ** The run from the selected files to the rows written *)

Section RunComposition.

Variable project bucket staging_location temp_location : string.
Variable gcs_match : string -> list FileMetadata.
Variable _get_existing_datasources : string -> string -> list string.
Variable source_from_filename : string -> string.
Variable SCAN_TYPE_SATELLITE : string.
Variable SATELLITE_FILES : list string.
Variable json_loads : string -> result Json.
Variable random_source : nat -> string.
Variable SATELLITE_PATH_COMPONENT : string.
Variable _process_satellite : string -> Json -> string -> result (list BigqueryRow).
Variable _process_hyperquack : string -> Json -> string -> result (list BigqueryRow).
Variable open_snapshot : datetime_date -> option (string -> Logged IpMetadata).
Variable read_lines : string -> list string.
Variable process_satellite_lines : list (string * string) -> M (list BigqueryRow).

Variable scan_type : string.
Variable incremental_load : bool.
Variable job_name destination : string.
Variable start_date end_date : option datetime_date.
Variable export_gcs : bool.

Let selection : result (list string) :=
  _data_to_load project bucket gcs_match _get_existing_datasources
    source_from_filename SCAN_TYPE_SATELLITE SATELLITE_FILES
    scan_type incremental_load destination start_date end_date.

(** The stage that turns the lines of the selected files into rows. *)
Let flatten_stage (new_filenames : list string) : M (list BigqueryRow) :=
  let lines := _read_scan_text read_lines new_filenames in
  if String.eqb scan_type SCAN_TYPE_SATELLITE
  then process_satellite_lines lines
  else for_each
         (process json_loads random_source SATELLITE_PATH_COMPONENT
                  _process_satellite _process_hyperquack)
         lines.

Let run : M Outcome :=
  run_beam_pipeline project bucket staging_location temp_location
    gcs_match _get_existing_datasources
    source_from_filename SCAN_TYPE_SATELLITE SATELLITE_FILES
    json_loads random_source SATELLITE_PATH_COMPONENT
    _process_satellite _process_hyperquack open_snapshot
    read_lines process_satellite_lines
    scan_type incremental_load job_name destination start_date end_date
    export_gcs.

(** Where the rows go: the GCS folder, or the table of the project, which
    an incremental load appends to. *)
Let written (rows : list BigqueryRow) : Outcome :=
  if export_gcs
  then WrittenToGcs destination rows
  else WrittenToBigquery (_get_full_table_name project destination)
                         incremental_load rows.

Lemma run_stages (new_filenames : list string) (w : World) :
  In scan_type ALL_SCAN_TYPES ->
  export_gcs = Str.startswith "gs://" destination ->
  selection = Ok new_filenames -> new_filenames <> [] ->
  run w
  = M_bind (flatten_stage new_filenames)
      (fun rows =>
         M_bind (_add_metadata open_snapshot rows)
           (fun rows_with_metadata =>
              M_bind (lift (_raise_error_if_collection_empty
                              rows_with_metadata))
                (fun _ => M_ret (written rows_with_metadata)))) w.
Proof.
  exact (run_unfold project bucket staging_location temp_location
           gcs_match _get_existing_datasources
           source_from_filename SCAN_TYPE_SATELLITE SATELLITE_FILES
           json_loads random_source SATELLITE_PATH_COMPONENT
           _process_satellite _process_hyperquack open_snapshot
           read_lines process_satellite_lines
           scan_type incremental_load job_name destination start_date end_date
           export_gcs new_filenames w).
Qed.


End RunComposition.

Lemma sample_selection_echo :
  _data_to_load Sample.project Sample.bucket Sample.gcs_match
    Sample._get_existing_datasources Sample.source_from_filename
    Sample.SCAN_TYPE_SATELLITE Sample.SATELLITE_FILES
    "echo" true "base.echo_scan" None None
  = Ok [Sample.scan_23].
Proof. reflexivity. Qed.

Lemma echo_known : In "echo" ALL_SCAN_TYPES.
Proof. vm_compute. tauto. Qed.

Lemma sample_flattened :
  for_each
    (process Sample.json_loads Sample.random_source
             Sample.SATELLITE_PATH_COMPONENT
             Sample._process_satellite Sample._process_hyperquack)
    (_read_scan_text Sample.read_lines [Sample.scan_23]) Sample.world
  = (Ok RunSample.flattened, RunSample.flattened_world).
Proof. reflexivity. Qed.

Lemma sample_flattened_available :
  providers_available Sample.open_snapshot RunSample.flattened.
Proof.
  intros row Hin. exists (mkDate 2020 8 23), Sample.answers.
  repeat (destruct Hin as [<- | Hin]; [by split |]). destruct Hin.
Qed.

